(** * The spawn_worker trampoline (src/spawn_worker/src/trampoline.c)

    A shallow embedding of [main] as built for POSIX (the [#ifndef _WIN32]
    branch), over an explicit model of the operating system:

    - every library call the program makes is logged, with what it returned,
      in a chronological trace of [Event]s;
    - what the operating system answers (does a library open, does a symbol
      resolve, is the log file configured, does the invoked symbol return) is
      given by an [Env] of oracles which may depend on the whole history;
    - the loader's "last error" side channel read by [dlerror] is a component of
      the program state, set by a failing [dlopen]/[dlsym] and reset by
      [dlerror];
    - [return] from the middle of [main], a call that never comes back and
      undefined behaviour (an out-of-bounds read, a store or a jump through a
      null pointer) are results of the monad [M];
    - what the C language leaves to the implementation, the order in which
      the two arguments of [fputs(dlerror(), error_fd())] are evaluated, is an
      answer of the environment as well.

    Modelling conventions: a C string is the Rocq [string] of its bytes before
    the terminating NUL ([cstring] says that none of them is NUL); [argc] is
    the length of [argv] (far below [INT_MAX], so [int] arithmetic does not
    wrap); a non-null pointer is a [positive] and a nullable one an [option];
    [calloc] returns null when the environment says so; [calloc] and [free]
    leave no event. Of the values that [main] discards, only the one of
    [unlink] is recorded.

    The [#else] branch of [main] (LoadLibrary, GetProcAddress) is embedded
    apart, in the module [Win32], over the calls of that platform. *)

From Stdlib Require Import ZArith Lia Bool Ascii String DecimalString.
From stdpp Require Import base tactics option list strings.

Local Open Scope string_scope.
Local Open Scope list_scope.
Local Open Scope Z_scope.

(** ** C strings *)

Definition NUL : ascii := Ascii.zero.

Definition byte_val (c : ascii) : Z := Z.of_N (N_of_ascii c).

(** [s[i]]: the byte at index [i], the terminator at [i = length s]. *)
Definition char_at (s : string) (i : nat) : ascii :=
  match String.get i s with
  | Some c => c
  | None => NUL
  end.

(** No byte before the terminator is NUL. *)
Fixpoint cstring (s : string) : bool :=
  match s with
  | EmptyString => true
  | String c s' => negb (Ascii.eqb c NUL) && cstring s'
  end.

(** [strcmp(a, b)]: the difference of the first pair of bytes that differ,
    comparing up to and including the terminator. *)
Fixpoint strcmp (a b : string) : Z :=
  match a, b with
  | EmptyString, EmptyString => 0
  | EmptyString, String d _ => 0 - byte_val d
  | String c _, EmptyString => byte_val c - 0
  | String c a', String d b' =>
      if Ascii.eqb c d
      then (if Ascii.eqb c NUL then 0 else strcmp a' b')
      else byte_val c - byte_val d
  end.

(** [*lib_path == '-' && !lib_path[1]] *)
Definition is_marker (lib_path : string) : bool :=
  Ascii.eqb (char_at lib_path 0) "-"%char
  && Ascii.eqb (char_at lib_path 1) NUL.

(** ** The operating system as seen by the trampoline *)

Definition Handle := positive.   (* non-null [void *] returned by dlopen *)
Definition Symbol := positive.   (* non-null address returned by dlsym *)
Definition File := positive.     (* non-null [FILE *] returned by fopen *)

Inductive Stream : Type :=
| Stderr
| LogFile (f : File).

(** Which of the two [dlopen] call sites of [main] issued a call. *)
Inductive Site : Type :=
| Dependency
| Target.

Inductive Event : Type :=
| EUnlink (path : string) (res : Z)
| EPrintf (text : string)
| EDlopen (site : Site) (path : string) (flags : Z) (res : option Handle)
| EDlerror (res : option string)
| EDlsym (h : Handle) (name : string) (res : option Symbol)
| ECall (fn : Symbol)
| EDlclose (h : Handle)
| EGetenv (name : string) (res : option string)
| EFopen (path mode : string) (res : option File)
| EFputs (text : string) (stream : Stream).

(** The answers of the operating system, each a function of the history.
    A failing [dlopen] or [dlsym] comes with the loader's error text. [dlsym]
    may also succeed on a symbol whose value is the null address: it then
    returns null and sets no error. [os_calloc] says whether an allocation of
    that many cells succeeds. [dlerror_first] is the choice C leaves to the
    implementation in [fputs(dlerror(), error_fd())]: whether the first
    argument is evaluated before the second. *)
Record Env : Type := {
  os_unlink : list Event -> string -> Z;
  os_dlopen : list Event -> string -> Z -> Handle + string;
  os_dlsym : list Event -> Handle -> string -> option Symbol + string;
  os_returns : list Event -> Symbol -> bool;
  os_getenv : list Event -> string -> option string;
  os_fopen : list Event -> string -> string -> option File;
  os_calloc : list Event -> Z -> bool;
  dlerror_first : list Event -> bool
}.

Record State : Type := {
  trace : list Event;
  dl_error : option string
}.

Definition log (e : Event) (s : State) : State :=
  {| trace := trace s ++ [e]; dl_error := dl_error s |}.

(** ** The monad of [main]'s body *)

Inductive Res (A : Type) : Type :=
| Val (a : A)
| Return (code : Z)
| NoReturn
| Undefined.
Arguments Val {A} a.
Arguments Return {A} code.
Arguments NoReturn {A}.
Arguments Undefined {A}.

Definition M (A : Type) : Type := State -> State * Res A.

Definition ret {A} (a : A) : M A := fun s => (s, Val a).

Definition bind {A B} (m : M A) (k : A -> M B) : M B :=
  fun s =>
    match m s with
    | (s', Val a) => k a s'
    | (s', Return c) => (s', Return c)
    | (s', NoReturn) => (s', NoReturn)
    | (s', Undefined) => (s', Undefined)
    end.

Definition return_ {A} (code : Z) : M A := fun s => (s, Return code).

Definition undefined {A} : M A := fun s => (s, Undefined).

Declare Scope tramp_scope.
Delimit Scope tramp_scope with tramp.
Notation "x <- m ;; k" := (bind m (fun x => k))
  (at level 100, m at next level, right associativity) : tramp_scope.
Notation "m ;; k" := (bind m (fun _ => k))
  (at level 100, right associativity) : tramp_scope.
Local Open Scope tramp_scope.

(** <dlfcn.h>, glibc values. *)
Definition RTLD_LAZY : Z := 1.
Definition RTLD_GLOBAL : Z := 256.

Section Trampoline.

Variable env : Env.

(** *** Library calls *)

Definition unlink (path : string) : M Z :=
  fun s =>
    let r := os_unlink env (trace s) path in
    (log (EUnlink path r) s, Val r).

Definition printf_s_s (a b : string) : M unit :=
  fun s => (log (EPrintf (String.append a (String.append " " b))) s, Val tt).

(** A failing [dlopen] or [dlsym] leaves its text for the next [dlerror]; a
    successful one leaves the pending error, if any, where it is (POSIX:
    [dlerror] reports the errors "since the last invocation of dlerror"). *)
Definition dlopen (site : Site) (path : string) (flags : Z) : M (option Handle) :=
  fun s =>
    match os_dlopen env (trace s) path flags with
    | inl h => (log (EDlopen site path flags (Some h)) s, Val (Some h))
    | inr msg =>
        ({| trace := trace s ++ [EDlopen site path flags None];
            dl_error := Some msg |}, Val None)
    end.

Definition dlerror : M (option string) :=
  fun s =>
    ({| trace := trace s ++ [EDlerror (dl_error s)]; dl_error := None |},
     Val (dl_error s)).

Definition dlsym (h : Handle) (name : string) : M (option Symbol) :=
  fun s =>
    match os_dlsym env (trace s) h name with
    | inl fn => (log (EDlsym h name fn) s, Val fn)
    | inr msg =>
        ({| trace := trace s ++ [EDlsym h name None];
            dl_error := Some msg |}, Val None)
    end.

(** [( *fn)()]: jumping through a null pointer is undefined; the callee may
    never return. *)
Definition call (fn : option Symbol) : M unit :=
  match fn with
  | None => undefined
  | Some f =>
      fun s =>
        (log (ECall f) s,
         if os_returns env (trace s) f then Val tt else NoReturn)
  end.

Definition dlclose (h : option Handle) : M unit :=
  match h with
  | None => undefined
  | Some h => fun s => (log (EDlclose h) s, Val tt)
  end.

Definition getenv (name : string) : M (option string) :=
  fun s =>
    let r := os_getenv env (trace s) name in
    (log (EGetenv name r) s, Val r).

Definition fopen (path mode : string) : M (option File) :=
  fun s =>
    let r := os_fopen env (trace s) path mode in
    (log (EFopen path mode r) s, Val r).

Definition fputs (text : option string) (stream : Stream) : M unit :=
  match text with
  | None => undefined
  | Some t => fun s => (log (EFputs t stream) s, Val tt)
  end.

(** *** Memory *)

(** [argv[i]] *)
Definition arg (argv : list string) (i : Z) : M string :=
  if i <? 0 then undefined
  else match argv !! Z.to_nat i with
       | Some a => ret a
       | None => undefined
       end.

(** The array a successful [calloc(n, sizeof(void * ))] returns: [n] null
    cells. *)
Definition calloc_handles (n : Z) : option (list (option Handle)) :=
  Some (replicate (Z.to_nat n) None).

(** [calloc(n, sizeof(void * ))]: that array, or null. *)
Definition calloc (n : Z) : M (option (list (option Handle))) :=
  fun s => (s, Val (if os_calloc env (trace s) n
                    then calloc_handles n else None)).

(** [handles[i] = h] *)
Definition store (handles : option (list (option Handle))) (i : Z)
    (h : option Handle) : M (option (list (option Handle))) :=
  match handles with
  | None => undefined
  | Some a =>
      if (0 <=? i) && (i <? Z.of_nat (length a))
      then ret (Some (<[Z.to_nat i := h]> a))
      else undefined
  end.

(** [handles[i]] *)
Definition load (a : list (option Handle)) (i : Z) : M (option Handle) :=
  if i <? 0 then undefined
  else match a !! Z.to_nat i with
       | Some h => ret h
       | None => undefined
       end.

(** *** error_fd *)

Definition error_fd : M Stream :=
  log_env <- getenv "DD_TRACE_LOG_FILE";;
  match log_env with
  | Some path =>
      file <- fopen path "a";;
      match file with
      | Some f => ret (LogFile f)
      | None => ret Stderr
      end
  | None => ret Stderr
  end.

(** *** main *)

(** [fputs(dlerror(), error_fd())]: the two arguments are evaluated in the
    order the implementation chose. *)
Definition report_dlerror : M unit :=
  fun s =>
    if dlerror_first env (trace s)
    then (text <- dlerror;; sink <- error_fd;; fputs text sink) s
    else (sink <- error_fd;; text <- dlerror;; fputs text sink) s.

(** The loop of lines 55-69, with [n] iterations left
    ([n = additional_shared_libraries_args - i]). *)
Fixpoint load_dependencies (argv : list string) (n : nat) (i : Z)
    (handles : option (list (option Handle)))
    (additional_shared_libraries_count : Z) (unlink_next : bool)
    : M (option (list (option Handle)) * Z) :=
  match n with
  | O => ret (handles, additional_shared_libraries_count)
  | S n' =>
      lib_path <- arg argv (3 + i);;
      if is_marker lib_path
      then load_dependencies argv n' (i + 1) handles
             additional_shared_libraries_count true
      else
        h <- dlopen Dependency lib_path (Z.lor RTLD_LAZY RTLD_GLOBAL);;
        handles' <- store handles additional_shared_libraries_count h;;
        let count' := additional_shared_libraries_count + 1 in
        match h with
        | None => report_dlerror;; return_ 9
        | Some _ =>
            if unlink_next
            then unlink lib_path;;
                 load_dependencies argv n' (i + 1) handles' count' false
            else load_dependencies argv n' (i + 1) handles' count' unlink_next
        end
  end.

(** The loop of lines 91-93, with [n] iterations left. *)
Fixpoint close_handles (a : list (option Handle)) (n : nat) (i : Z) : M unit :=
  match n with
  | O => ret tt
  | S n' =>
      h <- load a i;;
      dlclose h;;
      close_handles a n' (i + 1)
  end.

(** Lines 34-124: what [main] does once the temp file is dealt with. *)
Definition pipeline (argv : list string) : M Z :=
  let argc := Z.of_nat (length argv) in
  library_path <- arg argv 2;;
  symbol_name <- arg argv (argc - 1);;
  if strcmp "__dummy_mirror_test" library_path =? 0
  then printf_s_s library_path symbol_name;; return_ 0
  else
    let additional_shared_libraries_args := argc - 4 in
    handles <-
      (if additional_shared_libraries_args >? 0
       then calloc additional_shared_libraries_args
       else ret None);;
    loaded <-
      load_dependencies argv (Z.to_nat additional_shared_libraries_args) 0
        handles 0 false;;
    let '(handles, additional_shared_libraries_count) := loaded in
    handle <- dlopen Target library_path (Z.lor RTLD_LAZY RTLD_GLOBAL);;
    match handle with
    | None => report_dlerror;; return_ 10
    | Some h =>
        dlerror;;
        fn <- dlsym h symbol_name;;
        error <- dlerror;;
        match error with
        | Some _ =>
            sink <- error_fd;;
            fputs error sink;;
            return_ 11
        | None =>
            call fn;;
            dlclose handle;;
            match handles with
            | Some a =>
                close_handles a (Z.to_nat additional_shared_libraries_count) 0
            | None => ret tt
            end;;
            return_ 0
        end
    end.

Definition main (argv : list string) : M Z :=
  let argc := Z.of_nat (length argv) in
  if argc >? 3
  then
    temp_path <- arg argv 1;;
    if negb (Ascii.eqb (char_at temp_path 0) NUL)
    then unlink temp_path;; pipeline argv
    else pipeline argv
  else return_ 12.

End Trampoline.

(** How the process ends. *)
Inductive Outcome : Type :=
| Exited (code : Z)
| Blocked          (* the invoked symbol never returned *)
| Crashed.         (* undefined behaviour *)

Definition outcome_of (r : Res Z) : Outcome :=
  match r with
  | Val code => Exited code
  | Return code => Exited code
  | NoReturn => Blocked
  | Undefined => Crashed
  end.

Definition run_main (env : Env) (argv : list string) (s : State)
    : State * Outcome :=
  let (s', r) := main env argv s in (s', outcome_of r).

(** The events a run added to the history. *)
Definition new_events (s s' : State) : list Event :=
  drop (length (trace s)) (trace s').

(** ** The design of the specification, for comparison with [main]

    The definitions of this part follow the specification (its sections 3
    and 4): the argument vector is first parsed into an [InvocationRequest],
    which the components then consume in order. The specification has no
    array of handles; where [main] depends on its allocation, the components
    take the answer of [calloc] as a parameter. *)

Record DependencySpec : Type := {
  path : string;
  unlink_after_load : bool
}.

Record InvocationRequest : Type := {
  launcher_temp_path : string;
  target_library_path : string;
  symbol_name : string;
  dependency_specs : list DependencySpec
}.

(** The dependency arguments [argv[3] .. argv[argc - 2]]. *)
Definition dependency_args (argv : list string) : list string :=
  take (length argv - 4)%nat (drop 3 argv).

(** Spec, section 6: the marker "sets delete after load for the immediately
    following path argument only": the argument at index [i] is flagged when
    the argument just before it is the marker. *)
Definition preceded_by_marker (args : list string) (i : nat) : bool :=
  match i with
  | O => false
  | S j => bool_decide (args !! j = Some "-")
  end.

Definition spec_dependency_specs (args : list string) : list DependencySpec :=
  omap id
    (imap (fun i a =>
             if bool_decide (a = "-") then None
             else Some {| path := a;
                          unlink_after_load := preceded_by_marker args i |})
          args).

(** The same list as the loop of [main] builds it: one pass with the
    [unlink_next] flag, markers recognised by [is_marker]. *)
Fixpoint scan_dependencies (unlink_next : bool) (args : list string)
    : list DependencySpec :=
  match args with
  | [] => []
  | a :: rest =>
      if is_marker a then scan_dependencies true rest
      else {| path := a; unlink_after_load := unlink_next |}
           :: scan_dependencies false rest
  end.

(** Spec, section 4.1: at least four arguments; the last one is the symbol. *)
Definition spec_request (argv : list string) : option InvocationRequest :=
  match argv with
  | _ :: temp :: library :: rest =>
      match last rest with
      | Some symbol =>
          Some {| launcher_temp_path := temp;
                  target_library_path := library;
                  symbol_name := symbol;
                  dependency_specs :=
                    scan_dependencies false (removelast rest) |}
      | None => None
      end
  | _ => None
  end.

Section Spec.

Variable env : Env.

(** Spec, section 4.3: open each dependency in order; a failure is reported
    and ends the process with 9; a flagged path is deleted once opened.
    [allocated] says whether [main] has its array of handles: the result of
    [dlopen] is stored there before anything else is done with it. *)
Fixpoint spec_dependency_loader (allocated : bool)
    (specs : list DependencySpec) (opened : list Handle) : M (list Handle) :=
  match specs with
  | [] => ret opened
  | d :: rest =>
      h <- dlopen env Dependency (path d) (Z.lor RTLD_LAZY RTLD_GLOBAL);;
      if allocated
      then
        match h with
        | None => report_dlerror env;; return_ 9
        | Some h =>
            (if unlink_after_load d then unlink env (path d);; ret tt
             else ret tt);;
            spec_dependency_loader allocated rest (opened ++ [h])
        end
      else undefined
  end.

(** Spec, section 4.5: release the handles in the given order. *)
Fixpoint spec_release (handles : list Handle) : M unit :=
  match handles with
  | [] => ret tt
  | h :: rest => dlclose (Some h);; spec_release rest
  end.

(** What [calloc] answers for [n] cells. *)
Definition spec_allocation (n : Z) : M bool :=
  fun s => (s, Val (os_calloc env (trace s) n)).

(** Spec, sections 4.4 and 4.5: open the target, resolve the symbol, invoke
    it and release the handles, for the dependency handles [opened]. *)
Definition spec_invoke (req : InvocationRequest) (opened : list Handle)
    : M Z :=
  handle <- dlopen env Target (target_library_path req)
              (Z.lor RTLD_LAZY RTLD_GLOBAL);;
  match handle with
  | None => report_dlerror env;; return_ 10
  | Some h =>
      dlerror;;
      fn <- dlsym env h (symbol_name req);;
      error <- dlerror;;
      match error with
      | Some _ =>
          sink <- error_fd env;;
          fputs error sink;;
          return_ 11
      | None =>
          call env fn;;
          dlclose (Some h);;
          spec_release opened;;
          return_ 0
      end
  end.

(** Spec, sections 4.3-4.5: everything after the artifact cleanup, for [n]
    dependency arguments. *)
Definition spec_after_cleanup (n : Z) (req : InvocationRequest) : M Z :=
  if strcmp "__dummy_mirror_test" (target_library_path req) =? 0
  then printf_s_s (target_library_path req) (symbol_name req);; return_ 0
  else
    allocated <- spec_allocation n;;
    opened <- spec_dependency_loader allocated (dependency_specs req) [];;
    spec_invoke req opened.

(** Spec, section 4.2 followed by the rest of the pipeline. *)
Definition spec_pipeline (n : Z) (req : InvocationRequest) : M Z :=
  if negb (Ascii.eqb (char_at (launcher_temp_path req) 0) NUL)
  then unlink env (launcher_temp_path req);; spec_after_cleanup n req
  else spec_after_cleanup n req.

(** The stream [error_fd] selects after the history [hist], and the events
    of selecting it. *)
Definition error_sink (hist : list Event) : Stream :=
  match error_fd env {| trace := hist; dl_error := None |} with
  | (_, Val sink) => sink
  | _ => Stderr
  end.

Definition error_sink_events (hist : list Event) : list Event :=
  drop (length hist)
    (trace (fst (error_fd env {| trace := hist; dl_error := None |}))).

(** [fputs(msg, error_fd())] after the history [hist]. *)
Definition report_events (hist : list Event) (msg : string) : list Event :=
  error_sink_events hist ++ [EFputs msg (error_sink hist)].

End Spec.

(** ** Reading traces *)

Definition map_res {A B} (f : A -> B) (r : Res A) : Res B :=
  match r with
  | Val a => Val (f a)
  | Return c => Return c
  | NoReturn => NoReturn
  | Undefined => Undefined
  end.

(** The [handles] array and the count after the loop, for the dependency
    handles [opened] and an array of [capacity] cells. *)
Definition pack (capacity : Z) (opened : list Handle)
    : option (list (option Handle)) * Z :=
  (if capacity >? 0
   then Some (map Some opened
              ++ replicate (Z.to_nat capacity - length opened)%nat None)
   else None,
   Z.of_nat (length opened)).

(** Handles of the dependency libraries opened, in load order. *)
Definition dependency_handles (t : list Event) : list Handle :=
  omap (fun e => match e with
                 | EDlopen Dependency _ _ (Some h) => Some h
                 | _ => None
                 end) t.

(** Paths of the dependency libraries opened, in load order. *)
Definition opened_paths (t : list Event) : list string :=
  omap (fun e => match e with
                 | EDlopen Dependency p _ (Some _) => Some p
                 | _ => None
                 end) t.

(** Paths handed to [unlink], in order. *)
Definition unlinked_paths (t : list Event) : list string :=
  omap (fun e => match e with
                 | EUnlink p _ => Some p
                 | _ => None
                 end) t.

(** Everything written to standard output. *)
Definition stdout_text (t : list Event) : string :=
  fold_right (fun e acc => match e with
                           | EPrintf x => String.append x acc
                           | _ => acc
                           end) "" t.

Definition is_dlopen (e : Event) : bool :=
  match e with EDlopen _ _ _ _ => true | _ => false end.

Definition is_call (e : Event) : bool :=
  match e with ECall _ => true | _ => false end.

Definition is_dlclose (e : Event) : bool :=
  match e with EDlclose _ => true | _ => false end.

Definition is_dlsym (e : Event) : bool :=
  match e with EDlsym _ _ _ => true | _ => false end.

Definition is_fputs (e : Event) : bool :=
  match e with EFputs _ _ => true | _ => false end.

Definition is_getenv (e : Event) : bool :=
  match e with EGetenv _ _ => true | _ => false end.

(** Handles returned by the opens of a run, of dependencies and target alike,
    in order. *)
Definition opened_handles (t : list Event) : list Handle :=
  omap (fun e => match e with
                 | EDlopen _ _ _ (Some h) => Some h
                 | _ => None
                 end) t.

(** Handles handed to [dlclose], in order. *)
Definition closed_handles (t : list Event) : list Handle :=
  omap (fun e => match e with
                 | EDlclose h => Some h
                 | _ => None
                 end) t.

(** The exit codes with which [main] reports a loader failure. *)
Definition reports_failure (out : Outcome) : bool :=
  match out with
  | Exited code => (code =? 9) || (code =? 10) || (code =? 11)
  | _ => false
  end.

(** Events of a dependency loader that has not failed: successful opens,
    each followed by the deletion of its path when the path is flagged. *)
Definition dep_ok (e : Event) : bool :=
  match e with
  | EDlopen Dependency _ _ (Some _) => true
  | EUnlink _ _ => true
  | _ => false
  end.

Definition sink_event (e : Event) : bool :=
  match e with
  | EGetenv _ _ => true
  | EFopen _ _ _ => true
  | _ => false
  end.

(** Every [unlink] in [t] comes right after the successful open of the same
    path by the dependency loader. *)
Definition unlinks_follow_opens (t : list Event) : Prop :=
  forall (k : nat) p res,
    t !! k = Some (EUnlink p res) ->
    exists j fl h,
      k = S j /\ t !! j = Some (EDlopen Dependency p fl (Some h)).

(** The traces the dependency loader can leave for a list of specs, up to
    the point where it stops. *)
Inductive loader_trace : list DependencySpec -> list Event -> Prop :=
| loader_stop specs :
    loader_trace specs []
| loader_keep p h rest t :
    loader_trace rest t ->
    loader_trace ({| path := p; unlink_after_load := false |} :: rest)
      (EDlopen Dependency p (Z.lor RTLD_LAZY RTLD_GLOBAL) (Some h) :: t)
| loader_unlink p h res rest t :
    loader_trace rest t ->
    loader_trace ({| path := p; unlink_after_load := true |} :: rest)
      (EDlopen Dependency p (Z.lor RTLD_LAZY RTLD_GLOBAL) (Some h)
       :: EUnlink p res :: t).

(** The events of [fputs(dlerror(), error_fd())] after the history [hist]
    when the loader holds the error [msg]: the call of [dlerror] and the
    calls of [error_fd], in the order the implementation evaluates the two
    arguments, then the write. *)
Inductive dlerror_report (env : Env) (hist : list Event) (msg : string)
    : list Event -> Prop :=
| report_dlerror_first :
    dlerror_first env hist = true ->
    dlerror_report env hist msg
      (EDlerror (Some msg)
       :: report_events env (hist ++ [EDlerror (Some msg)]) msg)
| report_error_fd_first :
    dlerror_first env hist = false ->
    dlerror_report env hist msg
      (error_sink_events env hist
       ++ [EDlerror (Some msg); EFputs msg (error_sink env hist)]).

(** The runs of the pipeline after cleanup when the target is not the
    dummy-mirror sentinel: the events added to the history [hist] and the
    result, [allocated] being the answer of [calloc] and [pending] the error
    the loader holds at the start. *)
Inductive pipeline_run (env : Env) (req : InvocationRequest)
    (allocated : bool) (hist : list Event) (pending : option string)
    : list Event -> Res Z -> Prop :=
| run_store_fault d rest res :
    allocated = false ->
    dependency_specs req = d :: rest ->
    res = match os_dlopen env hist (path d) (Z.lor RTLD_LAZY RTLD_GLOBAL) with
          | inl h => Some h
          | inr _ => None
          end ->
    pipeline_run env req allocated hist pending
      [EDlopen Dependency (path d) (Z.lor RTLD_LAZY RTLD_GLOBAL) res]
      Undefined
| run_dependency_failure t0 p msg failed tail :
    allocated = true ->
    loader_trace (dependency_specs req) t0 ->
    In p (map path (dependency_specs req)) ->
    os_dlopen env (hist ++ t0) p (Z.lor RTLD_LAZY RTLD_GLOBAL) = inr msg ->
    failed = [EDlopen Dependency p (Z.lor RTLD_LAZY RTLD_GLOBAL) None] ->
    dlerror_report env (hist ++ t0 ++ failed) msg tail ->
    pipeline_run env req allocated hist pending (t0 ++ failed ++ tail)
      (Return 9)
| run_target_failure t0 msg failed tail :
    loader_trace (dependency_specs req) t0 ->
    opened_paths t0 = map path (dependency_specs req) ->
    os_dlopen env (hist ++ t0) (target_library_path req)
      (Z.lor RTLD_LAZY RTLD_GLOBAL) = inr msg ->
    failed = [EDlopen Target (target_library_path req)
                (Z.lor RTLD_LAZY RTLD_GLOBAL) None] ->
    dlerror_report env (hist ++ t0 ++ failed) msg tail ->
    pipeline_run env req allocated hist pending (t0 ++ failed ++ tail)
      (Return 10)
| run_symbol_failure t0 h msg resolved failed :
    loader_trace (dependency_specs req) t0 ->
    opened_paths t0 = map path (dependency_specs req) ->
    resolved = [EDlopen Target (target_library_path req)
                  (Z.lor RTLD_LAZY RTLD_GLOBAL) (Some h);
                EDlerror pending] ->
    os_dlsym env (hist ++ t0 ++ resolved) h (symbol_name req) = inr msg ->
    failed = [EDlsym h (symbol_name req) None; EDlerror (Some msg)] ->
    pipeline_run env req allocated hist pending
      (t0 ++ resolved ++ failed
       ++ report_events env (hist ++ t0 ++ resolved ++ failed) msg)
      (Return 11)
| run_null_call t0 h resolved :
    loader_trace (dependency_specs req) t0 ->
    opened_paths t0 = map path (dependency_specs req) ->
    resolved = [EDlopen Target (target_library_path req)
                  (Z.lor RTLD_LAZY RTLD_GLOBAL) (Some h);
                EDlerror pending] ->
    os_dlsym env (hist ++ t0 ++ resolved) h (symbol_name req) = inl None ->
    pipeline_run env req allocated hist pending
      (t0 ++ resolved ++ [EDlsym h (symbol_name req) None; EDlerror None])
      Undefined
| run_blocked t0 h fn resolved :
    loader_trace (dependency_specs req) t0 ->
    opened_paths t0 = map path (dependency_specs req) ->
    os_dlsym env
      (hist ++ t0 ++ [EDlopen Target (target_library_path req)
                        (Z.lor RTLD_LAZY RTLD_GLOBAL) (Some h);
                      EDlerror pending]) h (symbol_name req)
    = inl (Some fn) ->
    resolved = [EDlopen Target (target_library_path req)
                  (Z.lor RTLD_LAZY RTLD_GLOBAL) (Some h);
                EDlerror pending;
                EDlsym h (symbol_name req) (Some fn);
                EDlerror None] ->
    os_returns env (hist ++ t0 ++ resolved) fn = false ->
    pipeline_run env req allocated hist pending (t0 ++ resolved ++ [ECall fn])
      NoReturn
| run_success t0 h fn resolved :
    loader_trace (dependency_specs req) t0 ->
    opened_paths t0 = map path (dependency_specs req) ->
    os_dlsym env
      (hist ++ t0 ++ [EDlopen Target (target_library_path req)
                        (Z.lor RTLD_LAZY RTLD_GLOBAL) (Some h);
                      EDlerror pending]) h (symbol_name req)
    = inl (Some fn) ->
    resolved = [EDlopen Target (target_library_path req)
                  (Z.lor RTLD_LAZY RTLD_GLOBAL) (Some h);
                EDlerror pending;
                EDlsym h (symbol_name req) (Some fn);
                EDlerror None] ->
    os_returns env (hist ++ t0 ++ resolved) fn = true ->
    pipeline_run env req allocated hist pending
      (t0 ++ resolved ++ [ECall fn; EDlclose h]
       ++ map EDlclose (dependency_handles t0))
      (Return 0).

(** The events of line 30-32 after the history [hist]. *)
Definition cleanup_events (env : Env) (hist : list Event) (temp : string)
    : list Event :=
  if negb (Ascii.eqb (char_at temp 0) NUL)
  then [EUnlink temp (os_unlink env hist temp)]
  else [].

(** Lines 49-51 in the run of [main] on [argv] from [s]: [false] when
    [calloc] is called, that is for [argc - 4 > 0], and returns null; [true]
    when it returns the array or is not called. *)
Definition calloc_answer (env : Env) (argv : list string) (s : State) : bool :=
  match argv !! 1%nat with
  | Some temp =>
      let n := Z.of_nat (length argv) - 4 in
      negb (n >? 0)
      || os_calloc env (trace s ++ cleanup_events env (trace s) temp) n
  | None => true
  end.

(** Two environments that answer alike from the histories [h1] and [h2]
    on. *)
Definition agree_after (e1 e2 : Env) (h1 h2 : list Event) : Prop :=
  forall t,
    os_unlink e1 (h1 ++ t) = os_unlink e2 (h2 ++ t)
    /\ os_dlopen e1 (h1 ++ t) = os_dlopen e2 (h2 ++ t)
    /\ os_dlsym e1 (h1 ++ t) = os_dlsym e2 (h2 ++ t)
    /\ os_returns e1 (h1 ++ t) = os_returns e2 (h2 ++ t)
    /\ os_getenv e1 (h1 ++ t) = os_getenv e2 (h2 ++ t)
    /\ os_fopen e1 (h1 ++ t) = os_fopen e2 (h2 ++ t)
    /\ os_calloc e1 (h1 ++ t) = os_calloc e2 (h2 ++ t)
    /\ dlerror_first e1 (h1 ++ t) = dlerror_first e2 (h2 ++ t).

(** Two computations that, started after the histories [h1] and [h2]
    extended by the same events and with the same loader error, add the same
    events and end with the same result and loader error. *)
Definition run_alike {A} (h1 h2 : list Event) (m1 m2 : M A) : Prop :=
  forall t d,
  exists t' d' r,
    m1 {| trace := h1 ++ t; dl_error := d |}
    = ({| trace := h1 ++ t'; dl_error := d' |}, r)
    /\ m2 {| trace := h2 ++ t; dl_error := d |}
       = ({| trace := h2 ++ t'; dl_error := d' |}, r).

(** ** Example environments

    Three loadable libraries, one exported function and one exported symbol
    whose value is the null address, no log file configured; the invoked
    function returns, allocations succeed, and arguments are evaluated from
    right to left. *)
Definition example_env : Env := {|
  os_unlink := fun _ _ => 0;
  os_dlopen := fun _ p _ =>
    if String.eqb p "libdep.so" then inl 1%positive
    else if String.eqb p "libhelper.so" then inl 2%positive
    else if String.eqb p "libtarget.so" then inl 3%positive
    else inr (String.append p ": cannot open shared object file");
  os_dlsym := fun _ _ name =>
    if String.eqb name "do_init" then inl (Some 7%positive)
    else if String.eqb name "null_hook" then inl None
    else inr (String.append "undefined symbol: " name);
  os_returns := fun _ _ => true;
  os_getenv := fun _ _ => None;
  os_fopen := fun _ _ _ => None;
  os_calloc := fun _ _ => true;
  dlerror_first := fun _ => false
|}.

(** The same, except that the first deletion of the run fails. *)
Definition locked_launcher_env : Env := {|
  os_unlink := fun hist _ => match hist with [] => -1 | _ :: _ => 0 end;
  os_dlopen := os_dlopen example_env;
  os_dlsym := os_dlsym example_env;
  os_returns := os_returns example_env;
  os_getenv := os_getenv example_env;
  os_fopen := os_fopen example_env;
  os_calloc := os_calloc example_env;
  dlerror_first := dlerror_first example_env
|}.

(** The same as [example_env], with arguments evaluated from left to
    right. *)
Definition left_to_right_env : Env := {|
  os_unlink := os_unlink example_env;
  os_dlopen := os_dlopen example_env;
  os_dlsym := os_dlsym example_env;
  os_returns := os_returns example_env;
  os_getenv := os_getenv example_env;
  os_fopen := os_fopen example_env;
  os_calloc := os_calloc example_env;
  dlerror_first := fun _ => true
|}.

(** The same as [example_env], with no memory left. *)
Definition out_of_memory_env : Env := {|
  os_unlink := os_unlink example_env;
  os_dlopen := os_dlopen example_env;
  os_dlsym := os_dlsym example_env;
  os_returns := os_returns example_env;
  os_getenv := os_getenv example_env;
  os_fopen := os_fopen example_env;
  os_calloc := fun _ _ => false;
  dlerror_first := dlerror_first example_env
|}.

(** Process start, with an error left over in the loader. *)
Definition initial_state : State :=
  {| trace := []; dl_error := Some "stale" |}.

Definition example_argv : list string :=
  ["trampoline"; "/tmp/launcher"; "libtarget.so";
   "-"; "libdep.so"; "libhelper.so"; "do_init"].

(** * The Windows build of [main]

    Lines 27-44 and 97-127 of trampoline.c, as compiled when [_WIN32] is
    defined: the same argument handling, then LoadLibrary, GetProcAddress and
    formatted error lines. The state is the trace alone: the last error of
    the thread is asked from the environment by GetLastError. *)

Module Win32.

Inductive Event : Type :=
| EUnlink (path : string) (res : Z)
| EPrintf (text : string)
| ELoadLibrary (site : Site) (path : string) (res : option Handle)
| EGetLastError (res : N)
| EGetProcAddress (h : Handle) (name : string) (res : option Symbol)
| ECall (fn : Symbol)
| EGetenv (name : string) (res : option string)
| EFopen (path mode : string) (res : option File)
| EFprintf (text : string) (stream : Stream).

Record Env : Type := {
  os_unlink : list Event -> string -> Z;
  os_load_library : list Event -> string -> option Handle;
  os_last_error : list Event -> N;
  os_proc_address : list Event -> Handle -> string -> option Symbol;
  os_returns : list Event -> Symbol -> bool;
  os_getenv : list Event -> string -> option string;
  os_fopen : list Event -> string -> string -> option File
}.

Definition W (A : Type) : Type := list Event -> list Event * Res A.

Definition ret {A} (a : A) : W A := fun t => (t, Val a).

Definition bind {A B} (m : W A) (k : A -> W B) : W B :=
  fun t =>
    match m t with
    | (t', Val a) => k a t'
    | (t', Return c) => (t', Return c)
    | (t', NoReturn) => (t', NoReturn)
    | (t', Undefined) => (t', Undefined)
    end.

Definition return_ {A} (code : Z) : W A := fun t => (t, Return code).

Definition undefined {A} : W A := fun t => (t, Undefined).

Declare Scope win_scope.
Delimit Scope win_scope with win.
Notation "x <- m ;; k" := (bind m (fun x => k))
  (at level 100, m at next level, right associativity) : win_scope.
Notation "m ;; k" := (bind m (fun _ => k))
  (at level 100, right associativity) : win_scope.
Local Open Scope win_scope.

(** [%lu] *)
Definition decimal (n : N) : string := NilEmpty.string_of_uint (N.to_uint n).

Definition newline : string := String "010"%char EmptyString.

(** ["error: %lu, could not load dependent shared library %s\n"] *)
Definition dependency_error_line (res : N) (lib_path : string) : string :=
  String.append "error: "
    (String.append (decimal res)
       (String.append ", could not load dependent shared library "
          (String.append lib_path newline))).

(** ["error: %lu, could not load shared library %s\n"] *)
Definition library_error_line (res : N) (library_path : string) : string :=
  String.append "error: "
    (String.append (decimal res)
       (String.append ", could not load shared library "
          (String.append library_path newline))).

(** ["error: %lu loading symbol: %s from: %s\n"] *)
Definition symbol_error_line (res : N) (symbol_name library_path : string)
    : string :=
  String.append "error: "
    (String.append (decimal res)
       (String.append " loading symbol: "
          (String.append symbol_name
             (String.append " from: "
                (String.append library_path newline))))).

Section Trampoline.

Variable env : Env.

Definition unlink (path : string) : W Z :=
  fun t =>
    let r := os_unlink env t path in
    (t ++ [EUnlink path r], Val r).

Definition printf_s_s (a b : string) : W unit :=
  fun t => (t ++ [EPrintf (String.append a (String.append " " b))], Val tt).

Definition LoadLibrary (site : Site) (path : string) : W (option Handle) :=
  fun t =>
    let r := os_load_library env t path in
    (t ++ [ELoadLibrary site path r], Val r).

Definition GetLastError : W N :=
  fun t =>
    let r := os_last_error env t in
    (t ++ [EGetLastError r], Val r).

Definition GetProcAddress (h : Handle) (name : string) : W (option Symbol) :=
  fun t =>
    let r := os_proc_address env t h name in
    (t ++ [EGetProcAddress h name r], Val r).

Definition call (fn : option Symbol) : W unit :=
  match fn with
  | None => undefined
  | Some f =>
      fun t =>
        (t ++ [ECall f], if os_returns env t f then Val tt else NoReturn)
  end.

Definition getenv (name : string) : W (option string) :=
  fun t =>
    let r := os_getenv env t name in
    (t ++ [EGetenv name r], Val r).

Definition fopen (path mode : string) : W (option File) :=
  fun t =>
    let r := os_fopen env t path mode in
    (t ++ [EFopen path mode r], Val r).

(** [fprintf(stream, format, ...)], for the text the format expands to. *)
Definition fprintf (stream : Stream) (text : string) : W unit :=
  fun t => (t ++ [EFprintf text stream], Val tt).

(** [argv[i]] *)
Definition arg (argv : list string) (i : Z) : W string :=
  if i <? 0 then undefined
  else match argv !! Z.to_nat i with
       | Some a => ret a
       | None => undefined
       end.

Definition error_fd : W Stream :=
  log_env <- getenv "DD_TRACE_LOG_FILE";;
  match log_env with
  | Some path =>
      file <- fopen path "a";;
      match file with
      | Some f => ret (LogFile f)
      | None => ret Stderr
      end
  | None => ret Stderr
  end.

(** The loop of lines 97-105, with [n] iterations left. *)
Fixpoint load_dependencies (argv : list string) (n : nat) (i : Z) : W unit :=
  match n with
  | O => ret tt
  | S n' =>
      lib_path <- arg argv (3 + i);;
      handle <- LoadLibrary Dependency lib_path;;
      match handle with
      | None =>
          res <- GetLastError;;
          sink <- error_fd;;
          fprintf sink (dependency_error_line res lib_path);;
          return_ 9
      | Some _ => load_dependencies argv n' (i + 1)
      end
  end.

Definition main (argv : list string) : W Z :=
  let argc := Z.of_nat (length argv) in
  if argc >? 3
  then
    temp_path <- arg argv 1;;
    (if negb (Ascii.eqb (char_at temp_path 0) NUL)
     then unlink temp_path;; ret tt
     else ret tt);;
    library_path <- arg argv 2;;
    symbol_name <- arg argv (argc - 1);;
    if strcmp "__dummy_mirror_test" library_path =? 0
    then printf_s_s library_path symbol_name;; return_ 0
    else
      let additional_shared_libraries_args := argc - 4 in
      load_dependencies argv (Z.to_nat additional_shared_libraries_args) 0;;
      handle <- LoadLibrary Target library_path;;
      match handle with
      | None =>
          res <- GetLastError;;
          sink <- error_fd;;
          fprintf sink (library_error_line res library_path);;
          return_ 10
      | Some h =>
          fn <- GetProcAddress h symbol_name;;
          match fn with
          | None =>
              res <- GetLastError;;
              sink <- error_fd;;
              fprintf sink (symbol_error_line res symbol_name library_path);;
              return_ 11
          | Some _ =>
              call fn;;
              return_ 0
          end
      end
  else return_ 12.

End Trampoline.

Definition run_main (env : Env) (argv : list string) (t : list Event)
    : list Event * Outcome :=
  let (t', r) := main env argv t in (t', outcome_of r).

(** The events a run added to the history [t]. *)
Definition new_events (t t' : list Event) : list Event :=
  drop (length t) t'.

(** [fprintf(error_fd(), ...)] of [text] after the history [hist]. *)
Definition report_events (env : Env) (hist : list Event) (text : string)
    : list Event :=
  match error_fd env hist with
  | (hist', Val sink) => drop (length hist) hist' ++ [EFprintf text sink]
  | (hist', _) => drop (length hist) hist'
  end.

(** The events of lines 30-32 after the history [hist]. *)
Definition cleanup_events (env : Env) (hist : list Event) (temp : string)
    : list Event :=
  if negb (Ascii.eqb (char_at temp 0) NUL)
  then [EUnlink temp (os_unlink env hist temp)]
  else [].

(** Successful loads of the dependency paths [paths], with the handles they
    gave. *)
Definition loads (paths : list string) (handles : list Handle) : list Event :=
  zip_with (fun a h => ELoadLibrary Dependency a (Some h)) paths handles.

(** Paths handed to [LoadLibrary] for a dependency, in order. *)
Definition dependency_paths (t : list Event) : list string :=
  omap (fun e => match e with
                 | ELoadLibrary Dependency p _ => Some p
                 | _ => None
                 end) t.

(** Paths handed to [_unlink], in order. *)
Definition unlinked_paths (t : list Event) : list string :=
  omap (fun e => match e with
                 | EUnlink p _ => Some p
                 | _ => None
                 end) t.

(** The runs of [main] past the dummy-mirror check, for the dependency
    arguments [deps], the target [library] and the symbol [symbol]: the
    events added to the history [hist] after the cleanup, and the result. *)
Inductive pipeline_run (env : Env) (deps : list string)
    (library symbol : string) (hist : list Event)
    : list Event -> Res Z -> Prop :=
| run_dependency_failure j a handles code failed :
    deps !! j = Some a ->
    length handles = j ->
    os_load_library env (hist ++ loads (take j deps) handles) a = None ->
    code = os_last_error env
             (hist ++ loads (take j deps) handles
              ++ [ELoadLibrary Dependency a None]) ->
    failed = loads (take j deps) handles
             ++ [ELoadLibrary Dependency a None; EGetLastError code] ->
    pipeline_run env deps library symbol hist
      (failed
       ++ report_events env (hist ++ failed) (dependency_error_line code a))
      (Return 9)
| run_target_failure handles code failed :
    length handles = length deps ->
    os_load_library env (hist ++ loads deps handles) library = None ->
    code = os_last_error env
             (hist ++ loads deps handles ++ [ELoadLibrary Target library None]) ->
    failed = loads deps handles
             ++ [ELoadLibrary Target library None; EGetLastError code] ->
    pipeline_run env deps library symbol hist
      (failed
       ++ report_events env (hist ++ failed) (library_error_line code library))
      (Return 10)
| run_symbol_failure handles h code failed :
    length handles = length deps ->
    os_proc_address env
      (hist ++ loads deps handles ++ [ELoadLibrary Target library (Some h)])
      h symbol = None ->
    code = os_last_error env
             (hist ++ loads deps handles
              ++ [ELoadLibrary Target library (Some h);
                  EGetProcAddress h symbol None]) ->
    failed = loads deps handles
             ++ [ELoadLibrary Target library (Some h);
                 EGetProcAddress h symbol None;
                 EGetLastError code] ->
    pipeline_run env deps library symbol hist
      (failed
       ++ report_events env (hist ++ failed)
            (symbol_error_line code symbol library))
      (Return 11)
| run_blocked handles h fn loaded :
    length handles = length deps ->
    loaded = loads deps handles
             ++ [ELoadLibrary Target library (Some h);
                 EGetProcAddress h symbol (Some fn)] ->
    os_returns env (hist ++ loaded) fn = false ->
    pipeline_run env deps library symbol hist (loaded ++ [ECall fn]) NoReturn
| run_success handles h fn loaded :
    length handles = length deps ->
    loaded = loads deps handles
             ++ [ELoadLibrary Target library (Some h);
                 EGetProcAddress h symbol (Some fn)] ->
    os_returns env (hist ++ loaded) fn = true ->
    pipeline_run env deps library symbol hist (loaded ++ [ECall fn]) (Return 0).

(** An environment with two loadable libraries and one exported symbol. *)
Definition example_env : Env := {|
  os_unlink := fun _ _ => 0;
  os_load_library := fun _ p =>
    if String.eqb p "dep.dll" then Some 1%positive
    else if String.eqb p "target.dll" then Some 3%positive
    else None;
  os_last_error := fun _ => 126%N;
  os_proc_address := fun _ _ name =>
    if String.eqb name "do_init" then Some 7%positive else None;
  os_returns := fun _ _ => true;
  os_getenv := fun _ _ => None;
  os_fopen := fun _ _ _ => None
|}.

End Win32.

(** * Properties *)

(** ** Concrete runs *)

Example run_loads_calls_and_releases :
  run_main example_env example_argv initial_state
  = ({| trace := [EUnlink "/tmp/launcher" 0;
                  EDlopen Dependency "libdep.so" 257 (Some 1%positive);
                  EUnlink "libdep.so" 0;
                  EDlopen Dependency "libhelper.so" 257 (Some 2%positive);
                  EDlopen Target "libtarget.so" 257 (Some 3%positive);
                  EDlerror (Some "stale");
                  EDlsym 3%positive "do_init" (Some 7%positive);
                  EDlerror None;
                  ECall 7%positive;
                  EDlclose 3%positive;
                  EDlclose 1%positive;
                  EDlclose 2%positive];
        dl_error := None |},
     Exited 0).
Proof. reflexivity. Qed.

Example run_stops_at_first_missing_dependency :
  run_main example_env
    ["trampoline"; ""; "libtarget.so"; "libdep.so"; "-"; "missing.so";
     "libhelper.so"; "do_init"] initial_state
  = ({| trace := [EDlopen Dependency "libdep.so" 257 (Some 1%positive);
                  EDlopen Dependency "missing.so" 257 None;
                  EGetenv "DD_TRACE_LOG_FILE" None;
                  EDlerror
                    (Some "missing.so: cannot open shared object file");
                  EFputs "missing.so: cannot open shared object file" Stderr];
        dl_error := None |},
     Exited 9).
Proof. reflexivity. Qed.

Example run_reports_left_to_right :
  run_main left_to_right_env
    ["trampoline"; ""; "missing.so"; "do_init"] initial_state
  = ({| trace := [EDlopen Target "missing.so" 257 None;
                  EDlerror
                    (Some "missing.so: cannot open shared object file");
                  EGetenv "DD_TRACE_LOG_FILE" None;
                  EFputs "missing.so: cannot open shared object file" Stderr];
        dl_error := None |},
     Exited 10).
Proof. reflexivity. Qed.

Example run_calls_through_null :
  run_main example_env
    ["trampoline"; ""; "libtarget.so"; "null_hook"] initial_state
  = ({| trace := [EDlopen Target "libtarget.so" 257 (Some 3%positive);
                  EDlerror (Some "stale");
                  EDlsym 3%positive "null_hook" None;
                  EDlerror None];
        dl_error := None |},
     Crashed).
Proof. reflexivity. Qed.

Example run_stores_through_null :
  run_main out_of_memory_env
    ["trampoline"; ""; "libtarget.so"; "-"; "missing.so"; "do_init"]
    initial_state
  = ({| trace := [EDlopen Dependency "missing.so" 257 None];
        dl_error := Some "missing.so: cannot open shared object file" |},
     Crashed).
Proof. reflexivity. Qed.

Example run_without_array_to_store_in :
  run_main out_of_memory_env
    ["trampoline"; ""; "libtarget.so"; "-"; "-"; "do_init"] initial_state
  = ({| trace := [EDlopen Target "libtarget.so" 257 (Some 3%positive);
                  EDlerror (Some "stale");
                  EDlsym 3%positive "do_init" (Some 7%positive);
                  EDlerror None;
                  ECall 7%positive;
                  EDlclose 3%positive];
        dl_error := None |},
     Exited 0).
Proof. reflexivity. Qed.

Example run_with_markers_only :
  run_main example_env
    ["trampoline"; ""; "libtarget.so"; "-"; "-"; "no_such_symbol"]
    initial_state
  = ({| trace := [EDlopen Target "libtarget.so" 257 (Some 3%positive);
                  EDlerror (Some "stale");
                  EDlsym 3%positive "no_such_symbol" None;
                  EDlerror (Some "undefined symbol: no_such_symbol");
                  EGetenv "DD_TRACE_LOG_FILE" None;
                  EFputs "undefined symbol: no_such_symbol" Stderr];
        dl_error := None |},
     Exited 11).
Proof. reflexivity. Qed.

Example specs_of_marked_arguments :
  spec_dependency_specs ["-"; "a.so"; "b.so"; "-"; "-"; "c.so"; "-"]
  = [{| path := "a.so"; unlink_after_load := true |};
     {| path := "b.so"; unlink_after_load := false |};
     {| path := "c.so"; unlink_after_load := true |}].
Proof. reflexivity. Qed.

(** ** C strings *)

Lemma cstring_nonempty (s : string) :
  cstring s = true ->
  (Ascii.eqb (char_at s 0) NUL = false <-> s <> "").
Proof.
  destruct s as [|c s]; simpl; intros H.
  - split; [discriminate | congruence].
  - apply andb_prop in H as [H _]. apply negb_true_iff in H.
    unfold char_at; simpl. split; [discriminate | auto].
Qed.



Lemma strcmp_refl (a : string) : strcmp a a = 0.
Proof.
  induction a as [|c a IH]; simpl; [reflexivity|].
  rewrite Ascii.eqb_refl. destruct (Ascii.eqb c NUL); auto.
Qed.

Lemma byte_val_inj (c d : ascii) : byte_val c = byte_val d -> c = d.
Proof.
  unfold byte_val. intros H. apply N2Z.inj in H.
  rewrite <- (ascii_N_embedding c), <- (ascii_N_embedding d). congruence.
Qed.

Lemma byte_val_NUL (c : ascii) : byte_val c = 0 -> c = NUL.
Proof. intros H. apply byte_val_inj. exact H. Qed.

(** On C strings, [strcmp] returns 0 exactly on equal strings. *)
Lemma strcmp_eq (a b : string) :
  cstring a = true -> cstring b = true ->
  (strcmp a b = 0 <-> a = b).
Proof.
  revert b. induction a as [|c a IH]; intros [|d b]; simpl; intros Ha Hb.
  - tauto.
  - apply andb_prop in Hb as [Hd _]. apply negb_true_iff in Hd.
    split; [|discriminate]. intros H.
    assert (d = NUL) by (apply byte_val_NUL; lia). subst d.
    rewrite Ascii.eqb_refl in Hd. discriminate.
  - apply andb_prop in Ha as [Hc _]. apply negb_true_iff in Hc.
    split; [|discriminate]. intros H.
    assert (c = NUL) by (apply byte_val_NUL; lia). subst c.
    rewrite Ascii.eqb_refl in Hc. discriminate.
  - apply andb_prop in Ha as [Hc Ha]. apply andb_prop in Hb as [_ Hb].
    apply negb_true_iff in Hc.
    destruct (Ascii.eqb c d) eqn:E.
    + apply Ascii.eqb_eq in E. subst d. rewrite Hc.
      rewrite (IH b Ha Hb). split; congruence.
    + apply Ascii.eqb_neq in E. split.
      * intros H. exfalso. apply E. apply byte_val_inj. lia.
      * congruence.
Qed.

(** ** Running the library calls *)

Lemma bind_ext {A B} (m : M A) (k1 k2 : A -> M B) (s : State) :
  (forall a s', k1 a s' = k2 a s') -> bind m k1 s = bind m k2 s.
Proof.
  intros H. unfold bind. destruct (m s) as [s' [a| | |]]; auto.
Qed.

Lemma arg_at (argv : list string) (k : nat) (a : string) (s : State) :
  argv !! k = Some a -> arg argv (Z.of_nat k) s = (s, Val a).
Proof.
  intros H. unfold arg.
  replace (Z.of_nat k <? 0) with false by (symmetry; apply Z.ltb_ge; lia).
  rewrite Nat2Z.id, H. reflexivity.
Qed.

Lemma error_fd_run (env : Env) (s : State) :
  error_fd env s
  = ({| trace := trace s ++ error_sink_events env (trace s);
        dl_error := dl_error s |},
     Val (error_sink env (trace s))).
Proof.
  unfold error_sink_events, error_sink, error_fd, bind, getenv, fopen, ret, log.
  simpl.
  destruct (os_getenv env (trace s) "DD_TRACE_LOG_FILE") as [p|]; simpl.
  - destruct (os_fopen env _ p "a") as [f|]; simpl;
      rewrite <- app_assoc, drop_app_length; reflexivity.
  - rewrite drop_app_length. reflexivity.
Qed.

Lemma error_sink_events_sink (env : Env) (hist : list Event) :
  Forall (fun e => sink_event e = true) (error_sink_events env hist).
Proof.
  unfold error_sink_events, error_fd, bind, getenv, fopen, ret, log. simpl.
  destruct (os_getenv env hist "DD_TRACE_LOG_FILE") as [p|]; simpl.
  - destruct (os_fopen env _ p "a") as [f|]; simpl;
      rewrite <- app_assoc, drop_app_length; repeat constructor.
  - rewrite drop_app_length. repeat constructor.
Qed.

Lemma report_dlerror_run (env : Env) (s : State) (msg : string) :
  dl_error s = Some msg ->
  exists tail,
    dlerror_report env (trace s) msg tail
    /\ report_dlerror env s
       = ({| trace := trace s ++ tail; dl_error := None |}, Val tt).
Proof.
  intros H. unfold report_dlerror.
  destruct (dlerror_first env (trace s)) eqn:Eo.
  - eexists. split; [apply report_dlerror_first; exact Eo|].
    unfold bind, dlerror. rewrite H.
    rewrite error_fd_run. simpl. unfold log, report_events. simpl.
    rewrite <- !app_assoc. reflexivity.
  - eexists. split; [apply report_error_fd_first; exact Eo|].
    unfold bind. rewrite error_fd_run. unfold dlerror. cbn [trace dl_error].
    rewrite H. unfold fputs, log. cbn [trace dl_error].
    rewrite <- !app_assoc. reflexivity.
Qed.

Lemma bind_val {A B} (m : M A) (k : A -> M B) (s s' : State) (a : A) :
  m s = (s', Val a) -> bind m k s = k a s'.
Proof. intros H. unfold bind. rewrite H. reflexivity. Qed.

Lemma bind_return {A B} (m : M A) (k : A -> M B) (s s' : State) (c : Z) :
  m s = (s', Return c) -> bind m k s = (s', Return c).
Proof. intros H. unfold bind. rewrite H. reflexivity. Qed.

Lemma dlopen_ok (env : Env) (site : Site) (p : string) (fl : Z) (s : State)
    (h : Handle) :
  os_dlopen env (trace s) p fl = inl h ->
  dlopen env site p fl s = (log (EDlopen site p fl (Some h)) s, Val (Some h)).
Proof. intros H. unfold dlopen. rewrite H. reflexivity. Qed.

Lemma dlopen_fail (env : Env) (site : Site) (p : string) (fl : Z) (s : State)
    (msg : string) :
  os_dlopen env (trace s) p fl = inr msg ->
  dlopen env site p fl s
  = ({| trace := trace s ++ [EDlopen site p fl None]; dl_error := Some msg |},
     Val None).
Proof. intros H. unfold dlopen. rewrite H. reflexivity. Qed.

Lemma insert_opened (opened : list Handle) (m : nat) (h : option Handle) :
  <[length opened := h]> (map Some opened ++ replicate (S m) None)
  = map Some opened ++ h :: replicate m None.
Proof.
  rewrite insert_app_r_alt by (rewrite length_map; lia).
  rewrite length_map, Nat.sub_diag. reflexivity.
Qed.

Lemma store_run (opened : list Handle) (m : nat) (h : option Handle)
    (s : State) :
  store (Some (map Some opened ++ replicate (S m) None))
    (Z.of_nat (length opened)) h s
  = (s, Val (Some (map Some opened ++ h :: replicate m None))).
Proof.
  unfold store.
  rewrite length_app, length_map, length_replicate.
  replace (0 <=? Z.of_nat (length opened)) with true
    by (symmetry; apply Z.leb_le; lia).
  replace (Z.of_nat (length opened) <? Z.of_nat (length opened + S m))
    with true by (symmetry; apply Z.ltb_lt; lia).
  cbn [andb]. unfold ret. rewrite Nat2Z.id, insert_opened. reflexivity.
Qed.

Lemma load_dependencies_refines (env : Env) (argv : list string) :
  forall (rest : list string) (k : nat) (u : bool) (opened : list Handle)
         (m : nat) (s : State),
    (forall j a, rest !! j = Some a -> argv !! (3 + k + j)%nat = Some a) ->
    (length rest <= m)%nat ->
    load_dependencies env argv (length rest) (Z.of_nat k)
      (Some (map Some opened ++ replicate m None))
      (Z.of_nat (length opened)) u s
    = (let (s', r) :=
         spec_dependency_loader env true (scan_dependencies u rest) opened s in
       (s', map_res
              (fun hs =>
                 (Some (map Some hs
                        ++ replicate (length opened + m - length hs)%nat None),
                  Z.of_nat (length hs))) r)).
Proof.
  induction rest as [|a rest IH]; intros k u opened m s Hargs Hm.
  - simpl. unfold ret.
    replace (length opened + m - length opened)%nat with m by lia.
    reflexivity.
  - simpl length. cbn [load_dependencies scan_dependencies].
    replace (3 + Z.of_nat k) with (Z.of_nat (3 + k + 0)) by lia.
    rewrite (bind_val _ _ _ _ _ (arg_at argv _ a s (Hargs 0%nat a eq_refl))).
    assert (Hnext : forall j b, rest !! j = Some b ->
                      argv !! (3 + S k + j)%nat = Some b).
    { intros j b Hj. replace (3 + S k + j)%nat with (3 + k + S j)%nat by lia.
      apply Hargs. exact Hj. }
    replace (Z.of_nat k + 1) with (Z.of_nat (S k)) by lia.
    destruct (is_marker a).
    + apply IH; [exact Hnext | simpl in Hm; lia].
    + cbn [spec_dependency_loader path unlink_after_load].
      destruct m as [|m]; [simpl in Hm; lia|].
      destruct (os_dlopen env (trace s) a (Z.lor RTLD_LAZY RTLD_GLOBAL))
        as [h|msg] eqn:E.
      * rewrite !(bind_val _ _ _ _ _ (dlopen_ok env Dependency _ _ _ _ E)).
        rewrite (bind_val _ _ _ _ _ (store_run opened m (Some h) _)).
        assert (Hcont : forall s1,
          load_dependencies env argv (length rest) (Z.of_nat (S k))
            (Some (map Some opened ++ Some h :: replicate m None))
            (Z.of_nat (length opened) + 1) false s1
          = (let (s', r) :=
               spec_dependency_loader env true (scan_dependencies false rest)
                 (opened ++ [h]) s1 in
             (s', map_res
                    (fun hs =>
                       (Some (map Some hs
                              ++ replicate
                                   (length opened + S m - length hs)%nat None),
                        Z.of_nat (length hs))) r))).
        { intros s1.
          replace (map Some opened ++ Some h :: replicate m None)
            with (map Some (opened ++ [h]) ++ replicate m None)
            by (rewrite map_app, <- app_assoc; reflexivity).
          replace (Z.of_nat (length opened) + 1)
            with (Z.of_nat (length (opened ++ [h])))
            by (rewrite length_app; simpl; lia).
          rewrite IH by (auto; simpl in Hm; lia).
          rewrite length_app. simpl length.
          replace (length opened + 1 + m)%nat with (length opened + S m)%nat
            by lia.
          reflexivity. }
        destruct u.
        -- unfold bind, unlink, ret. simpl. apply Hcont.
        -- unfold bind, ret. simpl. apply Hcont.
      * rewrite !(bind_val _ _ _ _ _ (dlopen_fail env Dependency _ _ _ _ E)).
        rewrite (bind_val _ _ _ _ _ (store_run opened m None _)).
        unfold bind.
        destruct (report_dlerror env _) as [s1 [[]| | |]]; reflexivity.
Qed.

(** Without an array the loop skips the markers and stops at the first path:
    the handle [dlopen] returns for it is stored through a null pointer. *)
Lemma spec_dependency_loader_unallocated (env : Env)
    (specs : list DependencySpec) (opened : list Handle) (s : State) :
  spec_dependency_loader env false specs opened s
  = match specs with
    | [] => (s, Val opened)
    | d :: _ =>
        (fst (dlopen env Dependency (path d) (Z.lor RTLD_LAZY RTLD_GLOBAL) s),
         Undefined)
    end.
Proof.
  destruct specs as [|d rest]; [reflexivity|].
  cbn [spec_dependency_loader]. unfold bind, dlopen, undefined.
  destruct (os_dlopen env (trace s) (path d) (Z.lor RTLD_LAZY RTLD_GLOBAL));
    reflexivity.
Qed.

Lemma load_dependencies_null (env : Env) (argv : list string) :
  forall (rest : list string) (k : nat) (u : bool) (count : Z) (s : State),
    (forall j a, rest !! j = Some a -> argv !! (3 + k + j)%nat = Some a) ->
    load_dependencies env argv (length rest) (Z.of_nat k) None count u s
    = match scan_dependencies u rest with
      | [] => (s, Val (None, count))
      | d :: _ =>
          (fst (dlopen env Dependency (path d)
                  (Z.lor RTLD_LAZY RTLD_GLOBAL) s),
           Undefined)
      end.
Proof.
  induction rest as [|a rest IH]; intros k u count s Hargs; [reflexivity|].
  simpl length. cbn [load_dependencies scan_dependencies].
  replace (3 + Z.of_nat k) with (Z.of_nat (3 + k + 0)) by lia.
  rewrite (bind_val _ _ _ _ _ (arg_at argv _ a s (Hargs 0%nat a eq_refl))).
  replace (Z.of_nat k + 1) with (Z.of_nat (S k)) by lia.
  destruct (is_marker a).
  - apply IH. intros j b Hj.
    replace (3 + S k + j)%nat with (3 + k + S j)%nat by lia.
    apply Hargs. exact Hj.
  - cbn [path]. unfold bind, dlopen, store, undefined.
    destruct (os_dlopen env (trace s) a (Z.lor RTLD_LAZY RTLD_GLOBAL));
      reflexivity.
Qed.

Lemma bind_map_res {A B C} (m1 : M B) (m2 : M A) (f : A -> B)
    (k1 : B -> M C) (k2 : A -> M C) (s : State) :
  m1 s = (let (s', r) := m2 s in (s', map_res f r)) ->
  (forall a s', k1 (f a) s' = k2 a s') ->
  bind m1 k1 s = bind m2 k2 s.
Proof.
  intros H K. unfold bind. rewrite H.
  destruct (m2 s) as [s' [a| | |]]; simpl; auto.
Qed.

Lemma bind_rets {A B C} (a : A) (b : B) (m1 : M A) (m2 : M B)
    (k1 : A -> M C) (k2 : B -> M C) (s : State) :
  m1 s = (s, Val a) -> m2 s = (s, Val b) -> k1 a s = k2 b s ->
  bind m1 k1 s = bind m2 k2 s.
Proof. intros H1 H2 K. unfold bind. rewrite H1, H2. exact K. Qed.

Lemma bind_ext_l {A B} (m1 m2 : M A) (k : A -> M B) (s : State) :
  (forall s', m1 s' = m2 s') -> bind m1 k s = bind m2 k s.
Proof. intros H. unfold bind. rewrite H. reflexivity. Qed.

Lemma close_handles_refines (hs : list Handle) :
  forall (pre pad : list (option Handle)) (s : State),
    close_handles (pre ++ map Some hs ++ pad) (length hs)
      (Z.of_nat (length pre)) s
    = spec_release hs s.
Proof.
  induction hs as [|h hs IH]; intros pre pad s; [reflexivity|].
  cbn [close_handles spec_release length map].
  assert (Hload : load (pre ++ (Some h :: map Some hs) ++ pad)
                    (Z.of_nat (length pre)) s = (s, Val (Some h))).
  { unfold load.
    replace (Z.of_nat (length pre) <? 0) with false
      by (symmetry; apply Z.ltb_ge; lia).
    rewrite Nat2Z.id. simpl. rewrite list_lookup_middle by reflexivity.
    reflexivity. }
  rewrite (bind_val _ _ _ _ _ Hload).
  apply bind_ext. intros [] s1.
  replace (pre ++ (Some h :: map Some hs) ++ pad)
    with ((pre ++ [Some h]) ++ map Some hs ++ pad)
    by (rewrite <- app_assoc; reflexivity).
  replace (Z.of_nat (length pre) + 1)
    with (Z.of_nat (length (pre ++ [Some h])))
    by (rewrite length_app; simpl; lia).
  apply IH.
Qed.

(** Both pipelines agree up to the release of the dependency handles. *)
Ltac to_teardown :=
  apply bind_ext; intros [?|] ?; [|reflexivity];
  apply bind_ext; intros _ ?;
  apply bind_ext; intros ? ?;
  apply bind_ext; intros [?|] ?; [reflexivity|];
  apply bind_ext; intros _ ?;
  apply bind_ext; intros _ ?;
  apply bind_ext_l; intros ?.

Lemma pipeline_refines (env : Env) (prog temp library symbol : string)
    (deps : list string) (s : State) :
  let argv := prog :: temp :: library :: deps ++ [symbol] in
  pipeline env argv s
  = spec_after_cleanup env (Z.of_nat (length argv) - 4)
      {| launcher_temp_path := temp;
         target_library_path := library;
         symbol_name := symbol;
         dependency_specs := scan_dependencies false deps |} s.
Proof.
  intros argv. unfold pipeline, spec_after_cleanup, spec_invoke.
  cbn [launcher_temp_path target_library_path symbol_name dependency_specs].
  assert (Hargc : Z.of_nat (length argv) = Z.of_nat (length deps) + 4).
  { unfold argv. simpl length. rewrite length_app. simpl. lia. }
  rewrite Hargc.
  change 2 with (Z.of_nat 2).
  rewrite (bind_val _ _ _ _ _ (arg_at argv 2 library s eq_refl)).
  replace (Z.of_nat (length deps) + 4 - 1) with (Z.of_nat (3 + length deps))
    by lia.
  assert (Hsym : argv !! (3 + length deps)%nat = Some symbol).
  { unfold argv. simpl. apply list_lookup_middle. reflexivity. }
  rewrite (bind_val _ _ _ _ _ (arg_at argv _ symbol s Hsym)).
  destruct (strcmp "__dummy_mirror_test" library =? 0); [reflexivity|].
  replace (Z.of_nat (length deps) + 4 - 4) with (Z.of_nat (length deps)) by lia.
  assert (Hargs : forall j a, deps !! j = Some a ->
                    argv !! (3 + 0 + j)%nat = Some a).
  { intros j a Hj. unfold argv. simpl.
    rewrite lookup_app_l; [exact Hj|].
    apply lookup_lt_Some in Hj. exact Hj. }
  rewrite Nat2Z.id.
  rewrite (bind_val (spec_allocation env _) _ s s
             (os_calloc env (trace s) (Z.of_nat (length deps))) eq_refl).
  destruct (Z.of_nat (length deps) >? 0) eqn:Epos.
  - rewrite (bind_val (calloc env _) _ s s
               (if os_calloc env (trace s) (Z.of_nat (length deps))
                then calloc_handles (Z.of_nat (length deps)) else None)
               eq_refl).
    destruct (os_calloc env (trace s) (Z.of_nat (length deps))).
    + eapply bind_map_res.
      * pose proof (load_dependencies_refines env argv deps 0 false []
                      (length deps) s) as H.
        simpl in H. change (Z.of_nat 0) with 0 in H.
        unfold calloc_handles. rewrite Nat2Z.id.
        apply H; [exact Hargs|lia].
      * intros hs s1. cbv beta iota.
        to_teardown. rewrite Nat2Z.id.
        apply (close_handles_refines hs []).
    + pose proof (load_dependencies_null env argv deps 0 false 0 s Hargs)
        as Hl.
      change (Z.of_nat 0) with 0 in Hl.
      pose proof (spec_dependency_loader_unallocated env
                    (scan_dependencies false deps) [] s) as Hs.
      destruct (scan_dependencies false deps) as [|d specs].
      * apply (bind_rets (None, 0) []); [exact Hl|exact Hs|].
        to_teardown. reflexivity.
      * unfold bind at 1. rewrite Hl. unfold bind at 1. rewrite Hs.
        reflexivity.
  - assert (deps = []) as ->.
    { rewrite Z.gtb_ltb in Epos. apply Z.ltb_ge in Epos.
      destruct deps; [reflexivity|simpl in Epos; lia]. }
    rewrite (bind_val (ret None) _ s s None eq_refl).
    apply (bind_rets (None, 0) []);
      [reflexivity|destruct (os_calloc env (trace s) _); reflexivity|].
    to_teardown. reflexivity.
Qed.

Lemma spec_request_args (prog temp library symbol : string)
    (deps : list string) :
  spec_request (prog :: temp :: library :: deps ++ [symbol])
  = Some {| launcher_temp_path := temp;
            target_library_path := library;
            symbol_name := symbol;
            dependency_specs := scan_dependencies false deps |}.
Proof.
  unfold spec_request. rewrite last_snoc, removelast_last. reflexivity.
Qed.

(** An argument vector of four or more entries, taken apart. *)
Lemma argv_split (argv : list string) :
  (4 <= length argv)%nat ->
  exists prog temp library deps symbol,
    argv = prog :: temp :: library :: deps ++ [symbol].
Proof.
  destruct argv as [|prog [|temp [|library rest]]]; simpl; try lia.
  destruct rest as [|symbol deps _] using rev_ind; simpl; [lia|].
  intros _. exists prog, temp, library, deps, symbol. reflexivity.
Qed.

Lemma spec_request_short (argv : list string) :
  (length argv < 4)%nat -> spec_request argv = None.
Proof.
  destruct argv as [|prog [|temp [|library [|a rest]]]]; simpl;
    try reflexivity; lia.
Qed.

(** [main] is the pipeline of the specification run on the parsed request. *)
Lemma main_refines (env : Env) (argv : list string) (s : State) :
  main env argv s
  = match spec_request argv with
    | Some req => spec_pipeline env (Z.of_nat (length argv) - 4) req s
    | None => (s, Return 12)
    end.
Proof.
  destruct (le_lt_dec 4 (length argv)) as [Hlen|Hlen].
  - destruct (argv_split argv Hlen)
      as (prog & temp & library & deps & symbol & ->).
    rewrite spec_request_args. unfold main, spec_pipeline.
    cbn [launcher_temp_path].
    replace (Z.of_nat (length (prog :: temp :: library :: deps ++ [symbol]))
             >? 3) with true
      by (symmetry; rewrite Z.gtb_ltb; apply Z.ltb_lt; simpl length;
          rewrite length_app; simpl length; lia).
    change 1 with (Z.of_nat 1).
    rewrite (bind_val _ _ _ _ _ (arg_at (prog :: temp :: library :: deps ++ [symbol]) 1 temp s eq_refl)).
    destruct (negb (Ascii.eqb (char_at temp 0) NUL)).
    + apply bind_ext. intros _ s1.
      apply (pipeline_refines env prog temp library symbol deps s1).
    + apply (pipeline_refines env prog temp library symbol deps s).
  - rewrite (spec_request_short argv Hlen). unfold main.
    replace (Z.of_nat (length argv) >? 3) with false
      by (symmetry; rewrite Z.gtb_ltb; apply Z.ltb_ge; lia).
    reflexivity.
Qed.

(** ** The runs of the specification's pipeline *)

Lemma state_eta (s : State) :
  s = {| trace := trace s ++ []; dl_error := dl_error s |}.
Proof. destruct s. simpl. rewrite app_nil_r. reflexivity. Qed.

(** Histories are kept in the form [trace s ++ events]. *)
Tactic Notation "norm_state" :=
  unfold log; cbn [trace dl_error]; rewrite <- ?app_assoc; cbn [app].
Tactic Notation "norm_state" "in" hyp(H) :=
  unfold log in H; cbn [trace dl_error] in H; rewrite <- ?app_assoc in H;
  cbn [app] in H.

Lemma spec_release_run (hs : list Handle) (s : State) :
  spec_release hs s
  = ({| trace := trace s ++ map EDlclose hs; dl_error := dl_error s |},
     Val tt).
Proof.
  revert s. induction hs as [|h hs IH]; intros s.
  - simpl. unfold ret. f_equal. apply state_eta.
  - cbn [spec_release map]. unfold bind, dlclose. rewrite IH.
    unfold log. cbn [trace dl_error]. rewrite <- app_assoc. reflexivity.
Qed.

(** With its array the dependency loader always finishes: either every
    library opened, or the first failure was reported and 9 returned. *)
Lemma spec_dependency_loader_run (env : Env) (specs : list DependencySpec) :
  forall (opened : list Handle) (s : State),
  exists t0,
    loader_trace specs t0
    /\ ((spec_dependency_loader env true specs opened s
         = ({| trace := trace s ++ t0; dl_error := dl_error s |},
            Val (opened ++ dependency_handles t0))
         /\ opened_paths t0 = map path specs)
        \/ exists p msg failed tail,
             In p (map path specs)
             /\ os_dlopen env (trace s ++ t0) p (Z.lor RTLD_LAZY RTLD_GLOBAL)
                = inr msg
             /\ failed = [EDlopen Dependency p (Z.lor RTLD_LAZY RTLD_GLOBAL)
                            None]
             /\ dlerror_report env (trace s ++ t0 ++ failed) msg tail
             /\ spec_dependency_loader env true specs opened s
                = ({| trace := trace s ++ t0 ++ failed ++ tail;
                      dl_error := None |},
                   Return 9)).
Proof.
  induction specs as [|[p u] specs IH]; intros opened s.
  - exists []. split; [constructor|]. left. split; [|reflexivity].
    simpl. unfold ret. f_equal; [apply state_eta|].
    rewrite app_nil_r. reflexivity.
  - cbn [spec_dependency_loader path unlink_after_load].
    destruct (os_dlopen env (trace s) p (Z.lor RTLD_LAZY RTLD_GLOBAL))
      as [h|msg] eqn:E.
    + rewrite (bind_val _ _ _ _ _ (dlopen_ok env Dependency _ _ _ _ E)).
      destruct u.
      * set (s2 := log (EUnlink p (os_unlink env
                     (trace (log (EDlopen Dependency p
                        (Z.lor RTLD_LAZY RTLD_GLOBAL) (Some h)) s)) p))
                     (log (EDlopen Dependency p
                        (Z.lor RTLD_LAZY RTLD_GLOBAL) (Some h)) s)).
        assert (Hstep : forall k : unit -> M (list Handle),
                  bind (bind (unlink env p) (fun _ => ret tt)) k
                    (log (EDlopen Dependency p
                        (Z.lor RTLD_LAZY RTLD_GLOBAL) (Some h)) s)
                  = k tt s2) by reflexivity.
        rewrite Hstep.
        destruct (IH (opened ++ [h]) s2) as (t1 & Ht1 & Hrun).
        exists (EDlopen Dependency p (Z.lor RTLD_LAZY RTLD_GLOBAL) (Some h)
                :: EUnlink p (os_unlink env
                     (trace s ++ [EDlopen Dependency p
                        (Z.lor RTLD_LAZY RTLD_GLOBAL) (Some h)]) p) :: t1).
        split; [constructor; exact Ht1|].
        subst s2. norm_state.
        destruct Hrun
          as [[Hrun Hp]|(q & msg & failed & tail & Hin & Hq & Hf & Hr & Hrun)].
        -- norm_state in Hrun. left. split.
           ++ rewrite Hrun. cbn [dependency_handles omap].
              rewrite <- ?app_assoc. reflexivity.
           ++ simpl. f_equal. exact Hp.
        -- norm_state in Hrun. norm_state in Hq. norm_state in Hr.
           right. exists q, msg, failed, tail.
           split; [right; exact Hin|].
           split; [exact Hq|]. split; [exact Hf|]. split; [exact Hr|exact Hrun].
      * assert (Hstep : forall k : unit -> M (list Handle),
                  bind (ret tt) k
                    (log (EDlopen Dependency p
                        (Z.lor RTLD_LAZY RTLD_GLOBAL) (Some h)) s)
                  = k tt (log (EDlopen Dependency p
                        (Z.lor RTLD_LAZY RTLD_GLOBAL) (Some h)) s))
          by reflexivity.
        rewrite Hstep.
        destruct (IH (opened ++ [h])
                    (log (EDlopen Dependency p
                        (Z.lor RTLD_LAZY RTLD_GLOBAL) (Some h)) s))
          as (t1 & Ht1 & Hrun).
        exists (EDlopen Dependency p (Z.lor RTLD_LAZY RTLD_GLOBAL) (Some h)
                :: t1).
        split; [constructor; exact Ht1|].
        norm_state.
        destruct Hrun
          as [[Hrun Hp]|(q & msg & failed & tail & Hin & Hq & Hf & Hr & Hrun)].
        -- norm_state in Hrun. left. split.
           ++ rewrite Hrun. cbn [dependency_handles omap].
              rewrite <- ?app_assoc. reflexivity.
           ++ simpl. f_equal. exact Hp.
        -- norm_state in Hrun. norm_state in Hq. norm_state in Hr.
           right. exists q, msg, failed, tail.
           split; [right; exact Hin|].
           split; [exact Hq|]. split; [exact Hf|]. split; [exact Hr|exact Hrun].
    + exists []. split; [constructor|]. right.
      destruct (report_dlerror_run env
                  {| trace := trace s ++ [EDlopen Dependency p
                                (Z.lor RTLD_LAZY RTLD_GLOBAL) None];
                     dl_error := Some msg |} msg eq_refl)
        as (tail & Htail & Hrep).
      exists p, msg, [EDlopen Dependency p (Z.lor RTLD_LAZY RTLD_GLOBAL) None],
        tail.
      rewrite app_nil_r. split; [left; reflexivity|].
      split; [exact E|]. split; [reflexivity|].
      split; [exact Htail|].
      rewrite (bind_val _ _ _ _ _ (dlopen_fail env Dependency _ _ _ _ E)).
      rewrite (bind_val _ _ _ _ _ Hrep).
      unfold return_. norm_state. reflexivity.
Qed.

Lemma dlsym_ok (env : Env) (h : Handle) (name : string) (s : State)
    (fn : option Symbol) :
  os_dlsym env (trace s) h name = inl fn ->
  dlsym env h name s = (log (EDlsym h name fn) s, Val fn).
Proof. intros H. unfold dlsym. rewrite H. reflexivity. Qed.

Lemma dlsym_fail (env : Env) (h : Handle) (name : string) (s : State)
    (msg : string) :
  os_dlsym env (trace s) h name = inr msg ->
  dlsym env h name s
  = ({| trace := trace s ++ [EDlsym h name None]; dl_error := Some msg |},
     Val None).
Proof. intros H. unfold dlsym. rewrite H. reflexivity. Qed.

Lemma dlerror_run (s : State) :
  dlerror s
  = ({| trace := trace s ++ [EDlerror (dl_error s)]; dl_error := None |},
     Val (dl_error s)).
Proof. reflexivity. Qed.

(** Once the dependencies are open, the pipeline ends in one of the ways of
    [pipeline_run] that follow a complete loader trace. *)
Lemma spec_invoke_run (env : Env) (req : InvocationRequest)
    (allocated : bool) (s : State) (t0 : list Event) :
  loader_trace (dependency_specs req) t0 ->
  opened_paths t0 = map path (dependency_specs req) ->
  exists t d r,
    spec_invoke env req (dependency_handles t0)
      {| trace := trace s ++ t0; dl_error := dl_error s |}
    = ({| trace := trace s ++ t; dl_error := d |}, r)
    /\ pipeline_run env req allocated (trace s) (dl_error s) t r.
Proof.
  intros Ht0 Hall. unfold spec_invoke.
  set (lib := target_library_path req).
  set (sym := symbol_name req).
  set (fl := Z.lor RTLD_LAZY RTLD_GLOBAL).
  destruct (os_dlopen env (trace s ++ t0) lib fl) as [h|msg] eqn:E.
  - rewrite (bind_val _ _ _ _ _
               (dlopen_ok env Target lib fl
                  {| trace := trace s ++ t0; dl_error := dl_error s |} h E)).
    rewrite (bind_val _ _ _ _ _ (dlerror_run _)). norm_state.
    destruct (os_dlsym env
                (trace s ++ t0 ++ [EDlopen Target lib fl (Some h);
                                   EDlerror (dl_error s)]) h sym)
      as [[fn|]|msg] eqn:Es.
    + rewrite (bind_val _ _ _ _ _
                 (dlsym_ok env h sym
                    {| trace := trace s ++ t0
                                ++ [EDlopen Target lib fl (Some h);
                                    EDlerror (dl_error s)];
                       dl_error := None |} (Some fn) Es)).
      rewrite (bind_val _ _ _ _ _ (dlerror_run _)). norm_state.
      destruct (os_returns env
                  (trace s ++ t0
                   ++ [EDlopen Target lib fl (Some h); EDlerror (dl_error s);
                       EDlsym h sym (Some fn); EDlerror None]) fn) eqn:Er.
      * exists (t0 ++ [EDlopen Target lib fl (Some h);
                       EDlerror (dl_error s);
                       EDlsym h sym (Some fn); EDlerror None]
                ++ [ECall fn; EDlclose h]
                ++ map EDlclose (dependency_handles t0)), None, (Return 0).
        split; [|eapply run_success; eauto].
        unfold bind at 1, call. norm_state. rewrite Er.
        unfold bind at 1, dlclose. norm_state.
        unfold bind at 1. rewrite spec_release_run. norm_state.
        reflexivity.
      * exists (t0 ++ [EDlopen Target lib fl (Some h);
                       EDlerror (dl_error s);
                       EDlsym h sym (Some fn); EDlerror None]
                ++ [ECall fn]), None, NoReturn.
        split; [|eapply run_blocked; eauto].
        unfold bind at 1, call. norm_state. rewrite Er.
        reflexivity.
    + exists (t0 ++ [EDlopen Target lib fl (Some h); EDlerror (dl_error s)]
              ++ [EDlsym h sym None; EDlerror None]), None, Undefined.
      split; [|eapply run_null_call; eauto].
      rewrite (bind_val _ _ _ _ _
                 (dlsym_ok env h sym
                    {| trace := trace s ++ t0
                                ++ [EDlopen Target lib fl (Some h);
                                    EDlerror (dl_error s)];
                       dl_error := None |} None Es)).
      rewrite (bind_val _ _ _ _ _ (dlerror_run _)). norm_state.
      reflexivity.
    + exists (t0 ++ [EDlopen Target lib fl (Some h); EDlerror (dl_error s)]
              ++ [EDlsym h sym None; EDlerror (Some msg)]
              ++ report_events env
                   (trace s ++ t0
                    ++ [EDlopen Target lib fl (Some h);
                        EDlerror (dl_error s)]
                    ++ [EDlsym h sym None; EDlerror (Some msg)]) msg),
        None, (Return 11).
      split; [|eapply run_symbol_failure; eauto].
      rewrite (bind_val _ _ _ _ _
                 (dlsym_fail env h sym
                    {| trace := trace s ++ t0
                                ++ [EDlopen Target lib fl (Some h);
                                    EDlerror (dl_error s)];
                       dl_error := None |} msg Es)).
      rewrite (bind_val _ _ _ _ _ (dlerror_run _)). norm_state.
      unfold bind at 1. rewrite error_fd_run. norm_state.
      unfold bind, fputs, return_, report_events. norm_state.
      reflexivity.
  - destruct (report_dlerror_run env
                {| trace := (trace s ++ t0) ++ [EDlopen Target lib fl None];
                   dl_error := Some msg |} msg eq_refl)
      as (tail & Htail & Hrep).
    norm_state in Htail.
    exists (t0 ++ [EDlopen Target lib fl None] ++ tail), None, (Return 10).
    split; [|eapply run_target_failure; eauto].
    rewrite (bind_val _ _ _ _ _
               (dlopen_fail env Target lib fl
                  {| trace := trace s ++ t0; dl_error := dl_error s |}
                  msg E)).
    rewrite (bind_val _ _ _ _ _ Hrep).
    unfold return_. norm_state. reflexivity.
Qed.

(** Past the dummy-mirror check, the pipeline always ends in one of the ways
    of [pipeline_run]. *)
Lemma spec_after_cleanup_run (env : Env) (n : Z) (req : InvocationRequest)
    (s : State) :
  (strcmp "__dummy_mirror_test" (target_library_path req) =? 0) = false ->
  exists t d r,
    spec_after_cleanup env n req s
    = ({| trace := trace s ++ t; dl_error := d |}, r)
    /\ pipeline_run env req (os_calloc env (trace s) n) (trace s) (dl_error s)
         t r.
Proof.
  intros Hreal. unfold spec_after_cleanup. rewrite Hreal.
  rewrite (bind_val (spec_allocation env n) _ s s
             (os_calloc env (trace s) n) eq_refl).
  destruct (os_calloc env (trace s) n) eqn:Ea.
  - destruct (spec_dependency_loader_run env (dependency_specs req) [] s)
      as (t0 & Ht0
          & [[Hrun Hall]|(p & msg & failed & tail & Hin & Hp & Hf & Hr & Hrun)]).
    + rewrite (bind_val _ _ _ _ _ Hrun). cbn [app].
      apply spec_invoke_run; assumption.
    + rewrite (bind_return _ _ _ _ _ Hrun).
      exists (t0 ++ failed ++ tail), None, (Return 9).
      split; [reflexivity|]. eapply run_dependency_failure; eauto.
  - unfold bind at 1. rewrite spec_dependency_loader_unallocated.
    destruct (dependency_specs req) as [|d rest] eqn:Especs.
    + destruct (spec_invoke_run env req false s []) as (t & d & r & Hrun & Hs).
      * constructor.
      * rewrite Especs. reflexivity.
      * exists t, d, r. split; [|exact Hs].
        rewrite <- Hrun. cbn [dependency_handles omap list_omap].
        rewrite app_nil_r. destruct s. reflexivity.
    + unfold dlopen.
      destruct (os_dlopen env (trace s) (path d) (Z.lor RTLD_LAZY RTLD_GLOBAL))
        as [h|msg] eqn:E; cbn [fst].
      * exists [EDlopen Dependency (path d) (Z.lor RTLD_LAZY RTLD_GLOBAL)
                  (Some h)], (dl_error s), Undefined.
        split; [reflexivity|].
        eapply run_store_fault; [reflexivity|exact Especs|].
        rewrite E. reflexivity.
      * exists [EDlopen Dependency (path d) (Z.lor RTLD_LAZY RTLD_GLOBAL)
                  None], (Some msg), Undefined.
        split; [reflexivity|].
        eapply run_store_fault; [reflexivity|exact Especs|].
        rewrite E. reflexivity.
Qed.

(** ** The runs of [main] *)

Lemma new_events_app (s s' : State) (t : list Event) :
  trace s' = trace s ++ t -> new_events s s' = t.
Proof.
  intros H. unfold new_events. rewrite H. apply drop_app_length.
Qed.

Lemma spec_pipeline_run (env : Env) (n : Z) (req : InvocationRequest)
    (s : State) :
  let c := cleanup_events env (trace s) (launcher_temp_path req) in
  ((strcmp "__dummy_mirror_test" (target_library_path req) =? 0) = true
   /\ spec_pipeline env n req s
      = ({| trace := trace s ++ c
                     ++ [EPrintf (String.append (target_library_path req)
                                    (String.append " " (symbol_name req)))];
            dl_error := dl_error s |},
         Return 0))
  \/ ((strcmp "__dummy_mirror_test" (target_library_path req) =? 0) = false
      /\ exists t d r,
           spec_pipeline env n req s
           = ({| trace := trace s ++ c ++ t; dl_error := d |}, r)
           /\ pipeline_run env req (os_calloc env (trace s ++ c) n)
                (trace s ++ c) (dl_error s) t r).
Proof.
  unfold spec_pipeline, cleanup_events.
  destruct (strcmp "__dummy_mirror_test" (target_library_path req) =? 0)
    eqn:Hd; [left|right]; (split; [reflexivity|]).
  - unfold spec_after_cleanup. rewrite Hd.
    destruct (negb (Ascii.eqb (char_at (launcher_temp_path req) 0) NUL));
      unfold bind, unlink, printf_s_s, return_; norm_state; reflexivity.
  - destruct (negb (Ascii.eqb (char_at (launcher_temp_path req) 0) NUL)).
    + unfold bind at 1, unlink.
      destruct (spec_after_cleanup_run env n req
                  (log (EUnlink (launcher_temp_path req)
                          (os_unlink env (trace s) (launcher_temp_path req)))
                     s) Hd) as (t & d & r & Hrun & Hshape).
      exists t, d, r. rewrite Hrun. norm_state. split; [reflexivity|].
      exact Hshape.
    + destruct (spec_after_cleanup_run env n req s Hd)
        as (t & d & r & Hrun & Hshape).
      exists t, d, r. rewrite Hrun. cbn [app]. rewrite app_nil_r.
      split; [reflexivity|]. exact Hshape.
Qed.

(** With no dependency to load the array is never used. *)
Lemma pipeline_run_no_specs (env : Env) (req : InvocationRequest)
    (a a' : bool) (hist : list Event) (pending : option string)
    (t : list Event) (r : Res Z) :
  pipeline_run env req a hist pending t r ->
  dependency_specs req = [] ->
  pipeline_run env req a' hist pending t r.
Proof.
  intros Hshape Hnone. inversion Hshape; subst.
  - congruence.
  - match goal with
    | Hin : In _ (map path (dependency_specs req)) |- _ =>
        rewrite Hnone in Hin; destruct Hin
    end.
  - eapply run_target_failure; eauto.
  - eapply run_symbol_failure; eauto.
  - eapply run_null_call; eauto.
  - eapply run_blocked; eauto.
  - eapply run_success; eauto.
Qed.

(** Every run of [main]: too few arguments, the dummy-mirror bypass, or one
    of the runs of [pipeline_run] after the cleanup. *)
Lemma run_main_cases (env : Env) (argv : list string) (s s' : State)
    (out : Outcome) :
  run_main env argv s = (s', out) ->
  ((length argv < 4)%nat /\ s' = s /\ out = Exited 12)
  \/ exists req,
       spec_request argv = Some req
       /\ (4 <= length argv)%nat
       /\ trace s' = trace s ++ new_events s s'
       /\ let c := cleanup_events env (trace s) (launcher_temp_path req) in
          ((strcmp "__dummy_mirror_test" (target_library_path req) =? 0) = true
           /\ new_events s s'
              = c ++ [EPrintf (String.append (target_library_path req)
                                 (String.append " " (symbol_name req)))]
           /\ out = Exited 0)
          \/ ((strcmp "__dummy_mirror_test" (target_library_path req) =? 0)
              = false
              /\ exists t r,
                   new_events s s' = c ++ t
                   /\ pipeline_run env req (calloc_answer env argv s)
                        (trace s ++ c) (dl_error s) t r
                   /\ out = outcome_of r).
Proof.
  unfold run_main. rewrite main_refines.
  destruct (le_lt_dec 4 (length argv)) as [Hlen|Hlen].
  - destruct (argv_split argv Hlen)
      as (prog & temp & library & deps & symbol & ->).
    rewrite spec_request_args. intros Hrun. right.
    eexists. split; [reflexivity|]. split; [exact Hlen|].
    match type of Hrun with
    | context [spec_pipeline env ?n ?r s] =>
        destruct (spec_pipeline_run env n r s)
          as [[Hd Hp]|[Hd (t & d & r' & Hp & Hshape)]];
        rewrite Hp in Hrun; inversion Hrun; subst s' out; clear Hrun
    end.
    + erewrite new_events_app by reflexivity.
      split; [reflexivity|]. left. auto.
    + erewrite new_events_app by reflexivity.
      split; [reflexivity|]. right. split; [exact Hd|].
      exists t, r'. split; [reflexivity|]. split; [|reflexivity].
      unfold calloc_answer. cbn [lookup list_lookup]. cbv zeta.
      destruct (Z.of_nat (length (prog :: temp :: library :: deps
                                  ++ [symbol])) - 4 >? 0) eqn:Epos;
        cbn [negb orb]; [exact Hshape|].
      apply (pipeline_run_no_specs _ _ _ _ _ _ _ _ Hshape).
      cbn [dependency_specs].
      rewrite Z.gtb_ltb in Epos. apply Z.ltb_ge in Epos.
      simpl length in Epos. rewrite length_app in Epos.
      destruct deps; [reflexivity|simpl in Epos; lia].
  - rewrite (spec_request_short argv Hlen). intros H. inversion H. auto.
Qed.

Lemma spec_request_fields (argv : list string) (req : InvocationRequest) :
  spec_request argv = Some req ->
  argv !! 1%nat = Some (launcher_temp_path req)
  /\ argv !! 2%nat = Some (target_library_path req)
  /\ last argv = Some (symbol_name req)
  /\ dependency_specs req = scan_dependencies false (dependency_args argv).
Proof.
  intros H.
  destruct (le_lt_dec 4 (length argv)) as [Hlen|Hlen].
  - destruct (argv_split argv Hlen)
      as (prog & temp & library & deps & symbol & ->).
    rewrite spec_request_args in H. inversion H; subst req; clear H.
    cbn [launcher_temp_path target_library_path symbol_name dependency_specs].
    repeat split.
    + change (prog :: temp :: library :: deps ++ [symbol])
        with ([prog; temp; library] ++ deps ++ [symbol]).
      rewrite app_assoc. apply last_snoc.
    + unfold dependency_args.
      change (drop 3 (prog :: temp :: library :: deps ++ [symbol]))
        with (deps ++ [symbol]).
      replace (length (prog :: temp :: library :: deps ++ [symbol]) - 4)%nat
        with (length deps)
        by (simpl length; rewrite length_app; simpl length; lia).
      rewrite take_app_length. reflexivity.
  - rewrite (spec_request_short argv Hlen) in H. discriminate.
Qed.

Lemma loader_trace_ok (specs : list DependencySpec) (t : list Event) :
  loader_trace specs t -> Forall (fun e => dep_ok e = true) t.
Proof. induction 1; repeat constructor; assumption. Qed.

Lemma loader_trace_In (specs : list DependencySpec) (t : list Event)
    (e : Event) :
  loader_trace specs t -> In e t -> dep_ok e = true.
Proof.
  intros H Hin. apply loader_trace_ok in H.
  rewrite Forall_forall in H. apply H. apply list_elem_of_In. exact Hin.
Qed.

Lemma cleanup_events_In (env : Env) (hist : list Event) (temp : string)
    (e : Event) :
  In e (cleanup_events env hist temp) ->
  e = EUnlink temp (os_unlink env hist temp).
Proof.
  unfold cleanup_events.
  destruct (negb (Ascii.eqb (char_at temp 0) NUL)); simpl; intuition.
Qed.

Lemma report_events_In (env : Env) (hist : list Event) (msg : string)
    (e : Event) :
  In e (report_events env hist msg) ->
  sink_event e = true \/ e = EFputs msg (error_sink env hist).
Proof.
  unfold report_events. intros H. apply in_app_or in H as [H|H].
  - left. pose proof (error_sink_events_sink env hist) as F.
    rewrite Forall_forall in F. apply F. apply list_elem_of_In. exact H.
  - right. destruct H as [H|[]]. auto.
Qed.

Lemma dlerror_report_In (env : Env) (hist : list Event) (msg : string)
    (tail : list Event) (e : Event) :
  dlerror_report env hist msg tail ->
  In e tail ->
  e = EDlerror (Some msg) \/ sink_event e = true
  \/ exists stream, e = EFputs msg stream.
Proof.
  intros [Ho|Ho] Hin.
  - destruct Hin as [<-|Hin]; [auto|].
    apply report_events_In in Hin as [Hin| ->]; eauto.
  - apply in_app_or in Hin as [Hin|[<-|[<-|[]]]]; eauto.
    right. left. pose proof (error_sink_events_sink env hist) as F.
    rewrite Forall_forall in F. apply F. apply list_elem_of_In. exact Hin.
Qed.

(** Whatever the order, the report ends with the write of the loader's text
    and has asked [dlerror] once before it. *)
Lemma dlerror_report_last (env : Env) (hist : list Event) (msg : string)
    (tail : list Event) :
  dlerror_report env hist msg tail ->
  exists before stream,
    tail = before ++ [EFputs msg stream]
    /\ In (EDlerror (Some msg)) before.
Proof.
  intros [Ho|Ho].
  - exists (EDlerror (Some msg)
            :: error_sink_events env (hist ++ [EDlerror (Some msg)])),
      (error_sink env (hist ++ [EDlerror (Some msg)])).
    split; [reflexivity|left; reflexivity].
  - exists (error_sink_events env hist ++ [EDlerror (Some msg)]),
      (error_sink env hist).
    split; [rewrite <- app_assoc; reflexivity|].
    apply in_or_app. right. left. reflexivity.
Qed.


(** Membership of an event in a trace built from the pieces above. *)
Ltac in_inv :=
  repeat match goal with
    | H : In _ (_ ++ _) |- _ => apply in_app_or in H; destruct H as [H|H]
    | H : In _ (cleanup_events _ _ _) |- _ => apply cleanup_events_In in H
    | H : In _ (report_events _ _ _) |- _ =>
        apply report_events_In in H; destruct H as [H|H]
    | H : In ?e ?t, R : dlerror_report _ _ _ ?t |- _ =>
        apply (dlerror_report_In _ _ _ _ _ R) in H;
        destruct H as [H|[H|(? & H)]]
    | H : In _ (map EDlclose _) |- _ =>
        apply in_map_iff in H; destruct H as (? & H & _)
    | H : In ?e ?t, L : loader_trace _ ?t |- _ =>
        apply (loader_trace_In _ _ _ L) in H
    | H : In _ (_ :: _) |- _ => destruct H as [H|H]
    | H : In _ [] |- _ => destruct H
    | H : dep_ok _ = true |- _ => discriminate H
    | H : sink_event _ = true |- _ => discriminate H
    | H : @eq Event _ _ |- _ => discriminate H
    end.

(** An event of a trace given by its pieces. *)
Ltac find_in :=
  lazymatch goal with
  | |- In _ (_ ++ _) =>
      apply in_or_app; first [left; find_in | right; find_in]
  | |- In _ (_ :: _) => first [left; reflexivity | right; find_in]
  end.

(** Closes a goal that is a hypothesis up to the bracketing of [++]. *)
Ltac by_assoc :=
  rewrite <- ?app_assoc;
  repeat match goal with
    | H : _ |- _ => rewrite <- !app_assoc in H
    end;
  assumption.

(** A property of the kind of an event, for an event of such a trace. *)
Ltac by_event_kind :=
  in_inv;
  try (subst; reflexivity);
  match goal with
  | H : _ ?e = true |- _ => destruct e; (discriminate H || reflexivity)
  end.

(** C1: with fewer than four arguments (program name included) [main]
    returns 12 having called nothing: the state, and with it the trace, is
    unchanged, so nothing was written to the error sink or anywhere else. *)
Theorem too_few_arguments_exit_12 (env : Env) (argv : list string)
    (s : State) :
  (length argv < 4)%nat ->
  run_main env argv s = (s, Exited 12) /\ new_events s s = [].
Proof.
  intros Hlen. split.
  - unfold run_main. rewrite main_refines, (spec_request_short argv Hlen).
    reflexivity.
  - apply new_events_app. rewrite app_nil_r. reflexivity.
Qed.

Lemma too_few_arguments_exit_12_witness :
  (length ["trampoline"; "/tmp/launcher"; "libtarget.so"] < 4)%nat
  /\ run_main example_env ["trampoline"; "/tmp/launcher"; "libtarget.so"]
       initial_state
     = (initial_state, Exited 12)
  /\ new_events initial_state initial_state = [].
Proof.
  split; [simpl; lia|].
  apply (too_few_arguments_exit_12 example_env
           ["trampoline"; "/tmp/launcher"; "libtarget.so"] initial_state).
  simpl; lia.
Defined.

Lemma append_empty_r (text : string) : String.append text "" = text.
Proof.
  induction text as [|c text IH]; [reflexivity|].
  change (String.append (String c text) "")
    with (String c (String.append text "")).
  rewrite IH. reflexivity.
Qed.

Lemma stdout_text_cleanup (env : Env) (hist : list Event) (temp text : string) :
  stdout_text (cleanup_events env hist temp ++ [EPrintf text]) = text.
Proof.
  unfold cleanup_events.
  destruct (negb (Ascii.eqb (char_at temp 0) NUL)); simpl;
    apply append_empty_r.
Qed.

(** C2: with at least four arguments and the target library path equal to
    the sentinel, [main] returns 0, standard output receives exactly the
    path, one space and the symbol name (the last argument), and no library
    is opened, whatever the dependency arguments are. *)
Theorem dummy_mirror_echo (env : Env) (argv : list string) (s s' : State)
    (out : Outcome) :
  (4 <= length argv)%nat ->
  argv !! 2%nat = Some "__dummy_mirror_test" ->
  run_main env argv s = (s', out) ->
  out = Exited 0
  /\ (exists symbol,
        last argv = Some symbol
        /\ stdout_text (new_events s s')
           = String.append "__dummy_mirror_test" (String.append " " symbol))
  /\ Forall (fun e => is_dlopen e = false) (new_events s s').
Proof.
  intros Hlen Hlib Hrun.
  destruct (run_main_cases env argv s s' out Hrun)
    as [[Hshort _]|(req & Hreq & _ & _ & Hcases)]; [lia|].
  destruct (spec_request_fields argv req Hreq) as (_ & Hl & Hsym & _).
  rewrite Hlib in Hl. inversion Hl as [Hl']. cbv zeta in Hcases.
  rewrite <- Hl' in Hcases.
  destruct Hcases as [(_ & Hnew & Hout)|(Hd & _)];
    [|rewrite strcmp_refl in Hd; discriminate].
  split; [exact Hout|]. split.
  - exists (symbol_name req). split; [exact Hsym|].
    rewrite Hnew. apply stdout_text_cleanup.
  - rewrite Hnew. rewrite Forall_forall. intros e He.
    apply list_elem_of_In in He. by_event_kind.
Qed.

Lemma dummy_mirror_echo_witness :
  let argv := ["trampoline"; "/tmp/launcher"; "__dummy_mirror_test"; "-";
               "libdep.so"; "do_init"] in
  let run := run_main example_env argv initial_state in
  (4 <= length argv)%nat
  /\ argv !! 2%nat = Some "__dummy_mirror_test"
  /\ snd run = Exited 0
  /\ (exists symbol,
        last argv = Some symbol
        /\ stdout_text (new_events initial_state (fst run))
           = String.append "__dummy_mirror_test" (String.append " " symbol))
  /\ Forall (fun e => is_dlopen e = false)
       (new_events initial_state (fst run)).
Proof.
  intros argv run.
  assert (Hlen : (4 <= length argv)%nat) by (simpl; lia).
  split; [exact Hlen|]. split; [reflexivity|].
  exact (dummy_mirror_echo example_env argv initial_state (fst run) (snd run)
           Hlen eq_refl (surjective_pairing run)).
Defined.

Lemma new_events_same (s : State) : new_events s s = [].
Proof. apply new_events_app. rewrite app_nil_r. reflexivity. Qed.



(** C4: when the open of the target library fails (it is attempted only
    once every dependency has opened), [main] returns 10; before that it asks
    [dlerror] for the loader's error text of that failure and [error_fd] for
    the stream, in the order the implementation evaluates the two, and its
    last action is the [fputs] of that text, which is not empty when the
    loader's texts are not, on that stream; [dlsym] is never called. *)
Theorem target_open_failure_exit_10 (env : Env) (argv : list string)
    (s s' : State) (out : Outcome) :
  (forall hist p fl msg, os_dlopen env hist p fl = inr msg -> msg <> "") ->
  run_main env argv s = (s', out) ->
  (exists p fl, In (EDlopen Target p fl None) (new_events s s')) ->
  out = Exited 10
  /\ (exists pre library msg failed tail before stream,
        new_events s s' = pre ++ failed ++ tail
        /\ failed = [EDlopen Target library (Z.lor RTLD_LAZY RTLD_GLOBAL) None]
        /\ argv !! 2%nat = Some library
        /\ msg <> ""
        /\ os_dlopen env (trace s ++ pre) library (Z.lor RTLD_LAZY RTLD_GLOBAL)
           = inr msg
        /\ dlerror_report env (trace s ++ pre ++ failed) msg tail
        /\ tail = before ++ [EFputs msg stream]
        /\ In (EDlerror (Some msg)) before
        /\ forall p fl, ~ In (EDlopen Dependency p fl None) pre)
  /\ Forall (fun e => is_dlsym e = false) (new_events s s').
Proof.
  intros Htext Hrun (p0 & fl0 & Hin).
  destruct (run_main_cases env argv s s' out Hrun)
    as [(_ & -> & _)|(req & Hreq & _ & _ & Hcases)].
  { rewrite new_events_same in Hin. destruct Hin. }
  destruct (spec_request_fields argv req Hreq) as (_ & Hlib & _ & _).
  cbv zeta in Hcases.
  destruct Hcases as [(_ & Hnew & _)|(_ & t & r & Hnew & Hshape & Hout)];
    rewrite Hnew in Hin.
  { in_inv. }
  inversion Hshape; subst; try solve [in_inv].
  match goal with
  | R : dlerror_report _ _ _ tail |- _ =>
      destruct (dlerror_report_last _ _ _ _ R) as (before & stream & Ht & Hb)
  end.
  split; [reflexivity|]. split.
  - exists (cleanup_events env (trace s) (launcher_temp_path req) ++ t0),
      (target_library_path req), msg,
      [EDlopen Target (target_library_path req)
         (Z.lor RTLD_LAZY RTLD_GLOBAL) None], tail, before, stream.
    rewrite Hnew, <- !app_assoc. split; [reflexivity|].
    split; [reflexivity|]. split; [exact Hlib|].
    split; [eapply Htext; eassumption|].
    split; [rewrite app_assoc; assumption|].
    split; [match goal with
            | R : dlerror_report _ _ _ tail |- _ =>
                rewrite <- !app_assoc in R; exact R
            end|].
    split; [assumption|]. split; [assumption|].
    intros p fl Hp. clear Hin. in_inv.
  - rewrite Hnew, Forall_forall. intros e He. apply list_elem_of_In in He.
    clear Hin. by_event_kind.
Qed.

Lemma target_open_failure_exit_10_witness :
  let argv := ["trampoline"; "/tmp/launcher"; "missing.so";
               "-"; "libdep.so"; "libhelper.so"; "do_init"] in
  let run := run_main example_env argv initial_state in
  (forall hist p fl msg,
     os_dlopen example_env hist p fl = inr msg -> msg <> "")
  /\ (exists p fl,
        In (EDlopen Target p fl None) (new_events initial_state (fst run)))
  /\ snd run = Exited 10
  /\ Forall (fun e => is_dlsym e = false) (new_events initial_state (fst run)).
Proof.
  intros argv run.
  assert (Htext : forall hist p fl msg,
            os_dlopen example_env hist p fl = inr msg -> msg <> "").
  { intros hist p fl msg. simpl.
    destruct (String.eqb p "libdep.so"); [discriminate|].
    destruct (String.eqb p "libhelper.so"); [discriminate|].
    destruct (String.eqb p "libtarget.so"); [discriminate|].
    intros H. inversion H. destruct p; discriminate. }
  assert (H : exists p fl,
            In (EDlopen Target p fl None)
              (new_events initial_state (fst run))).
  { exists "missing.so", 257. vm_compute. tauto. }
  split; [exact Htext|]. split; [exact H|].
  destruct (target_open_failure_exit_10 example_env argv initial_state
              (fst run) (snd run) Htext (surjective_pairing run) H)
    as (Hout & _ & Hsym).
  split; [exact Hout | exact Hsym].
Defined.

(** C5: when the target library opens, the next two calls are [dlerror],
    which takes whatever error the loader still held (the one it held when
    the process started) and resets it, and [dlsym] of the last argument in
    the target handle; then [main] asks [dlerror] again and decides on its
    answer. If it answers with an error, which it does exactly when the
    resolution failed, [main] calls nothing, hands that text to [fputs] on
    the stream chosen by [error_fd] as its last action, and returns 11. If it
    answers with none, the resolution succeeded, nothing is written and [main]
    does not return 11, even when an error was pending at the start: it
    calls the address [dlsym] returned, and the run is undefined there when
    that address is null. *)
Theorem symbol_resolution_failure_exit_11 (env : Env) (argv : list string)
    (s s' : State) (out : Outcome) (library : string) (fl : Z) (h : Handle) :
  run_main env argv s = (s', out) ->
  In (EDlopen Target library fl (Some h)) (new_events s s') ->
  exists pre symbol r error post,
    let cleared := [EDlopen Target library fl (Some h);
                    EDlerror (dl_error s)] in
    let asked := cleared ++ [EDlsym h symbol r; EDlerror error] in
    new_events s s' = pre ++ asked ++ post
    /\ last argv = Some symbol
    /\ match error with
       | Some msg =>
           os_dlsym env (trace s ++ pre ++ cleared) h symbol = inr msg
           /\ r = None
           /\ out = Exited 11
           /\ post = report_events env (trace s ++ pre ++ asked) msg
           /\ Forall (fun e => is_call e = false) (new_events s s')
       | None =>
           os_dlsym env (trace s ++ pre ++ cleared) h symbol = inl r
           /\ out <> Exited 11
           /\ Forall (fun e => is_fputs e = false) (new_events s s')
           /\ match r with
              | Some fn => exists post', post = ECall fn :: post'
              | None => out = Crashed /\ post = []
              end
       end.
Proof.
  intros Hrun Hin.
  destruct (run_main_cases env argv s s' out Hrun)
    as [(_ & -> & _)|(req & Hreq & _ & _ & Hcases)].
  { rewrite new_events_same in Hin. destruct Hin. }
  destruct (spec_request_fields argv req Hreq) as (_ & _ & Hsym & _).
  cbv zeta in Hcases.
  destruct Hcases as [(_ & Hnew & _)|(_ & t & r & Hnew & Hshape & Hout)];
    rewrite Hnew in Hin.
  { in_inv. }
  inversion Hshape; subst; try solve [in_inv];
    match goal with
    | L : loader_trace _ ?t0 |- _ =>
        assert (Hev : target_library_path req = library
                      /\ Z.lor RTLD_LAZY RTLD_GLOBAL = fl /\ h0 = h)
          by (clear -Hin L; in_inv;
              match goal with
              | E : EDlopen _ _ _ _ = EDlopen _ _ _ _ |- _ =>
                  inversion E; auto
              end);
        destruct Hev as (<- & <- & ->); clear Hin;
        exists (cleanup_events env (trace s) (launcher_temp_path req) ++ t0),
          (symbol_name req)
    end.
  - (* the symbol is absent *)
    exists None, (Some msg).
    eexists. cbv zeta.
    split; [rewrite Hnew, <- !app_assoc; reflexivity|].
    split; [exact Hsym|].
    split; [by_assoc|].
    split; [reflexivity|]. split; [reflexivity|].
    split; [rewrite <- !app_assoc; reflexivity|].
    rewrite Hnew, Forall_forall. intros e He. apply list_elem_of_In in He.
    by_event_kind.
  - (* the symbol is the null address *)
    exists None, None, []. cbv zeta.
    split; [rewrite Hnew, <- !app_assoc; reflexivity|].
    split; [exact Hsym|].
    split; [by_assoc|].
    split; [discriminate|].
    split; [|split; reflexivity].
    rewrite Hnew, Forall_forall. intros e He. apply list_elem_of_In in He.
    by_event_kind.
  - (* the symbol resolves, the call does not return *)
    exists (Some fn), None, [ECall fn]. cbv zeta.
    split; [rewrite Hnew, <- !app_assoc; reflexivity|].
    split; [exact Hsym|].
    split; [by_assoc|].
    split; [discriminate|]. split; [|eexists; reflexivity].
    rewrite Hnew, Forall_forall. intros e He. apply list_elem_of_In in He.
    by_event_kind.
  - (* the symbol resolves, the call returns *)
    exists (Some fn), None,
      ([ECall fn; EDlclose h] ++ map EDlclose (dependency_handles t0)).
    cbv zeta.
    split; [rewrite Hnew, <- !app_assoc; reflexivity|].
    split; [exact Hsym|].
    split; [by_assoc|].
    split; [discriminate|]. split; [|eexists; reflexivity].
    rewrite Hnew, Forall_forall. intros e He. apply list_elem_of_In in He.
    by_event_kind.
Qed.

Lemma symbol_resolution_failure_exit_11_witness :
  let argv := ["trampoline"; "/tmp/launcher"; "libtarget.so";
               "-"; "libdep.so"; "libhelper.so"; "no_such_symbol"] in
  let run := run_main example_env argv initial_state in
  In (EDlopen Target "libtarget.so" 257 (Some 3%positive))
    (new_events initial_state (fst run))
  /\ exists pre symbol r error post,
       let cleared := [EDlopen Target "libtarget.so" 257 (Some 3%positive);
                       EDlerror (dl_error initial_state)] in
       let asked := cleared ++ [EDlsym 3%positive symbol r; EDlerror error] in
       new_events initial_state (fst run) = pre ++ asked ++ post
       /\ last argv = Some symbol
       /\ match error with
          | Some msg =>
              os_dlsym example_env (trace initial_state ++ pre ++ cleared)
                3%positive symbol = inr msg
              /\ r = None
              /\ snd run = Exited 11
              /\ post = report_events example_env
                          (trace initial_state ++ pre ++ asked) msg
              /\ Forall (fun e => is_call e = false)
                   (new_events initial_state (fst run))
          | None =>
              os_dlsym example_env (trace initial_state ++ pre ++ cleared)
                3%positive symbol = inl r
              /\ snd run <> Exited 11
              /\ Forall (fun e => is_fputs e = false)
                   (new_events initial_state (fst run))
              /\ match r with
                 | Some fn => exists post', post = ECall fn :: post'
                 | None => snd run = Crashed /\ post = []
                 end
          end.
Proof.
  intros argv run.
  assert (H : In (EDlopen Target "libtarget.so" 257 (Some 3%positive))
                (new_events initial_state (fst run))).
  { vm_compute. tauto. }
  split; [exact H|].
  exact (symbol_resolution_failure_exit_11 example_env argv initial_state
           (fst run) (snd run) "libtarget.so" 257 3%positive
           (surjective_pairing run) H).
Defined.

Lemma dependency_handles_app (t1 t2 : list Event) :
  dependency_handles (t1 ++ t2) = dependency_handles t1 ++ dependency_handles t2.
Proof. unfold dependency_handles. apply omap_app. Qed.

Lemma dependency_handles_cleanup (env : Env) (hist : list Event)
    (temp : string) :
  dependency_handles (cleanup_events env hist temp) = [].
Proof.
  unfold cleanup_events.
  destruct (negb (Ascii.eqb (char_at temp 0) NUL)); reflexivity.
Qed.

(** C7: once the symbol has resolved, [main] calls it, and that is the only
    call of the run. When the call returns, [main] closes the target handle,
    then the dependency handles in the order in which they were opened, and
    returns 0; when it does not, nothing else happens. *)
Theorem resolved_symbol_invoked_once (env : Env) (argv : list string)
    (s s' : State) (out : Outcome) (h : Handle) (symbol : string)
    (fn : Symbol) :
  run_main env argv s = (s', out) ->
  In (EDlsym h symbol (Some fn)) (new_events s s') ->
  exists pre post,
    new_events s s' = pre ++ [ECall fn] ++ post
    /\ Forall (fun e => is_call e = false) pre
    /\ (exists library fl, In (EDlopen Target library fl (Some h)) pre)
    /\ if os_returns env (trace s ++ pre) fn
       then out = Exited 0
            /\ post = EDlclose h :: map EDlclose (dependency_handles pre)
       else out = Blocked /\ post = [].
Proof.
  intros Hrun Hin.
  destruct (run_main_cases env argv s s' out Hrun)
    as [(_ & -> & _)|(req & Hreq & _ & _ & Hcases)].
  { rewrite new_events_same in Hin. destruct Hin. }
  cbv zeta in Hcases.
  destruct Hcases as [(_ & Hnew & _)|(_ & t & r & Hnew & Hshape & Hout)];
    rewrite Hnew in Hin.
  { in_inv. }
  inversion Hshape; subst; try solve [in_inv];
    match goal with
    | L : loader_trace _ ?t0 |- _ =>
        assert (Hev : h0 = h /\ fn0 = fn)
          by (clear -Hin L; in_inv;
              match goal with
              | E : EDlsym _ _ _ = EDlsym _ _ _ |- _ => inversion E; auto
              end);
        destruct Hev as (-> & ->); clear Hin;
        exists (cleanup_events env (trace s) (launcher_temp_path req) ++ t0
                ++ [EDlopen Target (target_library_path req)
                      (Z.lor RTLD_LAZY RTLD_GLOBAL) (Some h);
                    EDlerror (dl_error s);
                    EDlsym h (symbol_name req) (Some fn);
                    EDlerror None])
    end.
  - exists [].
    split; [rewrite Hnew, <- !app_assoc; reflexivity|].
    split; [rewrite Forall_forall; intros e He; apply list_elem_of_In in He;
            by_event_kind|].
    split; [eexists _, _; rewrite !in_app_iff; right; right; left;
            reflexivity|].
    match goal with
    | Hr : os_returns _ _ _ = _ |- _ => rewrite app_assoc, Hr
    end.
    auto.
  - exists (EDlclose h :: map EDlclose (dependency_handles t0)).
    split; [rewrite Hnew, <- !app_assoc; reflexivity|].
    split; [rewrite Forall_forall; intros e He; apply list_elem_of_In in He;
            by_event_kind|].
    split; [eexists _, _; rewrite !in_app_iff; right; right; left;
            reflexivity|].
    match goal with
    | Hr : os_returns _ _ _ = _ |- _ => rewrite app_assoc, Hr
    end.
    split; [reflexivity|].
    rewrite !dependency_handles_app, dependency_handles_cleanup.
    cbn. rewrite app_nil_r. reflexivity.
Qed.

Lemma resolved_symbol_invoked_once_witness :
  let run := run_main example_env example_argv initial_state in
  In (EDlsym 3%positive "do_init" (Some 7%positive))
    (new_events initial_state (fst run))
  /\ exists pre post,
       new_events initial_state (fst run) = pre ++ [ECall 7%positive] ++ post
       /\ Forall (fun e => is_call e = false) pre
       /\ (exists library fl,
             In (EDlopen Target library fl (Some 3%positive)) pre)
       /\ if os_returns example_env (trace initial_state ++ pre) 7%positive
          then snd run = Exited 0
               /\ post = EDlclose 3%positive
                         :: map EDlclose (dependency_handles pre)
          else snd run = Blocked /\ post = [].
Proof.
  intros run.
  assert (H : In (EDlsym 3%positive "do_init" (Some 7%positive))
                (new_events initial_state (fst run))).
  { vm_compute. tauto. }
  split; [exact H|].
  exact (resolved_symbol_invoked_once example_env example_argv initial_state
           (fst run) (snd run) 3%positive "do_init" 7%positive
           (surjective_pairing run) H).
Defined.

(** ** The unlink marker *)



Lemma loader_trace_paths (specs : list DependencySpec) (t : list Event) :
  loader_trace specs t ->
  opened_paths t = map path (take (length (opened_paths t)) specs)
  /\ unlinked_paths t
     = map path (List.filter unlink_after_load
                   (take (length (opened_paths t)) specs))
  /\ unlinks_follow_opens t.
Proof.
  induction 1 as [specs|p h rest t Ht (IHo & IHu & IHf)
                 |p h res rest t Ht (IHo & IHu & IHf)].
  - repeat split. intros k p res Hk. destruct k; discriminate.
  - change (opened_paths (EDlopen Dependency p (Z.lor RTLD_LAZY RTLD_GLOBAL)
                            (Some h) :: t)) with (p :: opened_paths t).
    change (unlinked_paths (EDlopen Dependency p (Z.lor RTLD_LAZY RTLD_GLOBAL)
                              (Some h) :: t)) with (unlinked_paths t).
    cbn [length take map List.filter unlink_after_load path].
    repeat split; [congruence | exact IHu |].
    intros [|k] q res Hk; [discriminate|].
    destruct (IHf k q res Hk) as (j & fl & h' & -> & Hj).
    exists (S j), fl, h'. auto.
  - change (opened_paths (EDlopen Dependency p (Z.lor RTLD_LAZY RTLD_GLOBAL)
                            (Some h) :: EUnlink p res :: t))
      with (p :: opened_paths t).
    change (unlinked_paths (EDlopen Dependency p (Z.lor RTLD_LAZY RTLD_GLOBAL)
                              (Some h) :: EUnlink p res :: t))
      with (p :: unlinked_paths t).
    cbn [length take map List.filter unlink_after_load path].
    repeat split; [congruence | congruence |].
    intros [|[|k]] q res' Hk; [discriminate| |].
    + inversion Hk; subst. exists 0%nat, (Z.lor RTLD_LAZY RTLD_GLOBAL), h. auto.
    + destruct (IHf k q res' Hk) as (j & fl & h' & -> & Hj).
      exists (S (S j)), fl, h'. auto.
Qed.

(** Events that are neither a successful dependency open nor an unlink
    leave the three readings of a loader trace unchanged. *)
Lemma paths_app_tail (t tail : list Event) :
  Forall (fun e => dep_ok e = false) tail ->
  opened_paths (t ++ tail) = opened_paths t
  /\ unlinked_paths (t ++ tail) = unlinked_paths t
  /\ (unlinks_follow_opens t -> unlinks_follow_opens (t ++ tail)).
Proof.
  intros Htail.
  assert (Hnone : opened_paths tail = [] /\ unlinked_paths tail = []).
  { induction Htail as [|e tail He _ [IHo IHu]]; [split; reflexivity|].
    destruct e as [| |[] ? ? []| | | | | | |]; try discriminate He;
      split; assumption. }
  destruct Hnone as [Ho Hu]. unfold opened_paths, unlinked_paths in *.
  rewrite !omap_app, Ho, Hu, !app_nil_r. repeat split.
  intros Hf k p res Hk.
  destruct (lookup_app_Some t tail k (EUnlink p res)) as [Hcase _].
  destruct (Hcase Hk) as [Hk'|[_ Hk']].
  - destruct (Hf k p res Hk') as (j & fl & h & -> & Hj).
    exists j, fl, h. split; [reflexivity|]. apply lookup_app_l_Some. exact Hj.
  - rewrite Forall_forall in Htail.
    apply list_elem_of_lookup_2 in Hk'. apply Htail in Hk'. discriminate.
Qed.

Lemma report_events_not_dep_ok (env : Env) (hist : list Event) (msg : string) :
  Forall (fun e => dep_ok e = false) (report_events env hist msg).
Proof.
  rewrite Forall_forall. intros e He. apply list_elem_of_In in He.
  by_event_kind.
Qed.


(** The loop of [main] run on the dependency arguments of [argv], with its
    array, is the dependency loader of the specification run on their
    scan. *)
Lemma load_dependencies_pack (env : Env) (prog temp library symbol : string)
    (deps : list string) (s : State) :
  let argv := prog :: temp :: library :: deps ++ [symbol] in
  let n := Z.of_nat (length argv) - 4 in
  load_dependencies env argv (Z.to_nat n) 0
    (if n >? 0 then calloc_handles n else None) 0 false s
  = (let (s', r) :=
       spec_dependency_loader env true (scan_dependencies false deps) [] s in
     (s', map_res (pack n) r)).
Proof.
  intros argv n.
  assert (Hn : n = Z.of_nat (length deps)).
  { unfold n, argv. simpl length. rewrite length_app. simpl length. lia. }
  rewrite Hn. unfold pack.
  destruct (Z.of_nat (length deps) >? 0) eqn:Epos.
  - pose proof (load_dependencies_refines env argv deps 0 false []
                  (length deps) s) as H.
    simpl in H. change (Z.of_nat 0) with 0 in H.
    rewrite Nat2Z.id. unfold calloc_handles. rewrite Nat2Z.id.
    apply H; [|lia].
    intros j a Hj. unfold argv. simpl.
    rewrite lookup_app_l; [exact Hj|].
    apply lookup_lt_Some in Hj. exact Hj.
  - assert (deps = []) as ->.
    { rewrite Z.gtb_ltb in Epos. apply Z.ltb_ge in Epos.
      destruct deps; [reflexivity|simpl in Epos; lia]. }
    reflexivity.
Qed.



(** ** The symbol name *)

Lemma scan_trailing_marker (deps : list string) :
  forall u, scan_dependencies u (deps ++ ["-"]) = scan_dependencies u deps.
Proof.
  induction deps as [|a deps IH]; intros u; [reflexivity|].
  cbn [app scan_dependencies]. destruct (is_marker a); rewrite IH; reflexivity.
Qed.

Lemma paths_not_dep_ok (tail : list Event) :
  Forall (fun e => dep_ok e = false) tail ->
  opened_paths tail = [] /\ unlinked_paths tail = [].
Proof.
  intros Htail. destruct (paths_app_tail [] tail Htail) as (Ho & Hu & _).
  split; assumption.
Qed.

Lemma opened_paths_cleanup (env : Env) (hist : list Event) (temp : string) :
  opened_paths (cleanup_events env hist temp) = [].
Proof.
  unfold cleanup_events.
  destruct (negb (Ascii.eqb (char_at temp 0) NUL)); reflexivity.
Qed.

(** A loader trace that opened every path of [specs] deleted every flagged
    one. *)
Lemma loader_trace_complete (specs : list DependencySpec) (t : list Event) :
  loader_trace specs t ->
  opened_paths t = map path specs ->
  unlinked_paths t = map path (List.filter unlink_after_load specs).
Proof.
  intros Ht Hall. destruct (loader_trace_paths specs t Ht) as (_ & Hu & _).
  rewrite Hu, Hall, length_map, firstn_all. reflexivity.
Qed.

(** C9: take a program name, a temp path, a target path other than the
    sentinel, dependency arguments, possibly one more marker after them, and
    a last argument, in a world where the array is allocated and the target
    and every dependency path open. Then [main] calls [dlsym] exactly once,
    in the handle of the target, and the name it asks for is the last
    argument. The marker put last changes nothing before that: the
    dependency paths opened and the paths deleted are those of the
    dependency arguments without it, so it deletes no file and does not take
    the last argument for a path. *)
Theorem last_argument_is_symbol (env : Env) (prog temp library symbol : string)
    (deps trailing : list string) (s : State) :
  let argv := prog :: temp :: library :: deps ++ trailing ++ [symbol] in
  let fl := Z.lor RTLD_LAZY RTLD_GLOBAL in
  let specs := scan_dependencies false deps in
  trailing = [] \/ trailing = ["-"] ->
  (strcmp "__dummy_mirror_test" library =? 0) = false ->
  calloc_answer env argv s = true ->
  (forall hist p,
     In p (library :: map path specs) ->
     exists h, os_dlopen env hist p fl = inl h) ->
  let new := new_events s (fst (run_main env argv s)) in
  (exists pre h r post,
     new = pre ++ [EDlsym h symbol r] ++ post
     /\ In (EDlopen Target library fl (Some h)) pre
     /\ Forall (fun e => is_dlsym e = false) (pre ++ post))
  /\ opened_paths new = map path specs
  /\ unlinked_paths new
     = unlinked_paths (cleanup_events env (trace s) temp)
       ++ map path (List.filter unlink_after_load specs).
Proof.
  intros argv fl specs Htrail Hd Halloc Hopen new.
  assert (Hargv : argv = prog :: temp :: library :: (deps ++ trailing)
                                                    ++ [symbol])
    by (unfold argv; rewrite <- app_assoc; reflexivity).
  assert (Hscan : scan_dependencies false (deps ++ trailing) = specs).
  { destruct Htrail as [->| ->];
      [rewrite app_nil_r; reflexivity|apply scan_trailing_marker]. }
  subst new. destruct (run_main env argv s) as [s' out] eqn:Hrun.
  cbn [fst].
  destruct (run_main_cases env argv s s' out Hrun)
    as [(Hlen & _)|(req & Hreq & _ & _ & Hcases)].
  { rewrite Hargv in Hlen. simpl in Hlen. rewrite length_app in Hlen.
    simpl in Hlen. lia. }
  rewrite Hargv, spec_request_args, Hscan in Hreq.
  inversion Hreq; subst req; clear Hreq.
  cbv zeta in Hcases.
  cbn [launcher_temp_path target_library_path symbol_name] in Hcases.
  destruct Hcases as [(Hd' & _)|(_ & t & r & Hnew & Hshape & Hout)];
    [congruence|].
  rewrite Halloc in Hshape. rewrite Hnew.
  unfold opened_paths at 1, unlinked_paths at 1. rewrite !omap_app.
  fold (opened_paths (cleanup_events env (trace s) temp)).
  fold (unlinked_paths (cleanup_events env (trace s) temp)).
  fold (opened_paths t). fold (unlinked_paths t).
  rewrite opened_paths_cleanup. cbn [app].
  inversion Hshape; subst;
    cbn [launcher_temp_path target_library_path symbol_name
         dependency_specs] in *;
    try discriminate;
    try (match goal with
         | Hf : os_dlopen _ (_ ++ ?t1) ?p _ = inr _ |- _ =>
             destruct (Hopen (trace s ++ cleanup_events env (trace s) temp
                              ++ t1) p) as (h' & Hh);
             [first [left; reflexivity | right; assumption]|];
             rewrite <- app_assoc in Hf; fold fl in Hf; congruence
         end);
    match goal with
    | L : loader_trace _ ?t1, A : opened_paths ?t1 = _
      |- context [EDlopen Target _ _ (Some ?h1)] =>
        pose proof (loader_trace_complete _ _ L A) as Hu;
        split;
        [ exists (cleanup_events env (trace s) temp ++ t1
                  ++ [EDlopen Target library fl (Some h1);
                      EDlerror (dl_error s)]), h1
        | match goal with
          | |- opened_paths (t1 ++ ?tail) = _ /\ _ =>
              assert (Htail : Forall (fun e => dep_ok e = false) tail)
                by (rewrite Forall_forall; intros e He;
                    apply list_elem_of_In in He; by_event_kind);
              destruct (paths_app_tail t1 tail Htail) as (Ho' & Hu' & _);
              rewrite Ho', Hu', Hu; split; [exact A|reflexivity]
          end ]
    end;
    match goal with
    | |- context [EDlsym _ _ ?r1 :: _] => exists r1
    end;
    eexists;
    (split; [rewrite <- !app_assoc; reflexivity|]);
    (split; [find_in|]);
    rewrite Forall_forall; intros e He; apply list_elem_of_In in He;
    by_event_kind.
Qed.

Lemma last_argument_is_symbol_witness :
  let argv := ["trampoline"; "/tmp/launcher"; "libtarget.so";
               "-"; "libdep.so"; "libhelper.so"; "-"; "do_init"] in
  let deps := ["-"; "libdep.so"; "libhelper.so"] in
  let fl := Z.lor RTLD_LAZY RTLD_GLOBAL in
  let specs := scan_dependencies false deps in
  let new := new_events initial_state
               (fst (run_main example_env argv initial_state)) in
  (strcmp "__dummy_mirror_test" "libtarget.so" =? 0) = false
  /\ calloc_answer example_env argv initial_state = true
  /\ (forall hist p,
        In p ("libtarget.so" :: map path specs) ->
        exists h, os_dlopen example_env hist p fl = inl h)
  /\ (exists pre h r post,
        new = pre ++ [EDlsym h "do_init" r] ++ post
        /\ In (EDlopen Target "libtarget.so" fl (Some h)) pre
        /\ Forall (fun e => is_dlsym e = false) (pre ++ post))
  /\ opened_paths new = map path specs
  /\ unlinked_paths new
     = unlinked_paths
         (cleanup_events example_env (trace initial_state) "/tmp/launcher")
       ++ map path (List.filter unlink_after_load specs).
Proof.
  intros argv deps fl specs new.
  assert (Hopen : forall hist p,
            In p ("libtarget.so" :: map path specs) ->
            exists h, os_dlopen example_env hist p fl = inl h).
  { intros hist p [<-|[<-|[<-|[]]]]; eexists; reflexivity. }
  split; [reflexivity|]. split; [reflexivity|]. split; [exact Hopen|].
  exact (last_argument_is_symbol example_env "trampoline" "/tmp/launcher"
           "libtarget.so" "do_init" deps ["-"] initial_state
           (or_intror eq_refl) eq_refl eq_refl Hopen).
Defined.

(** ** Dummy-mirror mode *)

(** C10: in dummy-mirror mode the whole run is the deletion of the temp
    path, when that path is not empty, followed by the echo on standard
    output: the only [unlink] is that of the temp path, it comes before the
    bypass, and no library is opened and no dependency path deleted, whatever
    the dependency arguments and their markers are. *)
Theorem dummy_mirror_only_deletes_temp (env : Env) (argv : list string)
    (temp : string) (s s' : State) (out : Outcome) :
  (4 <= length argv)%nat ->
  argv !! 1%nat = Some temp ->
  argv !! 2%nat = Some "__dummy_mirror_test" ->
  cstring temp = true ->
  run_main env argv s = (s', out) ->
  exists symbol,
    last argv = Some symbol
    /\ let echo := EPrintf (String.append "__dummy_mirror_test"
                              (String.append " " symbol)) in
       (temp <> "" ->
        new_events s s' = [EUnlink temp (os_unlink env (trace s) temp); echo])
       /\ (temp = "" -> new_events s s' = [echo]).
Proof.
  intros Hlen Htemp Hlib Hc Hrun.
  destruct (run_main_cases env argv s s' out Hrun)
    as [[Hshort _]|(req & Hreq & _ & _ & Hcases)]; [lia|].
  destruct (spec_request_fields argv req Hreq) as (Ht & Hl & Hsym & _).
  assert (Ht' : launcher_temp_path req = temp) by congruence.
  assert (Hl' : target_library_path req = "__dummy_mirror_test")
    by congruence.
  cbv zeta in Hcases. rewrite Hl', Ht' in Hcases.
  destruct Hcases as [(_ & Hnew & _)|(Hd & _)];
    [|rewrite strcmp_refl in Hd; discriminate].
  exists (symbol_name req). split; [exact Hsym|].
  cbv zeta. rewrite Hnew. unfold cleanup_events.
  destruct (Ascii.eqb (char_at temp 0) NUL) eqn:E; cbn [negb app].
  - split; [|reflexivity]. intros Hne.
    apply (cstring_nonempty temp Hc) in Hne. congruence.
  - split; [reflexivity|]. intros He.
    apply (cstring_nonempty temp Hc) in E. contradiction.
Qed.

Lemma dummy_mirror_only_deletes_temp_witness :
  let argv := ["trampoline"; "/tmp/launcher"; "__dummy_mirror_test";
               "-"; "libdep.so"; "libhelper.so"; "-"; "do_init"] in
  let run := run_main example_env argv initial_state in
  (4 <= length argv)%nat
  /\ cstring "/tmp/launcher" = true
  /\ exists symbol,
       last argv = Some symbol
       /\ let echo := EPrintf (String.append "__dummy_mirror_test"
                                 (String.append " " symbol)) in
          ("/tmp/launcher" <> "" ->
           new_events initial_state (fst run)
           = [EUnlink "/tmp/launcher"
                (os_unlink example_env (trace initial_state) "/tmp/launcher");
              echo])
          /\ ("/tmp/launcher" = "" ->
              new_events initial_state (fst run) = [echo]).
Proof.
  intros argv run.
  assert (Hlen : (4 <= length argv)%nat) by (simpl; lia).
  split; [exact Hlen|]. split; [reflexivity|].
  exact (dummy_mirror_only_deletes_temp example_env argv "/tmp/launcher"
           initial_state (fst run) (snd run) Hlen eq_refl eq_refl eq_refl
           (surjective_pairing run)).
Defined.

(** ** Best-effort cleanup *)

Section Alike.

Variables (e1 e2 : Env) (h1 h2 : list Event).
Hypothesis Hagree : agree_after e1 e2 h1 h2.

Lemma alike_ret {A} (a : A) : run_alike h1 h2 (ret a) (ret a).
Proof. intros t d. exists t, d, (Val a). split; reflexivity. Qed.

Lemma alike_return {A} (c : Z) :
  run_alike h1 h2 (@return_ A c) (@return_ A c).
Proof. intros t d. exists t, d, (Return c). split; reflexivity. Qed.

Lemma alike_undefined {A} : run_alike h1 h2 (@undefined A) (@undefined A).
Proof. intros t d. exists t, d, Undefined. split; reflexivity. Qed.

Lemma alike_bind {A B} (m1 m2 : M A) (k1 k2 : A -> M B) :
  run_alike h1 h2 m1 m2 ->
  (forall a, run_alike h1 h2 (k1 a) (k2 a)) ->
  run_alike h1 h2 (bind m1 k1) (bind m2 k2).
Proof.
  intros Hm Hk t d. destruct (Hm t d) as (t1 & d1 & r & H1 & H2).
  unfold bind. rewrite H1, H2. destruct r as [a| | |].
  - apply Hk.
  - exists t1, d1, (Return code). split; reflexivity.
  - exists t1, d1, NoReturn. split; reflexivity.
  - exists t1, d1, Undefined. split; reflexivity.
Qed.

(** A call that adds one event and answers from the environment. *)
Ltac alike_call :=
  intros t d;
  destruct (Hagree t) as (Hu & Ho & Hs & Hr & Hg & Hf & _);
  cbv beta delta [unlink dlopen dlsym call getenv fopen log];
  cbn [trace dl_error];
  rewrite ?Hu, ?Ho, ?Hs, ?Hr, ?Hg, ?Hf;
  repeat match goal with
    | |- context [match ?x with _ => _ end] => destruct x
    end;
  eexists (t ++ [_]), _, _; rewrite <- !app_assoc; split; reflexivity.

Lemma alike_unlink (p : string) : run_alike h1 h2 (unlink e1 p) (unlink e2 p).
Proof. alike_call. Qed.

Lemma alike_dlopen (site : Site) (p : string) (fl : Z) :
  run_alike h1 h2 (dlopen e1 site p fl) (dlopen e2 site p fl).
Proof. alike_call. Qed.

Lemma alike_dlsym (h : Handle) (name : string) :
  run_alike h1 h2 (dlsym e1 h name) (dlsym e2 h name).
Proof. alike_call. Qed.

Lemma alike_call_symbol (fn : option Symbol) :
  run_alike h1 h2 (call e1 fn) (call e2 fn).
Proof. destruct fn as [f|]; [alike_call | apply alike_undefined]. Qed.

Lemma alike_getenv (name : string) :
  run_alike h1 h2 (getenv e1 name) (getenv e2 name).
Proof. alike_call. Qed.

Lemma alike_fopen (p mode : string) :
  run_alike h1 h2 (fopen e1 p mode) (fopen e2 p mode).
Proof. alike_call. Qed.

(** The calls that do not consult the environment. *)
Lemma alike_same {A} (m : M A) :
  (forall hist d, exists e d' r,
     forall h, m {| trace := h ++ hist; dl_error := d |}
               = ({| trace := h ++ hist ++ e; dl_error := d' |}, r)) ->
  run_alike h1 h2 m m.
Proof.
  intros H t d. destruct (H t d) as (e & d' & r & Hm).
  exists (t ++ e), d', r. split; apply Hm.
Qed.

Lemma alike_dlerror : run_alike h1 h2 dlerror dlerror.
Proof.
  apply alike_same. intros hist d. exists [EDlerror d], None, (Val d).
  intros h. unfold dlerror. cbn [trace dl_error].
  rewrite <- app_assoc. reflexivity.
Qed.

Lemma alike_dlclose (h : option Handle) :
  run_alike h1 h2 (dlclose h) (dlclose h).
Proof.
  destruct h as [h|]; [|apply alike_undefined].
  apply alike_same. intros hist d. exists [EDlclose h], d, (Val tt).
  intros h'. unfold dlclose, log. cbn [trace dl_error].
  rewrite <- app_assoc. reflexivity.
Qed.

Lemma alike_fputs (text : option string) (stream : Stream) :
  run_alike h1 h2 (fputs text stream) (fputs text stream).
Proof.
  destruct text as [text|]; [|apply alike_undefined].
  apply alike_same. intros hist d. exists [EFputs text stream], d, (Val tt).
  intros h. unfold fputs, log. cbn [trace dl_error].
  rewrite <- app_assoc. reflexivity.
Qed.

Lemma alike_printf (a b : string) :
  run_alike h1 h2 (printf_s_s a b) (printf_s_s a b).
Proof.
  apply alike_same. intros hist d.
  exists [EPrintf (String.append a (String.append " " b))], d, (Val tt).
  intros h. unfold printf_s_s, log. cbn [trace dl_error].
  rewrite <- app_assoc. reflexivity.
Qed.

Lemma alike_error_fd : run_alike h1 h2 (error_fd e1) (error_fd e2).
Proof.
  unfold error_fd. apply alike_bind; [apply alike_getenv|].
  intros [p|]; [|apply alike_ret].
  apply alike_bind; [apply alike_fopen|].
  intros [f|]; apply alike_ret.
Qed.

Lemma alike_report_dlerror :
  run_alike h1 h2 (report_dlerror e1) (report_dlerror e2).
Proof.
  assert (Hl : run_alike h1 h2
                 (bind dlerror
                    (fun text =>
                       bind (error_fd e1) (fun sink => fputs text sink)))
                 (bind dlerror
                    (fun text =>
                       bind (error_fd e2) (fun sink => fputs text sink)))).
  { apply alike_bind; [apply alike_dlerror|].
    intros text. apply alike_bind; [apply alike_error_fd|].
    intros sink. apply alike_fputs. }
  assert (Hr : run_alike h1 h2
                 (bind (error_fd e1)
                    (fun sink =>
                       bind dlerror (fun text => fputs text sink)))
                 (bind (error_fd e2)
                    (fun sink =>
                       bind dlerror (fun text => fputs text sink)))).
  { apply alike_bind; [apply alike_error_fd|].
    intros sink. apply alike_bind; [apply alike_dlerror|].
    intros text. apply alike_fputs. }
  intros t d. unfold report_dlerror. cbn [trace].
  destruct (Hagree t) as (_ & _ & _ & _ & _ & _ & _ & Ho). rewrite Ho.
  destruct (dlerror_first e2 (h2 ++ t)); [apply Hl|apply Hr].
Qed.

Lemma alike_allocation (n : Z) :
  run_alike h1 h2 (spec_allocation e1 n) (spec_allocation e2 n).
Proof.
  intros t d. unfold spec_allocation. cbn [trace].
  destruct (Hagree t) as (_ & _ & _ & _ & _ & _ & Ha & _). rewrite Ha.
  exists t, d, (Val (os_calloc e2 (h2 ++ t) n)). split; reflexivity.
Qed.

Lemma alike_dependency_loader (allocated : bool)
    (specs : list DependencySpec) :
  forall opened,
    run_alike h1 h2 (spec_dependency_loader e1 allocated specs opened)
      (spec_dependency_loader e2 allocated specs opened).
Proof.
  induction specs as [|d specs IH]; intros opened; [apply alike_ret|].
  cbn [spec_dependency_loader]. apply alike_bind; [apply alike_dlopen|].
  intros h. destruct allocated; [|apply alike_undefined].
  destruct h as [h|].
  - apply alike_bind; [|intros _; apply IH].
    destruct (unlink_after_load d); [|apply alike_ret].
    apply alike_bind; [apply alike_unlink|]. intros _. apply alike_ret.
  - apply alike_bind; [apply alike_report_dlerror|].
    intros _. apply alike_return.
Qed.

Lemma alike_release (hs : list Handle) :
  run_alike h1 h2 (spec_release hs) (spec_release hs).
Proof.
  induction hs as [|h hs IH]; [apply alike_ret|].
  cbn [spec_release]. apply alike_bind; [apply alike_dlclose|].
  intros _. exact IH.
Qed.

Lemma alike_after_cleanup (n : Z) (req : InvocationRequest) :
  run_alike h1 h2 (spec_after_cleanup e1 n req) (spec_after_cleanup e2 n req).
Proof.
  unfold spec_after_cleanup, spec_invoke.
  destruct (strcmp "__dummy_mirror_test" (target_library_path req) =? 0).
  - apply alike_bind; [apply alike_printf|]. intros _. apply alike_return.
  - apply alike_bind; [apply alike_allocation|]. intros allocated.
    apply alike_bind; [apply alike_dependency_loader|]. intros opened.
    apply alike_bind; [apply alike_dlopen|]. intros [h|].
    + apply alike_bind; [apply alike_dlerror|]. intros _.
      apply alike_bind; [apply alike_dlsym|]. intros fn.
      apply alike_bind; [apply alike_dlerror|]. intros [e|].
      * apply alike_bind; [apply alike_error_fd|]. intros sink.
        apply alike_bind; [apply alike_fputs|]. intros _.
        apply alike_return.
      * apply alike_bind; [apply alike_call_symbol|]. intros _.
        apply alike_bind; [apply alike_dlclose|]. intros _.
        apply alike_bind; [apply alike_release|]. intros _.
        apply alike_return.
    + apply alike_bind; [apply alike_report_dlerror|]. intros _.
      apply alike_return.
Qed.

End Alike.

Lemma spec_pipeline_cleanup (env : Env) (n : Z) (req : InvocationRequest)
    (s : State) :
  spec_pipeline env n req s
  = spec_after_cleanup env n req
      {| trace := (trace s
                   ++ cleanup_events env (trace s) (launcher_temp_path req))
                  ++ [];
         dl_error := dl_error s |}.
Proof.
  unfold spec_pipeline, cleanup_events.
  destruct (negb (Ascii.eqb (char_at (launcher_temp_path req) 0) NUL)).
  - unfold bind, unlink, log. rewrite app_nil_r. reflexivity.
  - rewrite !app_nil_r. destruct s. reflexivity.
Qed.

(** C8: with at least four arguments and a temp path that is a C string: if
    the path is not empty, [main] is the [unlink] of that path followed by the
    rest of the pipeline, which holds every library load; if it is empty,
    [main] is the rest of the pipeline alone; and what [unlink] returned is
    not an input of the rest: in two worlds whose answers after the cleanup
    are the same, whatever became of the deletion in each, the rest of the
    run adds the same events and ends alike. *)
Theorem temp_file_deleted_first (env : Env) (argv : list string)
    (temp : string) (s : State) :
  (4 <= length argv)%nat ->
  argv !! 1%nat = Some temp ->
  cstring temp = true ->
  (temp <> "" ->
   main env argv s
   = pipeline env argv (log (EUnlink temp (os_unlink env (trace s) temp)) s))
  /\ (temp = "" -> main env argv s = pipeline env argv s)
  /\ (forall env2 s2,
        dl_error s2 = dl_error s ->
        agree_after env env2
          (trace s ++ cleanup_events env (trace s) temp)
          (trace s2 ++ cleanup_events env2 (trace s2) temp) ->
        exists t d out,
          run_main env argv s
          = ({| trace := trace s ++ cleanup_events env (trace s) temp ++ t;
                dl_error := d |}, out)
          /\ run_main env2 argv s2
             = ({| trace := trace s2 ++ cleanup_events env2 (trace s2) temp
                            ++ t;
                   dl_error := d |}, out)).
Proof.
  intros Hlen Htemp Hc.
  assert (Hmain : main env argv s
                  = if negb (Ascii.eqb (char_at temp 0) NUL)
                    then pipeline env argv
                           (log (EUnlink temp (os_unlink env (trace s) temp)) s)
                    else pipeline env argv s).
  { unfold main.
    replace (Z.of_nat (length argv) >? 3) with true
      by (symmetry; rewrite Z.gtb_ltb; apply Z.ltb_lt; lia).
    change 1 with (Z.of_nat 1).
    rewrite (bind_val _ _ _ _ _ (arg_at argv 1 temp s Htemp)).
    destruct (negb (Ascii.eqb (char_at temp 0) NUL)); reflexivity. }
  split; [|split].
  - intros Hne. rewrite Hmain.
    apply (cstring_nonempty temp Hc) in Hne. rewrite Hne. reflexivity.
  - intros ->. exact Hmain.
  - intros env2 s2 Hd Hagree.
    destruct (argv_split argv Hlen)
      as (prog & temp' & library & deps & symbol & ->).
    assert (temp' = temp) as -> by (simpl in Htemp; congruence).
    unfold run_main. rewrite !main_refines, spec_request_args.
    rewrite !spec_pipeline_cleanup.
    cbn [launcher_temp_path].
    destruct (alike_after_cleanup env env2 _ _ Hagree
                (Z.of_nat (length (prog :: temp :: library :: deps
                                   ++ [symbol])) - 4)
                {| launcher_temp_path := temp;
                   target_library_path := library;
                   symbol_name := symbol;
                   dependency_specs := scan_dependencies false deps |}
                [] (dl_error s))
      as (t & d & r & H1 & H2).
    rewrite Hd, H1, H2. exists t, d, (outcome_of r).
    rewrite <- !app_assoc. split; reflexivity.
Qed.

Lemma temp_file_deleted_first_witness :
  (4 <= length example_argv)%nat
  /\ cstring "/tmp/launcher" = true
  /\ agree_after example_env locked_launcher_env
       (trace initial_state
        ++ cleanup_events example_env (trace initial_state) "/tmp/launcher")
       (trace initial_state
        ++ cleanup_events locked_launcher_env (trace initial_state) "/tmp/launcher")
  /\ ("/tmp/launcher" <> "" ->
      main example_env example_argv initial_state
      = pipeline example_env example_argv
          (log (EUnlink "/tmp/launcher"
                  (os_unlink example_env (trace initial_state)
                     "/tmp/launcher")) initial_state))
  /\ exists t d out,
       run_main example_env example_argv initial_state
       = ({| trace := trace initial_state
                      ++ cleanup_events example_env (trace initial_state)
                           "/tmp/launcher" ++ t;
             dl_error := d |}, out)
       /\ run_main locked_launcher_env example_argv initial_state
          = ({| trace := trace initial_state
                         ++ cleanup_events locked_launcher_env (trace initial_state)
                              "/tmp/launcher" ++ t;
                dl_error := d |}, out).
Proof.
  assert (Hlen : (4 <= length example_argv)%nat) by (simpl; lia).
  assert (Hagree : agree_after example_env locked_launcher_env
            (trace initial_state
             ++ cleanup_events example_env (trace initial_state)
                  "/tmp/launcher")
            (trace initial_state
             ++ cleanup_events locked_launcher_env (trace initial_state)
                  "/tmp/launcher")).
  { intros t. repeat split. }
  destruct (temp_file_deleted_first example_env example_argv "/tmp/launcher"
              initial_state Hlen eq_refl eq_refl) as (Hfirst & _ & Hrest).
  split; [exact Hlen|]. split; [reflexivity|]. split; [exact Hagree|].
  split; [exact Hfirst|].
  exact (Hrest locked_launcher_env initial_state eq_refl Hagree).
Defined.

(** * Further properties of [main] *)

(** ** How a run ends *)

(** The last event of a run past the dummy-mirror check tells how the run
    ended. *)
Lemma pipeline_run_last (env : Env) (req : InvocationRequest)
    (allocated : bool) (hist : list Event) (pending : option string)
    (t : list Event) (r : Res Z) :
  pipeline_run env req allocated hist pending t r ->
  exists pre e,
    t = pre ++ [e]
    /\ ((r = Undefined /\ allocated = false
         /\ exists p fl res, e = EDlopen Dependency p fl res)
        \/ (r = Undefined /\ e = EDlerror None
            /\ exists pre' h,
                 pre = pre' ++ [EDlsym h (symbol_name req) None]
                 /\ os_dlsym env (hist ++ pre') h (symbol_name req)
                    = inl None)
        \/ (exists msg stream,
              e = EFputs msg stream
              /\ (r = Return 9 \/ r = Return 10 \/ r = Return 11))
        \/ (r = NoReturn
            /\ exists fn,
                 e = ECall fn /\ os_returns env (hist ++ pre) fn = false)
        \/ (r = Return 0 /\ exists h, e = EDlclose h)).
Proof.
  intros Hshape. inversion Hshape; subst.
  - exists [], (EDlopen Dependency (path d) (Z.lor RTLD_LAZY RTLD_GLOBAL)
                  match os_dlopen env hist (path d)
                          (Z.lor RTLD_LAZY RTLD_GLOBAL) with
                  | inl h => Some h
                  | inr _ => None
                  end).
    split; [reflexivity|]. left. eauto 7.
  - match goal with
    | R : dlerror_report _ _ _ tail |- _ =>
        destruct (dlerror_report_last _ _ _ _ R) as (before & stream & -> & _)
    end.
    eexists _, _. split; [rewrite !app_assoc; reflexivity|].
    right. right. left. eauto 6.
  - match goal with
    | R : dlerror_report _ _ _ tail |- _ =>
        destruct (dlerror_report_last _ _ _ _ R) as (before & stream & -> & _)
    end.
    eexists _, _. split; [rewrite !app_assoc; reflexivity|].
    right. right. left. eauto 6.
  - eexists _, _. split; [unfold report_events; rewrite !app_assoc;
                          reflexivity|].
    right. right. left. eauto 6.
  - exists (t0 ++ [EDlopen Target (target_library_path req)
                     (Z.lor RTLD_LAZY RTLD_GLOBAL) (Some h);
                   EDlerror pending;
                   EDlsym h (symbol_name req) None]), (EDlerror None).
    split; [rewrite <- !app_assoc; reflexivity|].
    right. left. split; [reflexivity|]. split; [reflexivity|].
    exists (t0 ++ [EDlopen Target (target_library_path req)
                     (Z.lor RTLD_LAZY RTLD_GLOBAL) (Some h);
                   EDlerror pending]), h.
    split; [rewrite <- !app_assoc; reflexivity|assumption].
  - exists (t0 ++ [EDlopen Target (target_library_path req)
                     (Z.lor RTLD_LAZY RTLD_GLOBAL) (Some h);
                   EDlerror pending;
                   EDlsym h (symbol_name req) (Some fn);
                   EDlerror None]), (ECall fn).
    split; [rewrite <- !app_assoc; reflexivity|].
    right. right. right. left. split; [reflexivity|].
    exists fn. split; [reflexivity|assumption].
  - destruct (dependency_handles t0) as [|h' hs] eqn:E using rev_ind.
    + exists (t0 ++ [EDlopen Target (target_library_path req)
                       (Z.lor RTLD_LAZY RTLD_GLOBAL) (Some h);
                     EDlerror pending;
                     EDlsym h (symbol_name req) (Some fn);
                     EDlerror None; ECall fn]), (EDlclose h).
      split; [rewrite <- !app_assoc; reflexivity|].
      right. right. right. right. eauto.
    + rewrite map_app. cbn [map].
      eexists _, (EDlclose h'). split; [rewrite !app_assoc; reflexivity|].
      right. right. right. right. eauto.
Qed.

(** The one [dlsym] of a trace and the event after it. *)
Lemma dlsym_position (before after pre post : list Event) (x y e0 e1 : Event) :
  Forall (fun e => is_dlsym e = false) before ->
  Forall (fun e => is_dlsym e = false) (e0 :: after) ->
  is_dlsym x = true -> is_dlsym y = true ->
  before ++ x :: e0 :: after = pre ++ y :: e1 :: post ->
  x = y /\ e0 = e1.
Proof.
  intros Hb Ha Hx Hy. revert pre.
  induction Hb as [|b before Hb _ IH]; intros [|p pre] Heq; cbn in Heq.
  - inversion Heq. auto.
  - inversion Heq as [[Hxp Hrest]]. subst p.
    assert (Hin : In y (e0 :: after))
      by (rewrite Hrest; apply in_or_app; right; left; reflexivity).
    rewrite Forall_forall in Ha. apply list_elem_of_In, Ha in Hin.
    congruence.
  - inversion Heq. congruence.
  - inversion Heq. eauto.
Qed.

(** ** Undefined runs *)




(** ** Exit codes *)

(** [main] returns 12 exactly when it has fewer than four arguments; every
    other run returns 0, 9, 10 or 11, or never leaves the invoked symbol, the
    call being then the last event of the run, or is undefined. *)
Theorem main_exit_codes (env : Env) (argv : list string) (s : State) :
  let run := run_main env argv s in
  (snd run = Exited 12 <-> (length argv < 4)%nat)
  /\ (snd run = Exited 0 \/ snd run = Exited 9 \/ snd run = Exited 10
      \/ snd run = Exited 11 \/ snd run = Exited 12 \/ snd run = Blocked
      \/ snd run = Crashed)
  /\ (snd run = Blocked <->
      exists pre fn,
        new_events s (fst run) = pre ++ [ECall fn]
        /\ os_returns env (trace s ++ pre) fn = false).
Proof.
  cbv zeta. destruct (run_main env argv s) as [s' out] eqn:Hrun.
  cbn [fst snd].
  destruct (run_main_cases env argv s s' out Hrun)
    as [(Hlen & -> & ->)|(req & _ & Hlen & _ & Hcases)].
  { split; [tauto|]. split; [tauto|]. split; [discriminate|].
    intros (pre & fn & H & _). rewrite new_events_same in H.
    destruct pre; discriminate. }
  cbv zeta in Hcases.
  destruct Hcases as [(_ & Hnew & ->)|(_ & t & r & Hnew & Hshape & ->)].
  { split; [split; [discriminate|lia]|]. split; [tauto|].
    split; [discriminate|]. intros (pre & fn & H & _).
    rewrite Hnew in H. rewrite ?app_assoc in H.
    apply app_inj_tail in H as [_ H]. discriminate. }
  destruct (pipeline_run_last _ _ _ _ _ _ _ Hshape)
    as (pre0 & e & -> & Hend).
  rewrite Hnew. clear Hshape Hnew.
  split; [split; [|lia]|split; [|split]].
  - intros Hout. destruct Hend
      as [(-> & _)
         |[(-> & _)
          |[(? & ? & _ & [->|[->| ->]])|[(-> & _)|(-> & _)]]]];
      discriminate.
  - destruct Hend
      as [(-> & _)
         |[(-> & _)
          |[(? & ? & _ & [->|[->| ->]])|[(-> & _)|(-> & _)]]]];
      cbn [outcome_of]; tauto.
  - intros Hout. destruct Hend
      as [(-> & _)
         |[(-> & _)
          |[(? & ? & _ & [->|[->| ->]])|[(-> & fn & -> & Hr)|(-> & _)]]]];
      try discriminate.
    exists (cleanup_events env (trace s) (launcher_temp_path req) ++ pre0), fn.
    split; [rewrite <- app_assoc; reflexivity|].
    rewrite app_assoc. exact Hr.
  - intros (pre & fn & H & _). rewrite app_assoc in H.
    apply app_inj_tail in H as [_ ->].
    destruct Hend
      as [(_ & _ & ? & ? & ? & He)
         |[(_ & He & _)
          |[(? & ? & He & _)|[(-> & _)|(_ & ? & He)]]]];
      try discriminate. reflexivity.
Qed.

(** Each failure code stands for one failure and for nothing else. A run
    returns 9 exactly when [calloc] did not return null and a dependency
    open failed; 10 exactly when the target open failed; 11 exactly when the
    [dlerror] called right after [dlsym] answered with an error, whatever
    [dlsym] itself returned. *)
Theorem exit_code_identifies_failure (env : Env) (argv : list string)
    (s : State) :
  let run := run_main env argv s in
  let t := new_events s (fst run) in
  (snd run = Exited 9
   <-> calloc_answer env argv s = true
       /\ exists p fl, In (EDlopen Dependency p fl None) t)
  /\ (snd run = Exited 10 <-> exists p fl, In (EDlopen Target p fl None) t)
  /\ (snd run = Exited 11
      <-> exists pre h name r msg post,
            t = pre ++ [EDlsym h name r; EDlerror (Some msg)] ++ post).
Proof.
  cbv zeta. destruct (run_main env argv s) as [s' out] eqn:Hrun.
  cbn [fst snd].
  destruct (run_main_cases env argv s s' out Hrun)
    as [(Hlen & -> & ->)|(req & _ & Hlen & _ & Hcases)].
  { rewrite new_events_same.
    repeat split; try discriminate.
    - intros (_ & ? & ? & []).
    - intros (? & ? & []).
    - intros (pre & ? & ? & ? & ? & ? & H). destruct pre; discriminate. }
  cbv zeta in Hcases.
  assert (Hno : forall (l pre post : list Event) (x e1 : Event),
            Forall (fun e => is_dlsym e = false) l ->
            is_dlsym x = true ->
            l = pre ++ [x; e1] ++ post -> False).
  { intros l pre post x e1 Hl Hx ->. rewrite Forall_forall in Hl.
    assert (Hin : In x (pre ++ [x; e1] ++ post))
      by (apply in_or_app; right; left; reflexivity).
    apply list_elem_of_In, Hl in Hin. congruence. }
  destruct Hcases as [(_ & Hnew & ->)|(_ & t & r & Hnew & Hshape & ->)];
    rewrite Hnew.
  { repeat split; try discriminate.
    - intros (_ & ? & ? & Hin). in_inv.
    - intros (? & ? & Hin). in_inv.
    - intros (pre & h & name & r & msg & post & H). exfalso.
      eapply (Hno _ pre post (EDlsym h name r)); [|reflexivity|exact H].
      rewrite Forall_forall. intros e He. apply list_elem_of_In in He.
      by_event_kind. }
  inversion Hshape; subst; cbn [outcome_of].
  - (* store through null *)
    repeat split; try discriminate.
    + intros (Ha & _). congruence.
    + intros (? & ? & Hin). in_inv.
    + intros (pre & h & name & r & msg & post & Heq). exfalso.
      eapply (Hno _ pre post (EDlsym h name r)); [|reflexivity|exact Heq].
      rewrite Forall_forall. intros e He. apply list_elem_of_In in He.
      by_event_kind.
  - (* a dependency does not open *)
    repeat split; try discriminate; try assumption.
    + eexists _, _. find_in.
    + intros (? & ? & Hin). in_inv.
    + intros (pre & h & name & r & msg' & post & Heq). exfalso.
      eapply (Hno _ pre post (EDlsym h name r)); [|reflexivity|exact Heq].
      rewrite Forall_forall. intros e He. apply list_elem_of_In in He.
      by_event_kind.
  - (* the target does not open *)
    repeat split; try discriminate.
    + intros (_ & ? & ? & Hin). in_inv.
    + eexists _, _. find_in.
    + intros (pre & h & name & r & msg' & post & Heq). exfalso.
      eapply (Hno _ pre post (EDlsym h name r)); [|reflexivity|exact Heq].
      rewrite Forall_forall. intros e He. apply list_elem_of_In in He.
      by_event_kind.
  - (* the symbol is absent *)
    repeat split; try discriminate.
    + intros (_ & ? & ? & Hin). in_inv.
    + intros (? & ? & Hin). in_inv.
    + exists (cleanup_events env (trace s) (launcher_temp_path req) ++ t0
              ++ [EDlopen Target (target_library_path req)
                    (Z.lor RTLD_LAZY RTLD_GLOBAL) (Some h);
                  EDlerror (dl_error s)]),
        h, (symbol_name req), None, msg.
      eexists. rewrite <- !app_assoc. reflexivity.
  - (* the symbol is the null address *)
    repeat split; try discriminate.
    + intros (_ & ? & ? & Hin). in_inv.
    + intros (? & ? & Hin). in_inv.
    + intros (pre & h' & name & r & msg & post & Heq). exfalso.
      assert (He : EDlerror None = EDlerror (Some msg)).
      { eapply (dlsym_position
                  ((cleanup_events env (trace s) (launcher_temp_path req)
                    ++ t0)
                   ++ [EDlopen Target (target_library_path req)
                         (Z.lor RTLD_LAZY RTLD_GLOBAL) (Some h);
                       EDlerror (dl_error s)])
                  [] pre post
                  (EDlsym h (symbol_name req) None) (EDlsym h' name r));
          [| |reflexivity|reflexivity
           |etransitivity; [|exact Heq];
            rewrite <- !app_assoc; reflexivity].
        - rewrite Forall_forall. intros e He. apply list_elem_of_In in He.
          by_event_kind.
        - repeat constructor. }
      discriminate.
  - (* the call does not return *)
    repeat split; try discriminate.
    + intros (_ & ? & ? & Hin). in_inv.
    + intros (? & ? & Hin). in_inv.
    + intros (pre & h' & name & r & msg & post & Heq). exfalso.
      assert (He : EDlerror None = EDlerror (Some msg)).
      { eapply (dlsym_position
                  ((cleanup_events env (trace s) (launcher_temp_path req)
                    ++ t0)
                   ++ [EDlopen Target (target_library_path req)
                         (Z.lor RTLD_LAZY RTLD_GLOBAL) (Some h);
                       EDlerror (dl_error s)])
                  [ECall fn] pre post
                  (EDlsym h (symbol_name req) (Some fn)) (EDlsym h' name r));
          [| |reflexivity|reflexivity
           |etransitivity; [|exact Heq];
            rewrite <- !app_assoc; reflexivity].
        - rewrite Forall_forall. intros e He. apply list_elem_of_In in He.
          by_event_kind.
        - repeat constructor. }
      discriminate.
  - (* the call returns *)
    repeat split; try discriminate.
    + intros (_ & ? & ? & Hin). in_inv.
    + intros (? & ? & Hin). in_inv.
    + intros (pre & h' & name & r & msg & post & Heq). exfalso.
      assert (He : EDlerror None = EDlerror (Some msg)).
      { eapply (dlsym_position
                  ((cleanup_events env (trace s) (launcher_temp_path req)
                    ++ t0)
                   ++ [EDlopen Target (target_library_path req)
                         (Z.lor RTLD_LAZY RTLD_GLOBAL) (Some h);
                       EDlerror (dl_error s)])
                  ([ECall fn; EDlclose h]
                   ++ map EDlclose (dependency_handles t0)) pre post
                  (EDlsym h (symbol_name req) (Some fn)) (EDlsym h' name r));
          [| |reflexivity|reflexivity
           |etransitivity; [|exact Heq];
            rewrite <- !app_assoc; reflexivity].
        - rewrite Forall_forall. intros e He. apply list_elem_of_In in He.
          by_event_kind.
        - rewrite Forall_forall. intros e He. apply list_elem_of_In in He.
          by_event_kind. }
      discriminate.
Qed.

(** A run that returns 0 for a target other than the sentinel has resolved
    the last argument in the opened target, called it, and seen it return. *)
Theorem exit_0_means_symbol_ran (env : Env) (argv : list string)
    (library : string) (s s' : State) :
  argv !! 2%nat = Some library ->
  cstring library = true ->
  library <> "__dummy_mirror_test" ->
  run_main env argv s = (s', Exited 0) ->
  exists pre h symbol fn post,
    new_events s s'
    = pre ++ [EDlopen Target library (Z.lor RTLD_LAZY RTLD_GLOBAL) (Some h);
              EDlerror (dl_error s);
              EDlsym h symbol (Some fn);
              EDlerror None;
              ECall fn] ++ post
    /\ last argv = Some symbol
    /\ os_returns env
         (trace s ++ pre
          ++ [EDlopen Target library (Z.lor RTLD_LAZY RTLD_GLOBAL) (Some h);
              EDlerror (dl_error s);
              EDlsym h symbol (Some fn);
              EDlerror None]) fn = true.
Proof.
  intros Hlib Hc Hne Hrun.
  destruct (run_main_cases env argv s s' (Exited 0) Hrun)
    as [(_ & _ & Hout)|(req & Hreq & _ & _ & Hcases)]; [discriminate|].
  destruct (spec_request_fields argv req Hreq) as (_ & Hl & Hsym & _).
  assert (Hl' : target_library_path req = library) by congruence.
  cbv zeta in Hcases. rewrite Hl' in Hcases.
  destruct Hcases as [(Hd & _)|(_ & t & r & Hnew & Hshape & Hout)].
  { apply Z.eqb_eq in Hd.
    apply (strcmp_eq "__dummy_mirror_test" library eq_refl Hc) in Hd.
    congruence. }
  inversion Hshape; subst; try discriminate Hout.
  exists (cleanup_events env (trace s) (launcher_temp_path req) ++ t0),
    h, (symbol_name req), fn,
    (EDlclose h :: map EDlclose (dependency_handles t0)).
  rewrite Hnew, <- !app_assoc. split; [reflexivity|].
  split; [exact Hsym|].
  match goal with
  | Hr : os_returns _ _ _ = _ |- _ => rewrite <- Hr, <- !app_assoc
  end.
  reflexivity.
Qed.

Lemma exit_0_means_symbol_ran_witness :
  let run := run_main example_env example_argv initial_state in
  cstring "libtarget.so" = true
  /\ "libtarget.so" <> "__dummy_mirror_test"
  /\ snd run = Exited 0
  /\ exists pre h symbol fn post,
       new_events initial_state (fst run)
       = pre ++ [EDlopen Target "libtarget.so" (Z.lor RTLD_LAZY RTLD_GLOBAL)
                   (Some h);
                 EDlerror (dl_error initial_state);
                 EDlsym h symbol (Some fn);
                 EDlerror None;
                 ECall fn] ++ post
       /\ last example_argv = Some symbol
       /\ os_returns example_env
            (trace initial_state ++ pre
             ++ [EDlopen Target "libtarget.so" (Z.lor RTLD_LAZY RTLD_GLOBAL)
                   (Some h);
                 EDlerror (dl_error initial_state);
                 EDlsym h symbol (Some fn);
                 EDlerror None]) fn = true.
Proof.
  intros run.
  assert (Hne : "libtarget.so" <> "__dummy_mirror_test") by discriminate.
  split; [reflexivity|]. split; [exact Hne|]. split; [reflexivity|].
  exact (exit_0_means_symbol_ran example_env example_argv "libtarget.so"
           initial_state (fst run) eq_refl eq_refl Hne eq_refl).
Defined.

(** ** Standard output *)

(** [main] writes to standard output in dummy-mirror mode and in no other
    run: for a target path that is a C string, a run has a [printf] exactly
    when it has at least four arguments and the path is the sentinel. *)
Theorem stdout_only_in_dummy_mirror (env : Env) (argv : list string)
    (library : string) (s s' : State) (out : Outcome) :
  argv !! 2%nat = Some library ->
  cstring library = true ->
  run_main env argv s = (s', out) ->
  ((exists text, In (EPrintf text) (new_events s s'))
   <-> (4 <= length argv)%nat /\ library = "__dummy_mirror_test").
Proof.
  intros Hlib Hc Hrun.
  destruct (run_main_cases env argv s s' out Hrun)
    as [(Hlen & -> & _)|(req & Hreq & Hlen & _ & Hcases)].
  { rewrite new_events_same. split; [intros (? & [])|lia]. }
  destruct (spec_request_fields argv req Hreq) as (_ & Hl & _ & _).
  assert (Hl' : target_library_path req = library) by congruence.
  cbv zeta in Hcases. rewrite Hl' in Hcases.
  destruct Hcases as [(Hd & Hnew & _)|(Hd & t & r & Hnew & Hshape & _)];
    rewrite Hnew.
  - apply Z.eqb_eq in Hd.
    apply (strcmp_eq "__dummy_mirror_test" library eq_refl Hc) in Hd.
    split; [auto|]. intros _. eexists. find_in.
  - split.
    + intros (text & Hin). inversion Hshape; subst; in_inv.
    + intros (_ & ->). rewrite strcmp_refl in Hd. discriminate.
Qed.

Lemma stdout_only_in_dummy_mirror_witness :
  let run := run_main example_env example_argv initial_state in
  cstring "libtarget.so" = true
  /\ ((exists text, In (EPrintf text) (new_events initial_state (fst run)))
      <-> (4 <= length example_argv)%nat
          /\ "libtarget.so" = "__dummy_mirror_test").
Proof.
  intros run. split; [reflexivity|].
  exact (stdout_only_in_dummy_mirror example_env example_argv "libtarget.so"
           initial_state (fst run) (snd run) eq_refl eq_refl
           (surjective_pairing run)).
Defined.

(** ** The error sink *)

Lemma filter_dep_ok_nil (P : Event -> bool) (t : list Event) :
  (forall e, dep_ok e = true -> P e = false) ->
  Forall (fun e => dep_ok e = true) t ->
  List.filter P t = [].
Proof.
  intros HP Ht. induction Ht as [|e t He _ IH]; [reflexivity|].
  cbn [List.filter]. rewrite (HP e He). exact IH.
Qed.

Lemma cleanup_events_ok (env : Env) (hist : list Event) (temp : string) :
  Forall (fun e => dep_ok e = true) (cleanup_events env hist temp).
Proof.
  unfold cleanup_events.
  destruct (negb (Ascii.eqb (char_at temp 0) NUL)); repeat constructor.
Qed.

Lemma filter_dlclose_nil (P : Event -> bool) (hs : list Handle) :
  (forall h, P (EDlclose h) = false) ->
  List.filter P (map EDlclose hs) = [].
Proof.
  intros HP. induction hs as [|h hs IH]; [reflexivity|].
  cbn [map List.filter]. rewrite HP. exact IH.
Qed.

Lemma dep_ok_not_fputs (e : Event) : dep_ok e = true -> is_fputs e = false.
Proof. destruct e; try discriminate; reflexivity. Qed.

Lemma dep_ok_not_getenv (e : Event) : dep_ok e = true -> is_getenv e = false.
Proof. destruct e; try discriminate; reflexivity. Qed.

Lemma error_sink_events_getenv (env : Env) (hist : list Event) :
  exists r rest,
    error_sink_events env hist = EGetenv "DD_TRACE_LOG_FILE" r :: rest
    /\ List.filter is_getenv rest = []
    /\ List.filter is_fputs rest = [].
Proof.
  unfold error_sink_events, error_fd, bind, getenv, fopen, ret, log. simpl.
  destruct (os_getenv env hist "DD_TRACE_LOG_FILE") as [p|]; simpl.
  - destruct (os_fopen env _ p "a") as [f|]; simpl;
      rewrite <- app_assoc, drop_app_length; eexists _, _;
      (split; [reflexivity|split; reflexivity]).
  - rewrite drop_app_length. eexists _, _.
    split; [reflexivity|split; reflexivity].
Qed.

Lemma filter_report_fputs (env : Env) (hist : list Event) (msg : string) :
  List.filter is_fputs (report_events env hist msg)
  = [EFputs msg (error_sink env hist)].
Proof.
  unfold report_events.
  destruct (error_sink_events_getenv env hist) as (r & rest & -> & _ & Hf).
  rewrite List.filter_app. cbn [List.filter is_fputs]. rewrite Hf.
  reflexivity.
Qed.

Lemma filter_report_getenv (env : Env) (hist : list Event) (msg : string) :
  length (List.filter is_getenv (report_events env hist msg)) = 1%nat.
Proof.
  unfold report_events.
  destruct (error_sink_events_getenv env hist) as (r & rest & -> & Hg & _).
  rewrite List.filter_app. cbn [List.filter is_getenv]. rewrite Hg.
  reflexivity.
Qed.

Lemma filter_dlerror_report_fputs (env : Env) (hist : list Event)
    (msg : string) (tail : list Event) :
  dlerror_report env hist msg tail ->
  length (List.filter is_fputs tail) = 1%nat.
Proof.
  intros [Ho|Ho].
  - cbn [List.filter is_fputs]. rewrite filter_report_fputs. reflexivity.
  - destruct (error_sink_events_getenv env hist) as (r & rest & -> & _ & Hf).
    rewrite List.filter_app. cbn [List.filter is_fputs]. rewrite Hf.
    reflexivity.
Qed.

Lemma filter_dlerror_report_getenv (env : Env) (hist : list Event)
    (msg : string) (tail : list Event) :
  dlerror_report env hist msg tail ->
  length (List.filter is_getenv tail) = 1%nat.
Proof.
  intros [Ho|Ho].
  - cbn [List.filter is_getenv]. apply filter_report_getenv.
  - destruct (error_sink_events_getenv env hist) as (r & rest & -> & Hg & _).
    rewrite List.filter_app. cbn [List.filter is_getenv]. rewrite Hg.
    reflexivity.
Qed.

(** The events before the first failure, if any: the cleanup and the
    dependency loader. *)
Ltac filter_prefix lemma :=
  rewrite ?List.filter_app;
  rewrite ?(filter_dep_ok_nil _ _ lemma (cleanup_events_ok _ _ _));
  repeat match goal with
    | L : loader_trace _ ?t0 |- _ =>
        rewrite (filter_dep_ok_nil _ t0 lemma (loader_trace_ok _ _ L))
    end.

(** The error sink is chosen, and written to, only when a failure is
    reported, and then once: a run has one [getenv] and one [fputs], the
    [fputs] being its last event, when it returns 9, 10 or 11, and neither
    otherwise. *)
Theorem error_reported_once (env : Env) (argv : list string) (s : State) :
  let run := run_main env argv s in
  let t := new_events s (fst run) in
  let n := if reports_failure (snd run) then 1%nat else 0%nat in
  length (List.filter is_fputs t) = n
  /\ length (List.filter is_getenv t) = n
  /\ (reports_failure (snd run) = true ->
      exists pre text stream, t = pre ++ [EFputs text stream]).
Proof.
  cbv zeta. destruct (run_main env argv s) as [s' out] eqn:Hrun.
  cbn [fst snd].
  destruct (run_main_cases env argv s s' out Hrun)
    as [(Hlen & -> & ->)|(req & _ & Hlen & _ & Hcases)].
  { rewrite new_events_same. repeat split. discriminate. }
  cbv zeta in Hcases.
  destruct Hcases as [(_ & Hnew & ->)|(_ & t & r & Hnew & Hshape & ->)];
    rewrite Hnew.
  { split; [|split; [|discriminate]].
    - filter_prefix dep_ok_not_fputs. reflexivity.
    - filter_prefix dep_ok_not_getenv. reflexivity. }
  inversion Hshape; subst; cbn [outcome_of reports_failure Z.eqb orb];
    (split; [filter_prefix dep_ok_not_fputs;
             rewrite ?filter_report_fputs,
               ?(filter_dlclose_nil is_fputs) by reflexivity;
             rewrite ?length_app;
             repeat match goal with
               | R : dlerror_report _ _ _ ?tl |- _ =>
                   rewrite (filter_dlerror_report_fputs _ _ _ _ R)
               end;
             reflexivity|]);
    (split; [filter_prefix dep_ok_not_getenv;
             rewrite ?(filter_dlclose_nil is_getenv) by reflexivity;
             cbn [List.filter is_getenv app];
             rewrite ?length_app, ?filter_report_getenv;
             repeat match goal with
               | R : dlerror_report _ _ _ ?tl |- _ =>
                   rewrite (filter_dlerror_report_getenv _ _ _ _ R)
               end;
             reflexivity|]);
    try discriminate;
    intros _;
    try match goal with
      | R : dlerror_report _ _ _ ?tl |- _ =>
          destruct (dlerror_report_last _ _ _ _ R) as (before & stream & -> & _)
      end;
    unfold report_events; rewrite !app_assoc; eexists _, _, _;
    reflexivity.
Qed.

(** [error_fd] always yields a stream, so [fputs] never receives a null
    one: the log file when [DD_TRACE_LOG_FILE] is set and that path opens in
    append mode, standard error otherwise. It opens no other path, in no other
    mode, and leaves the loader's pending error alone. *)
Theorem error_fd_falls_back_to_stderr (env : Env) (s : State) :
  exists t sink,
    error_fd env s
    = ({| trace := trace s ++ t; dl_error := dl_error s |}, Val sink)
    /\ (forall f,
          sink = LogFile f <->
          exists p,
            os_getenv env (trace s) "DD_TRACE_LOG_FILE" = Some p
            /\ os_fopen env
                 (trace s ++ [EGetenv "DD_TRACE_LOG_FILE" (Some p)]) p "a"
               = Some f)
    /\ (forall p mode r,
          In (EFopen p mode r) t ->
          mode = "a"
          /\ os_getenv env (trace s) "DD_TRACE_LOG_FILE" = Some p)
    /\ Forall (fun e => sink_event e = true) t.
Proof.
  unfold error_fd, bind, getenv, fopen, ret, log. simpl.
  destruct (os_getenv env (trace s) "DD_TRACE_LOG_FILE") as [p|] eqn:Eg;
    simpl.
  - destruct (os_fopen env (trace s ++ [EGetenv "DD_TRACE_LOG_FILE" (Some p)])
                p "a") as [f|] eqn:Ef; simpl.
    + exists [EGetenv "DD_TRACE_LOG_FILE" (Some p); EFopen p "a" (Some f)],
        (LogFile f).
      rewrite <- ?app_assoc. split; [reflexivity|]. split; [|split].
      * intros f'. split.
        -- intros H. inversion H; subst. exists p. auto.
        -- intros (p' & Hp & Hf). inversion Hp; subst. congruence.
      * intros p' mode r [H|[H|[]]]; inversion H; subst. auto.
      * repeat constructor.
    + exists [EGetenv "DD_TRACE_LOG_FILE" (Some p); EFopen p "a" None], Stderr.
      rewrite <- ?app_assoc. split; [reflexivity|]. split; [|split].
      * intros f'. split; [discriminate|].
        intros (p' & Hp & Hf). inversion Hp; subst. congruence.
      * intros p' mode r [H|[H|[]]]; inversion H; subst. auto.
      * repeat constructor.
  - exists [EGetenv "DD_TRACE_LOG_FILE" None], Stderr.
    split; [reflexivity|]. split; [|split].
    + intros f'. split; [discriminate|]. intros (p' & Hp & _). discriminate.
    + intros p' mode r [H|[]]. discriminate.
    + repeat constructor.
Qed.

(** ** Handles *)

Lemma omap_none {A} (f : Event -> option A) (t : list Event) :
  Forall (fun e => f e = None) t -> omap f t = [].
Proof.
  intros H. induction H as [|e t He _ IH]; [reflexivity|].
  cbn. rewrite He. exact IH.
Qed.

Lemma closed_handles_dep_ok (t : list Event) :
  Forall (fun e => dep_ok e = true) t -> closed_handles t = [].
Proof.
  intros H. apply omap_none. eapply Forall_impl; [exact H|].
  intros e He. destruct e; try discriminate; reflexivity.
Qed.

Lemma closed_handles_report (env : Env) (hist : list Event) (msg : string) :
  closed_handles (report_events env hist msg) = [].
Proof.
  apply omap_none. rewrite Forall_forall. intros e He.
  apply list_elem_of_In in He. in_inv; subst; try reflexivity.
  destruct e; try discriminate; reflexivity.
Qed.

Lemma closed_handles_dlclose (hs : list Handle) :
  closed_handles (map EDlclose hs) = hs.
Proof.
  induction hs as [|h hs IH]; [reflexivity|].
  cbn [map]. change (closed_handles (EDlclose h :: map EDlclose hs))
    with (h :: closed_handles (map EDlclose hs)).
  rewrite IH. reflexivity.
Qed.

Lemma opened_handles_loader (specs : list DependencySpec) (t : list Event) :
  loader_trace specs t -> opened_handles t = dependency_handles t.
Proof.
  induction 1 as [|p h rest t _ IH|p h res rest t _ IH]; [reflexivity| |];
    unfold opened_handles, dependency_handles in *; cbn; rewrite IH;
    reflexivity.
Qed.

Lemma opened_handles_cleanup (env : Env) (hist : list Event) (temp : string) :
  opened_handles (cleanup_events env hist temp) = [].
Proof.
  unfold cleanup_events.
  destruct (negb (Ascii.eqb (char_at temp 0) NUL)); reflexivity.
Qed.

Lemma opened_handles_dlclose (hs : list Handle) :
  opened_handles (map EDlclose hs) = [].
Proof.
  apply omap_none. rewrite Forall_forall. intros e He.
  apply list_elem_of_In in He. in_inv. subst. reflexivity.
Qed.

Lemma closed_handles_none (t : list Event) :
  Forall (fun e => is_dlclose e = false) t -> closed_handles t = [].
Proof.
  intros H. apply omap_none. eapply Forall_impl; [exact H|].
  intros [] He; try reflexivity. discriminate He.
Qed.

(** A run that returns 0 has closed what it opened: the handles handed to
    [dlclose] are, as a multiset, the handles [dlopen] returned. A run that
    ends otherwise has closed nothing. *)
Theorem opened_handles_closed_on_success (env : Env) (argv : list string)
    (s : State) :
  let run := run_main env argv s in
  let t := new_events s (fst run) in
  (snd run = Exited 0 -> Permutation (opened_handles t) (closed_handles t))
  /\ (snd run <> Exited 0 -> closed_handles t = []).
Proof.
  cbv zeta. destruct (run_main env argv s) as [s' out] eqn:Hrun.
  cbn [fst snd].
  destruct (run_main_cases env argv s s' out Hrun)
    as [(Hlen & -> & ->)|(req & _ & Hlen & _ & Hcases)].
  { rewrite new_events_same. split; [discriminate|reflexivity]. }
  cbv zeta in Hcases.
  destruct Hcases as [(_ & Hnew & ->)|(_ & t & r & Hnew & Hshape & ->)];
    rewrite Hnew.
  { unfold closed_handles, opened_handles. rewrite !omap_app.
    fold (closed_handles (cleanup_events env (trace s)
                            (launcher_temp_path req))).
    fold (opened_handles (cleanup_events env (trace s)
                            (launcher_temp_path req))).
    rewrite (closed_handles_dep_ok _ (cleanup_events_ok _ _ _)),
      opened_handles_cleanup.
    split; [intros _; reflexivity|congruence]. }
  assert (Hc : forall rest,
            closed_handles
              (cleanup_events env (trace s) (launcher_temp_path req) ++ rest)
            = closed_handles rest).
  { intros rest. unfold closed_handles. rewrite omap_app.
    fold (closed_handles (cleanup_events env (trace s)
                            (launcher_temp_path req))).
    rewrite (closed_handles_dep_ok _ (cleanup_events_ok _ _ _)).
    reflexivity. }
  assert (Hl : forall t0 rest,
            Forall (fun e => dep_ok e = true) t0 ->
            closed_handles (t0 ++ rest) = closed_handles rest).
  { intros t0 rest Ht0. unfold closed_handles. rewrite omap_app.
    fold (closed_handles t0). rewrite (closed_handles_dep_ok _ Ht0).
    reflexivity. }
  inversion Hshape; subst; cbn [outcome_of];
    try (split; [discriminate|intros _];
         apply closed_handles_none; rewrite Forall_forall; intros e He;
         apply list_elem_of_In in He; by_event_kind).
  match goal with
  | L : loader_trace _ ?t1 |- _ =>
      rewrite Hc, (Hl t1) by (eapply loader_trace_ok; exact L);
      split; [intros _|congruence];
      unfold closed_handles, opened_handles; rewrite !omap_app;
      fold (closed_handles (map EDlclose (dependency_handles t1)));
      fold (opened_handles (map EDlclose (dependency_handles t1)));
      fold (opened_handles t1);
      fold (opened_handles (cleanup_events env (trace s)
                              (launcher_temp_path req)));
      rewrite closed_handles_dlclose, opened_handles_dlclose,
        opened_handles_cleanup, (opened_handles_loader _ _ L)
  end.
  cbn. rewrite ?app_nil_r. symmetry. apply Permutation_cons_append.
Qed.

(** ** The opens of a run *)

Lemma filter_dlopen_loader (specs : list DependencySpec) (t : list Event) :
  loader_trace specs t ->
  Forall (fun e => exists p h,
            e = EDlopen Dependency p (Z.lor RTLD_LAZY RTLD_GLOBAL) (Some h))
    (List.filter is_dlopen t).
Proof.
  induction 1 as [|p h rest t _ IH|p h res rest t _ IH].
  - constructor.
  - cbn [List.filter is_dlopen]. constructor; [eauto|exact IH].
  - cbn [List.filter is_dlopen]. constructor; [eauto|exact IH].
Qed.

Lemma filter_dlopen_cleanup (env : Env) (hist : list Event) (temp : string) :
  List.filter is_dlopen (cleanup_events env hist temp) = [].
Proof.
  unfold cleanup_events.
  destruct (negb (Ascii.eqb (char_at temp 0) NUL)); reflexivity.
Qed.

Lemma filter_dlopen_report (env : Env) (hist : list Event) (msg : string) :
  List.filter is_dlopen (report_events env hist msg) = [].
Proof.
  unfold report_events. rewrite List.filter_app. cbn [List.filter is_dlopen].
  rewrite app_nil_r.
  pose proof (error_sink_events_sink env hist) as F.
  induction F as [|e t He _ IH]; [reflexivity|].
  cbn [List.filter]. destruct e; try discriminate He; exact IH.
Qed.

Lemma filter_dlopen_dlerror_report (env : Env) (hist : list Event)
    (msg : string) (tail : list Event) :
  dlerror_report env hist msg tail -> List.filter is_dlopen tail = [].
Proof.
  intros R.
  assert (H : Forall (fun e => is_dlopen e = false) tail).
  { rewrite Forall_forall. intros e He. apply list_elem_of_In in He.
    by_event_kind. }
  clear R. induction H as [|e tail He _ IH]; [reflexivity|].
  cbn [List.filter]. rewrite He. exact IH.
Qed.

(** The [dlopen] calls of a run, in order: successful opens of dependencies,
    then at most one more, which is either a failed open of a dependency or
    the open of [argv[2]]; so nothing is opened after a failure or after the
    target. Every one of them asks for lazy binding and global symbols. *)
Theorem dlopen_calls_of_a_run (env : Env) (argv : list string) (s : State) :
  let run := run_main env argv s in
  let fl := Z.lor RTLD_LAZY RTLD_GLOBAL in
  exists deps final,
    List.filter is_dlopen (new_events s (fst run)) = deps ++ final
    /\ Forall (fun e => exists p h, e = EDlopen Dependency p fl (Some h)) deps
    /\ (final = []
        \/ (exists p, final = [EDlopen Dependency p fl None])
        \/ (exists library r,
              final = [EDlopen Target library fl r]
              /\ argv !! 2%nat = Some library)).
Proof.
  cbv zeta. destruct (run_main env argv s) as [s' out] eqn:Hrun.
  cbn [fst snd].
  destruct (run_main_cases env argv s s' out Hrun)
    as [(Hlen & -> & ->)|(req & Hreq & Hlen & _ & Hcases)].
  { rewrite new_events_same. exists [], []. repeat split; auto. }
  destruct (spec_request_fields argv req Hreq) as (_ & Hlib & _ & _).
  cbv zeta in Hcases.
  destruct Hcases as [(_ & Hnew & ->)|(_ & t & r & Hnew & Hshape & ->)];
    rewrite Hnew.
  { exists [], []. rewrite List.filter_app, filter_dlopen_cleanup.
    repeat split; auto. }
  inversion Hshape; subst.
  { (* the store through null comes right after the first open *)
    rewrite List.filter_app, filter_dlopen_cleanup.
    cbn [List.filter is_dlopen app].
    destruct (os_dlopen env _ (path d) (Z.lor RTLD_LAZY RTLD_GLOBAL))
      as [h|msg].
    - eexists [_], []. split; [reflexivity|].
      split; [repeat constructor; eauto|auto].
    - exists [], [EDlopen Dependency (path d) (Z.lor RTLD_LAZY RTLD_GLOBAL)
                    None].
      split; [reflexivity|]. split; [constructor|eauto]. }
  all: match goal with
       | L : loader_trace _ ?t1 |- _ => exists (List.filter is_dlopen t1)
       end;
    rewrite !List.filter_app, filter_dlopen_cleanup,
      ?filter_dlopen_report, ?(filter_dlclose_nil is_dlopen) by reflexivity;
    repeat match goal with
      | R : dlerror_report _ _ _ ?tl |- _ =>
          rewrite (filter_dlopen_dlerror_report _ _ _ _ R)
      end;
    cbn [List.filter is_dlopen app]; rewrite ?app_nil_r;
    eexists; (split; [reflexivity|]);
    (split; [eapply filter_dlopen_loader; eassumption|]);
    eauto 8.
Qed.

(** ** The array of dependency handles *)

Lemma scan_dependencies_length (deps : list string) :
  forall u,
    (length (scan_dependencies u deps) + length (List.filter is_marker deps)
     = length deps)%nat.
Proof.
  induction deps as [|a deps IH]; intros u; [reflexivity|].
  cbn [scan_dependencies List.filter]. destruct (is_marker a); cbn [length].
  - rewrite <- (IH true). lia.
  - rewrite <- (IH false). lia.
Qed.

Lemma dependency_handles_length (specs : list DependencySpec)
    (t : list Event) :
  loader_trace specs t ->
  length (dependency_handles t) = length (opened_paths t).
Proof.
  induction 1 as [|p h rest t _ IH|p h res rest t _ IH]; [reflexivity| |];
    unfold dependency_handles, opened_paths in *; cbn; rewrite IH;
    reflexivity.
Qed.

(** When the loop over the dependency arguments completes, the array holds
    the handles of the libraries opened, in load order, in its first [count]
    cells and null in the others; [count] is the number of arguments that are
    not markers, so it never passes the [argc - 4] cells allocated. *)
Theorem handles_array_after_loading (env : Env) (argv : list string)
    (s s' : State) (handles : option (list (option Handle))) (count : Z) :
  (4 <= length argv)%nat ->
  let n := Z.of_nat (length argv) - 4 in
  load_dependencies env argv (Z.to_nat n) 0
    (if n >? 0 then calloc_handles n else None) 0 false s
  = (s', Val (handles, count)) ->
  let opened := dependency_handles (new_events s s') in
  count = Z.of_nat (length opened)
  /\ count + Z.of_nat (length (List.filter is_marker (dependency_args argv)))
     = n
  /\ handles
     = (if n >? 0
        then Some (map Some opened
                   ++ replicate (Z.to_nat n - length opened)%nat None)
        else None).
Proof.
  intros Hlen n Hrun.
  destruct (argv_split argv Hlen)
    as (prog & temp & library & deps & symbol & ->).
  destruct (spec_request_fields _ _
              (spec_request_args prog temp library symbol deps))
    as (_ & _ & _ & Hd).
  cbn [dependency_specs] in Hd.
  assert (Hn : n = Z.of_nat (length deps)).
  { unfold n. simpl length. rewrite length_app. simpl length. lia. }
  unfold n in Hrun. rewrite load_dependencies_pack in Hrun.
  destruct (spec_dependency_loader_run env (scan_dependencies false deps) [] s)
    as (t0 & Ht0
        & [[Hspec Hall]|(p & msg & failed & tail & _ & _ & _ & _ & Hspec)]);
    rewrite Hspec in Hrun; [|discriminate].
  unfold pack in Hrun. cbn [map_res app] in Hrun.
  inversion Hrun; subst s' handles count; clear Hrun.
  cbv zeta. rewrite (new_events_app s _ t0) by reflexivity.
  split; [reflexivity|]. split; [|reflexivity].
  rewrite (dependency_handles_length _ _ Ht0), Hall, length_map.
  pose proof (scan_dependencies_length deps false) as Hs.
  assert (Hdeps : dependency_args
                    (prog :: temp :: library :: deps ++ [symbol]) = deps).
  { unfold dependency_args.
    change (drop 3 (prog :: temp :: library :: deps ++ [symbol]))
      with (deps ++ [symbol]).
    replace (length (prog :: temp :: library :: deps ++ [symbol]) - 4)%nat
      with (length deps)
      by (simpl length; rewrite length_app; simpl length; lia).
    apply take_app_length. }
  rewrite Hdeps. lia.
Qed.

Lemma handles_array_after_loading_witness :
  let n := Z.of_nat (length example_argv) - 4 in
  let run := load_dependencies example_env example_argv (Z.to_nat n) 0
               (if n >? 0 then calloc_handles n else None) 0 false
               initial_state in
  let opened := dependency_handles (new_events initial_state (fst run)) in
  (4 <= length example_argv)%nat
  /\ snd run = Val (Some [Some 1%positive; Some 2%positive; None], 2)
  /\ 2 = Z.of_nat (length opened)
  /\ 2 + Z.of_nat (length (List.filter is_marker
                             (dependency_args example_argv))) = n
  /\ Some [Some 1%positive; Some 2%positive; None]
     = (if n >? 0
        then Some (map Some opened
                   ++ replicate (Z.to_nat n - length opened)%nat None)
        else None).
Proof.
  intros n run opened.
  assert (Hlen : (4 <= length example_argv)%nat) by (simpl; lia).
  split; [exact Hlen|]. split; [reflexivity|].
  exact (handles_array_after_loading example_env example_argv initial_state
           (fst run) (Some [Some 1%positive; Some 2%positive; None]) 2
           Hlen eq_refl).
Defined.


(** * The Windows build *)

Lemma win32_bind_val {A B} (m : Win32.W A) (k : A -> Win32.W B)
    (t t' : list Win32.Event) (a : A) :
  m t = (t', Val a) -> Win32.bind m k t = k a t'.
Proof. intros H. unfold Win32.bind. rewrite H. reflexivity. Qed.

Lemma win32_arg_at (argv : list string) (k : nat) (a : string)
    (t : list Win32.Event) :
  argv !! k = Some a -> Win32.arg argv (Z.of_nat k) t = (t, Val a).
Proof.
  intros H. unfold Win32.arg.
  replace (Z.of_nat k <? 0) with false by (symmetry; apply Z.ltb_ge; lia).
  rewrite Nat2Z.id, H. reflexivity.
Qed.

Lemma win32_report_run {A} (env : Win32.Env) (hist : list Win32.Event)
    (text : string) (c : Z) :
  Win32.bind (Win32.error_fd env)
    (fun sink =>
       Win32.bind (Win32.fprintf sink text) (fun _ => @Win32.return_ A c))
    hist
  = (hist ++ Win32.report_events env hist text, Return c).
Proof.
  unfold Win32.report_events, Win32.error_fd, Win32.bind, Win32.getenv,
    Win32.fopen, Win32.ret, Win32.fprintf, Win32.return_.
  destruct (Win32.os_getenv env hist "DD_TRACE_LOG_FILE") as [p|].
  - destruct (Win32.os_fopen env _ p "a") as [f|];
      rewrite <- !app_assoc, drop_app_length; reflexivity.
  - rewrite <- !app_assoc, drop_app_length. reflexivity.
Qed.

Lemma win32_get_last_error_run (env : Win32.Env) (t : list Win32.Event) :
  Win32.GetLastError env t
  = (t ++ [Win32.EGetLastError (Win32.os_last_error env t)],
     Val (Win32.os_last_error env t)).
Proof. reflexivity. Qed.

Lemma win32_cleanup_run (env : Win32.Env) (temp : string)
    (t : list Win32.Event) :
  (if negb (Ascii.eqb (char_at temp 0) NUL)
   then Win32.bind (Win32.unlink env temp) (fun _ => Win32.ret tt)
   else Win32.ret tt) t
  = (t ++ Win32.cleanup_events env t temp, Val tt).
Proof.
  unfold Win32.cleanup_events.
  destruct (negb (Ascii.eqb (char_at temp 0) NUL)).
  - reflexivity.
  - rewrite app_nil_r. reflexivity.
Qed.

(** The loop either loads every argument it is given or stops at the first
    one that does not load. *)
Lemma win32_load_dependencies_run (env : Win32.Env) (argv : list string)
    (rest : list string) :
  forall (k : nat) (hist : list Win32.Event),
    (forall j a, rest !! j = Some a -> argv !! (3 + k + j)%nat = Some a) ->
    (exists handles,
       length handles = length rest
       /\ Win32.load_dependencies env argv (length rest) (Z.of_nat k) hist
          = (hist ++ Win32.loads rest handles, Val tt))
    \/ (exists j a handles code failed,
          rest !! j = Some a
          /\ length handles = j
          /\ Win32.os_load_library env
               (hist ++ Win32.loads (take j rest) handles) a = None
          /\ code = Win32.os_last_error env
                      (hist ++ Win32.loads (take j rest) handles
                       ++ [Win32.ELoadLibrary Dependency a None])
          /\ failed = Win32.loads (take j rest) handles
                      ++ [Win32.ELoadLibrary Dependency a None;
                          Win32.EGetLastError code]
          /\ Win32.load_dependencies env argv (length rest) (Z.of_nat k) hist
             = (hist ++ failed
                ++ Win32.report_events env (hist ++ failed)
                     (Win32.dependency_error_line code a),
                Return 9)).
Proof.
  induction rest as [|a rest IH]; intros k hist Hargs.
  - left. exists []. split; [reflexivity|]. cbn. rewrite app_nil_r.
    reflexivity.
  - remember (Win32.load_dependencies env argv (length (a :: rest))
                (Z.of_nat k) hist) as out eqn:Hout.
    cbn [length Win32.load_dependencies] in Hout.
    replace (3 + Z.of_nat k) with (Z.of_nat (3 + k + 0)) in Hout by lia.
    rewrite (win32_bind_val _ _ _ _ _
               (win32_arg_at argv _ a hist (Hargs 0%nat a eq_refl))) in Hout.
    unfold Win32.bind at 1, Win32.LoadLibrary in Hout.
    replace (Z.of_nat k + 1) with (Z.of_nat (S k)) in Hout by lia.
    destruct (Win32.os_load_library env hist a) as [h|] eqn:E;
      cbv beta iota zeta in Hout.
    + destruct (IH (S k) (hist ++ [Win32.ELoadLibrary Dependency a (Some h)]))
        as [(hs & Hlen & Hrun)
           |(j & b & hs & code & failed & Hj & Hlen & Hos & Hcode & Hf & Hrun)].
      { intros j b Hj.
        replace (3 + S k + j)%nat with (3 + k + S j)%nat by lia.
        apply Hargs. exact Hj. }
      * left. exists (h :: hs). split; [cbn; lia|].
        rewrite Hout, Hrun, <- app_assoc. reflexivity.
      * right. exists (S j), b, (h :: hs), code,
          (Win32.ELoadLibrary Dependency a (Some h) :: failed).
        rewrite <- ?app_assoc in Hos. rewrite <- ?app_assoc in Hcode.
        rewrite <- ?app_assoc in Hrun.
        split; [exact Hj|]. split; [cbn; lia|].
        split; [exact Hos|]. split; [exact Hcode|].
        split; [rewrite Hf; reflexivity|].
        rewrite Hout, Hrun. reflexivity.
    + right. exists 0%nat, a, [],
        (Win32.os_last_error env
           (hist ++ [Win32.ELoadLibrary Dependency a None])),
        [Win32.ELoadLibrary Dependency a None;
         Win32.EGetLastError
           (Win32.os_last_error env
              (hist ++ [Win32.ELoadLibrary Dependency a None]))].
      cbn [take Win32.loads zip_with app].
      split; [reflexivity|]. split; [reflexivity|].
      split; [rewrite app_nil_r; exact E|].
      split; [reflexivity|]. split; [reflexivity|].
      rewrite (win32_bind_val _ _ _ _ _ (win32_get_last_error_run env _))
        in Hout.
      cbv beta in Hout. rewrite win32_report_run in Hout. rewrite <- ?app_assoc in Hout.
      exact Hout.
Qed.

Lemma win32_run_short (env : Win32.Env) (argv : list string)
    (t : list Win32.Event) :
  (length argv < 4)%nat -> Win32.run_main env argv t = (t, Exited 12).
Proof.
  intros Hlen. unfold Win32.run_main, Win32.main.
  replace (Z.of_nat (length argv) >? 3) with false
    by (symmetry; rewrite Z.gtb_ltb; apply Z.ltb_ge; lia).
  reflexivity.
Qed.

(** Every run of the Windows build on four arguments or more. *)
Lemma win32_run_cases (env : Win32.Env) (prog temp library symbol : string)
    (deps : list string) (t : list Win32.Event) :
  let argv := prog :: temp :: library :: deps ++ [symbol] in
  let c := Win32.cleanup_events env t temp in
  ((strcmp "__dummy_mirror_test" library =? 0) = true
   /\ Win32.run_main env argv t
      = (t ++ c ++ [Win32.EPrintf
                      (String.append library (String.append " " symbol))],
         Exited 0))
  \/ ((strcmp "__dummy_mirror_test" library =? 0) = false
      /\ exists ev r,
           Win32.run_main env argv t = (t ++ c ++ ev, outcome_of r)
           /\ Win32.pipeline_run env deps library symbol (t ++ c) ev r).
Proof.
  intros argv c.
  remember (Win32.main env argv t) as out eqn:Hout.
  assert (Hrm : Win32.run_main env argv t = (fst out, outcome_of (snd out))).
  { unfold Win32.run_main. rewrite <- Hout. destruct out. reflexivity. }
  rewrite Hrm. clear Hrm.
  unfold Win32.main in Hout.
  assert (Hargc : Z.of_nat (length argv) = Z.of_nat (length deps) + 4).
  { unfold argv. simpl length. rewrite length_app. simpl length. lia. }
  replace (Z.of_nat (length argv) >? 3) with true in Hout
    by (symmetry; rewrite Z.gtb_ltb; apply Z.ltb_lt; lia).
  change 1 with (Z.of_nat 1) in Hout.
  rewrite (win32_bind_val _ _ _ _ _ (win32_arg_at argv 1 temp t eq_refl))
    in Hout.
  rewrite (win32_bind_val _ _ _ _ _ (win32_cleanup_run env temp t)) in Hout.
  fold c in Hout. change 2 with (Z.of_nat 2) in Hout.
  rewrite (win32_bind_val _ _ _ _ _
             (win32_arg_at argv 2 library (t ++ c) eq_refl)) in Hout.
  rewrite Hargc in Hout.
  replace (Z.of_nat (length deps) + 4 - Z.of_nat 1)
    with (Z.of_nat (3 + length deps)) in Hout by lia.
  assert (Hsym : argv !! (3 + length deps)%nat = Some symbol).
  { unfold argv. simpl. apply list_lookup_middle. reflexivity. }
  rewrite (win32_bind_val _ _ _ _ _ (win32_arg_at argv _ symbol (t ++ c) Hsym))
    in Hout.
  destruct (strcmp "__dummy_mirror_test" library =? 0); [left|right];
    (split; [reflexivity|]).
  { rewrite Hout. unfold Win32.bind, Win32.printf_s_s, Win32.return_.
    cbn [fst snd outcome_of]. rewrite <- app_assoc. reflexivity. }
  replace (Z.of_nat (length deps) + 4 - 4) with (Z.of_nat (length deps))
    in Hout by lia.
  rewrite Nat2Z.id in Hout. change 0 with (Z.of_nat 0) in Hout.
  destruct (win32_load_dependencies_run env argv deps 0 (t ++ c))
    as [(hs & Hlen & Hrun)
       |(j & a & hs & code & failed & Hj & Hlen & Hos & Hcode & Hf & Hrun)].
  { intros j a Hj. unfold argv. simpl. rewrite lookup_app_l; [exact Hj|].
    apply lookup_lt_Some in Hj. exact Hj. }
  - rewrite (win32_bind_val _ _ _ _ _ Hrun) in Hout.
    unfold Win32.bind at 1, Win32.LoadLibrary in Hout.
    destruct (Win32.os_load_library env ((t ++ c) ++ Win32.loads deps hs)
                library) as [h|] eqn:El; cbv beta iota zeta in Hout.
    + unfold Win32.bind at 1, Win32.GetProcAddress in Hout.
      destruct (Win32.os_proc_address env
                  (((t ++ c) ++ Win32.loads deps hs)
                   ++ [Win32.ELoadLibrary Target library (Some h)])
                  h symbol) as [fn|] eqn:Ep; cbv beta iota zeta in Hout.
      * unfold Win32.bind, Win32.call, Win32.return_ in Hout.
        destruct (Win32.os_returns env
                    ((((t ++ c) ++ Win32.loads deps hs)
                      ++ [Win32.ELoadLibrary Target library (Some h)])
                     ++ [Win32.EGetProcAddress h symbol (Some fn)]) fn)
          eqn:Er; rewrite Hout; cbn [fst snd].
        -- exists ((Win32.loads deps hs
                    ++ [Win32.ELoadLibrary Target library (Some h);
                        Win32.EGetProcAddress h symbol (Some fn)])
                   ++ [Win32.ECall fn]), (Return 0).
           split; [rewrite <- !app_assoc; reflexivity|].
           eapply Win32.run_success; [exact Hlen|reflexivity|].
           rewrite <- Er, <- !app_assoc. reflexivity.
        -- exists ((Win32.loads deps hs
                    ++ [Win32.ELoadLibrary Target library (Some h);
                        Win32.EGetProcAddress h symbol (Some fn)])
                   ++ [Win32.ECall fn]), NoReturn.
           split; [rewrite <- !app_assoc; reflexivity|].
           eapply Win32.run_blocked; [exact Hlen|reflexivity|].
           rewrite <- Er, <- !app_assoc. reflexivity.
      * rewrite (win32_bind_val _ _ _ _ _ (win32_get_last_error_run env _))
          in Hout.
        cbv beta in Hout. rewrite win32_report_run in Hout.
        rewrite Hout. cbn [fst snd].
        eexists (_ ++ Win32.report_events env _ _), (Return 11).
        split; [|eapply Win32.run_symbol_failure;
                 [exact Hlen| |reflexivity|reflexivity]].
        -- rewrite <- !app_assoc. reflexivity.
        -- rewrite <- Ep, <- !app_assoc. reflexivity.
    + rewrite (win32_bind_val _ _ _ _ _ (win32_get_last_error_run env _))
        in Hout.
      cbv beta in Hout. rewrite win32_report_run in Hout.
      rewrite Hout. cbn [fst snd].
      eexists (_ ++ Win32.report_events env _ _), (Return 10).
      split; [|eapply Win32.run_target_failure;
               [exact Hlen| |reflexivity|reflexivity]].
      * rewrite <- !app_assoc. reflexivity.
      * rewrite <- El. reflexivity.
  - unfold Win32.bind at 1 in Hout. rewrite Hrun in Hout.
    rewrite Hout. cbn [fst snd].
    exists (failed ++ Win32.report_events env ((t ++ c) ++ failed)
                        (Win32.dependency_error_line code a)), (Return 9).
    split; [rewrite <- app_assoc; reflexivity|].
    rewrite Hf. eapply Win32.run_dependency_failure; eauto.
Qed.

Lemma win32_new_events_app (t ev : list Win32.Event) :
  Win32.new_events t (t ++ ev) = ev.
Proof. unfold Win32.new_events. apply drop_app_length. Qed.

(** Every run of the Windows build. *)
Lemma win32_main_cases (env : Win32.Env) (argv : list string)
    (t : list Win32.Event) :
  ((length argv < 4)%nat /\ Win32.run_main env argv t = (t, Exited 12))
  \/ (exists prog temp library deps symbol,
        argv = prog :: temp :: library :: deps ++ [symbol]
        /\ (((strcmp "__dummy_mirror_test" library =? 0) = true
             /\ Win32.run_main env argv t
                = (t ++ Win32.cleanup_events env t temp
                     ++ [Win32.EPrintf
                           (String.append library (String.append " " symbol))],
                   Exited 0))
            \/ ((strcmp "__dummy_mirror_test" library =? 0) = false
                /\ exists ev r,
                     Win32.run_main env argv t
                     = (t ++ Win32.cleanup_events env t temp ++ ev,
                        outcome_of r)
                     /\ Win32.pipeline_run env deps library symbol
                          (t ++ Win32.cleanup_events env t temp) ev r))).
Proof.
  destruct (Nat.lt_ge_cases (length argv) 4) as [Hlen|Hlen].
  { left. split; [exact Hlen|]. apply win32_run_short. exact Hlen. }
  right. destruct (argv_split argv Hlen)
    as (prog & temp & library & deps & symbol & ->).
  exists prog, temp, library, deps, symbol. split; [reflexivity|].
  exact (win32_run_cases env prog temp library symbol deps t).
Qed.

Lemma win32_cleanup_In (env : Win32.Env) (hist : list Win32.Event)
    (temp : string) (e : Win32.Event) :
  In e (Win32.cleanup_events env hist temp) ->
  e = Win32.EUnlink temp (Win32.os_unlink env hist temp).
Proof.
  unfold Win32.cleanup_events.
  destruct (negb (Ascii.eqb (char_at temp 0) NUL)); simpl; [|tauto].
  intros [<-|[]]. reflexivity.
Qed.

Lemma win32_loads_In (paths : list string) (handles : list Handle)
    (e : Win32.Event) :
  In e (Win32.loads paths handles) ->
  exists a h, In a paths /\ e = Win32.ELoadLibrary Dependency a (Some h).
Proof.
  unfold Win32.loads. revert handles.
  induction paths as [|a paths IH]; intros [|h handles]; simpl; try tauto.
  intros [<-|Hin].
  - exists a, h. split; [left|]; reflexivity.
  - destruct (IH handles Hin) as (a' & h' & Ha & ->).
    exists a', h'. split; [right; exact Ha|reflexivity].
Qed.

(** What [fprintf(error_fd(), ...)] adds to a trace: the probes of
    [error_fd], then the one write. *)
Lemma win32_report_shape (env : Win32.Env) (hist : list Win32.Event)
    (text : string) :
  exists probe stream,
    Win32.report_events env hist text
    = probe ++ [Win32.EFprintf text stream]
    /\ forall e, In e probe ->
         (exists name r, e = Win32.EGetenv name r)
         \/ (exists p mode r, e = Win32.EFopen p mode r).
Proof.
  unfold Win32.report_events, Win32.error_fd, Win32.bind, Win32.getenv,
    Win32.fopen, Win32.ret.
  destruct (Win32.os_getenv env hist "DD_TRACE_LOG_FILE") as [p|] eqn:Eg.
  - destruct (Win32.os_fopen env _ p "a") as [f|] eqn:Ef;
      rewrite <- !app_assoc, drop_app_length;
      eexists _, _; (split; [reflexivity|]);
      intros e [<-|[<-|[]]]; eauto 6.
  - rewrite drop_app_length. eexists _, _. split; [reflexivity|].
    intros e [<-|[]]; eauto.
Qed.

Lemma win32_report_In (env : Win32.Env) (hist : list Win32.Event)
    (text : string) (e : Win32.Event) :
  In e (Win32.report_events env hist text) ->
  (exists name r, e = Win32.EGetenv name r)
  \/ (exists p mode r, e = Win32.EFopen p mode r)
  \/ (exists stream, e = Win32.EFprintf text stream).
Proof.
  destruct (win32_report_shape env hist text) as (probe & stream & -> & Hp).
  intros Hin. apply in_app_or in Hin as [Hin|[<-|[]]].
  - destruct (Hp e Hin); tauto.
  - right. right. eauto.
Qed.

(** Splits a membership in a trace of the Windows build down to one event and
    closes the goal when the event has the wrong constructor. *)
Ltac win32_in_inv :=
  repeat match goal with
  | H : In _ (_ ++ _) |- _ => apply in_app_or in H as [H|H]
  | H : In _ (_ :: _) |- _ => destruct H as [H|H]
  | H : In _ [] |- _ => destruct H
  | H : In _ (Win32.cleanup_events _ _ _) |- _ =>
      apply win32_cleanup_In in H
  | H : In _ (Win32.loads _ _) |- _ =>
      apply win32_loads_In in H as (? & ? & _ & H)
  | H : In _ (Win32.report_events _ _ _) |- _ =>
      apply win32_report_In in H as [(? & ? & H)|[(? & ? & ? & H)|(? & H)]]
  end;
  try discriminate.

(** ** Exit codes of the Windows build *)


(** Each failure code of the Windows build stands for one failed call: a
    run returns 9 exactly when [LoadLibrary] failed for a dependency, 10
    exactly when it failed for the target, 11 exactly when [GetProcAddress]
    failed. *)
Theorem win32_exit_code_identifies_failure (env : Win32.Env)
    (argv : list string) (t : list Win32.Event) :
  let run := Win32.run_main env argv t in
  let new := Win32.new_events t (fst run) in
  (snd run = Exited 9
   <-> exists p, In (Win32.ELoadLibrary Dependency p None) new)
  /\ (snd run = Exited 10
      <-> exists p, In (Win32.ELoadLibrary Target p None) new)
  /\ (snd run = Exited 11
      <-> exists h name, In (Win32.EGetProcAddress h name None) new).
Proof.
  cbv zeta.
  destruct (win32_main_cases env argv t)
    as [(Hlen & ->)
       |(prog & temp & library & deps & symbol & Hargv
         & [(_ & ->)|(_ & ev & r & -> & Hshape)])];
    cbn [fst snd].
  { unfold Win32.new_events. rewrite drop_all.
    repeat split; try discriminate; intros (? & Hin);
      try destruct Hin as (? & Hin); destruct Hin. }
  { rewrite win32_new_events_app.
    repeat split; try discriminate; intros (? & Hin);
      try destruct Hin as (? & Hin); win32_in_inv. }
  rewrite win32_new_events_app.
  inversion Hshape; subst ev r; cbn [outcome_of];
    repeat split;
    try discriminate;
    try (intros (? & Hin); try destruct Hin as (? & Hin);
         subst; solve [win32_in_inv]);
    intros _; subst; repeat eexists; find_in.
Qed.

(** ** Error reports of the Windows build *)

Lemma win32_argv_parts (prog temp library symbol : string)
    (deps : list string) :
  let argv := prog :: temp :: library :: deps ++ [symbol] in
  argv !! 1%nat = Some temp
  /\ argv !! 2%nat = Some library
  /\ last argv = Some symbol
  /\ dependency_args argv = deps.
Proof.
  cbv zeta. repeat split.
  - change (prog :: temp :: library :: deps ++ [symbol])
      with ([prog; temp; library] ++ deps ++ [symbol]).
    rewrite app_assoc. apply last_snoc.
  - unfold dependency_args.
    change (drop 3 (prog :: temp :: library :: deps ++ [symbol]))
      with (deps ++ [symbol]).
    replace (length (prog :: temp :: library :: deps ++ [symbol]) - 4)%nat
      with (length deps)
      by (simpl length; rewrite length_app; simpl length; lia).
    apply take_app_length.
Qed.


(** ** Dependencies of the Windows build *)

Lemma win32_omap_none {A} (f : Win32.Event -> option A)
    (l : list Win32.Event) :
  (forall e, In e l -> f e = None) -> omap f l = [].
Proof.
  induction l as [|e l IH]; intros H; [reflexivity|].
  cbn. rewrite (H e (or_introl eq_refl)).
  apply IH. intros e' He'. apply H. right. exact He'.
Qed.

Lemma win32_dependency_paths_loads (paths : list string)
    (handles : list Handle) :
  length handles = length paths ->
  Win32.dependency_paths (Win32.loads paths handles) = paths.
Proof.
  unfold Win32.dependency_paths, Win32.loads. revert handles.
  induction paths as [|a paths IH]; intros [|h handles]; simpl;
    try discriminate; [reflexivity|].
  intros Hlen. cbn. f_equal. apply IH. lia.
Qed.

Lemma win32_dependency_paths_cleanup (env : Win32.Env)
    (hist : list Win32.Event) (temp : string) :
  Win32.dependency_paths (Win32.cleanup_events env hist temp) = [].
Proof.
  apply win32_omap_none. intros e He. win32_in_inv. subst e. reflexivity.
Qed.

Lemma win32_dependency_paths_report (env : Win32.Env)
    (hist : list Win32.Event) (text : string) :
  Win32.dependency_paths (Win32.report_events env hist text) = [].
Proof.
  apply win32_omap_none. intros e He. win32_in_inv; subst e; reflexivity.
Qed.

Lemma win32_unlinked_paths_loads (paths : list string)
    (handles : list Handle) :
  Win32.unlinked_paths (Win32.loads paths handles) = [].
Proof.
  apply win32_omap_none. intros e He. win32_in_inv. subst e. reflexivity.
Qed.

Lemma win32_unlinked_paths_report (env : Win32.Env)
    (hist : list Win32.Event) (text : string) :
  Win32.unlinked_paths (Win32.report_events env hist text) = [].
Proof.
  apply win32_omap_none. intros e He. win32_in_inv; subst e; reflexivity.
Qed.

Lemma win32_unlinked_paths_cleanup (env : Win32.Env)
    (hist : list Win32.Event) (temp : string) :
  Win32.unlinked_paths (Win32.cleanup_events env hist temp)
  = if negb (Ascii.eqb (char_at temp 0) NUL) then [temp] else [].
Proof.
  unfold Win32.cleanup_events.
  destruct (negb (Ascii.eqb (char_at temp 0) NUL)); reflexivity.
Qed.

(** The Windows build has no unlink marker.  Past the dummy-mirror check it
    hands every dependency argument, a ["-"] as any other, to [LoadLibrary]
    in argument order, stopping after the first one that fails (exit code 9);
    the only path it ever deletes is its own temp file. *)
Theorem win32_every_dependency_argument_is_loaded (env : Win32.Env)
    (argv : list string) (temp library : string) (t : list Win32.Event) :
  (4 <= length argv)%nat ->
  argv !! 1%nat = Some temp ->
  argv !! 2%nat = Some library ->
  (strcmp "__dummy_mirror_test" library =? 0) = false ->
  let run := Win32.run_main env argv t in
  let new := Win32.new_events t (fst run) in
  (snd run = Exited 9 ->
   exists j a,
     dependency_args argv !! j = Some a
     /\ In (Win32.ELoadLibrary Dependency a None) new
     /\ Win32.dependency_paths new = take (S j) (dependency_args argv))
  /\ (snd run <> Exited 9 ->
      Win32.dependency_paths new = dependency_args argv)
  /\ Win32.unlinked_paths new
     = if negb (Ascii.eqb (char_at temp 0) NUL) then [temp] else [].
Proof.
  intros Hlen Htemp Hlib Hd. cbv zeta.
  destruct (win32_main_cases env argv t)
    as [(Hshort & _)
       |(prog & temp' & library' & deps & symbol & Hargv
         & [(Hd' & _)|(_ & ev & r & -> & Hshape)])];
    [lia| |];
    destruct (win32_argv_parts prog temp' library' symbol deps)
      as (Htemp' & Hlib' & _ & Hdeps);
    cbv zeta in Htemp', Hlib', Hdeps;
    rewrite <- Hargv in Htemp', Hlib', Hdeps;
    assert (temp' = temp) by congruence;
    assert (library' = library) by congruence; subst temp' library';
    [congruence|].
  cbn [fst snd]. rewrite win32_new_events_app, Hdeps.
  unfold Win32.dependency_paths, Win32.unlinked_paths.
  rewrite !omap_app.
  fold (Win32.dependency_paths (Win32.cleanup_events env t temp)).
  fold (Win32.unlinked_paths (Win32.cleanup_events env t temp)).
  rewrite win32_dependency_paths_cleanup, win32_unlinked_paths_cleanup.
  inversion Hshape; subst ev r; cbn [outcome_of]; subst;
    rewrite ?omap_app;
    repeat match goal with
    | |- context [omap ?f (Win32.report_events ?e ?h ?x)] =>
        first
          [ change (omap f (Win32.report_events e h x))
              with (Win32.dependency_paths (Win32.report_events e h x));
            rewrite win32_dependency_paths_report
          | change (omap f (Win32.report_events e h x))
              with (Win32.unlinked_paths (Win32.report_events e h x));
            rewrite win32_unlinked_paths_report ]
    | |- context [omap ?f (Win32.loads ?p ?h)] =>
        first
          [ change (omap f (Win32.loads p h))
              with (Win32.dependency_paths (Win32.loads p h));
            rewrite win32_dependency_paths_loads
              by (rewrite ?length_take;
                  first [ lia
                        | match goal with
                          | Hj : _ !! _ = Some _ |- _ =>
                              apply lookup_lt_Some in Hj; lia
                          end ])
          | change (omap f (Win32.loads p h))
              with (Win32.unlinked_paths (Win32.loads p h));
            rewrite win32_unlinked_paths_loads ]
    end;
    cbn [omap list_omap app]; rewrite ?app_nil_r.
  - split; [intros _|split; [congruence|reflexivity]].
    exists (length handles), a. split; [assumption|].
    split; [find_in|]. symmetry. apply take_S_r. assumption.
  - split; [discriminate|]. split; reflexivity.
  - split; [discriminate|]. split; reflexivity.
  - split; [discriminate|]. split; reflexivity.
  - split; [discriminate|]. split; reflexivity.
Qed.

Lemma win32_every_dependency_argument_is_loaded_witness :
  let argv := ["trampoline.exe"; "C:\tmp\launcher"; "target.dll"; "dep.dll";
               "-"; "other.dll"; "do_init"] in
  let run := Win32.run_main Win32.example_env argv [] in
  let new := Win32.new_events [] (fst run) in
  (4 <= length argv)%nat
  /\ (strcmp "__dummy_mirror_test" "target.dll" =? 0) = false
  /\ (snd run = Exited 9 ->
      exists j a,
        dependency_args argv !! j = Some a
        /\ In (Win32.ELoadLibrary Dependency a None) new
        /\ Win32.dependency_paths new = take (S j) (dependency_args argv))
  /\ (snd run <> Exited 9 ->
      Win32.dependency_paths new = dependency_args argv)
  /\ Win32.unlinked_paths new
     = if negb (Ascii.eqb (char_at "C:\tmp\launcher" 0) NUL)
       then ["C:\tmp\launcher"] else [].
Proof.
  intros argv run new.
  assert (Hlen : (4 <= length argv)%nat) by (simpl; lia).
  split; [exact Hlen|]. split; [reflexivity|].
  exact (win32_every_dependency_argument_is_loaded Win32.example_env argv
           "C:\tmp\launcher" "target.dll" [] Hlen eq_refl eq_refl eq_refl).
Defined.

(** ** A successful run of the Windows build *)

(** A run of the Windows build that returns 0 for a target other than the
    sentinel has loaded the target, resolved the last argument in it, called
    the result and seen it return.  The call is the last event of the run:
    nothing is released afterwards.  Before the target, the run only
    deleted its temp file and loaded dependencies, all with success. *)
Theorem win32_exit_0_means_symbol_ran (env : Win32.Env) (argv : list string)
    (library : string) (t : list Win32.Event) :
  argv !! 2%nat = Some library ->
  (strcmp "__dummy_mirror_test" library =? 0) = false ->
  let run := Win32.run_main env argv t in
  snd run = Exited 0 ->
  exists pre h fn symbol,
    last argv = Some symbol
    /\ Win32.new_events t (fst run)
       = pre ++ [Win32.ELoadLibrary Target library (Some h);
                 Win32.EGetProcAddress h symbol (Some fn);
                 Win32.ECall fn]
    /\ Win32.os_returns env
         (t ++ pre ++ [Win32.ELoadLibrary Target library (Some h);
                       Win32.EGetProcAddress h symbol (Some fn)]) fn = true
    /\ forall e, In e pre ->
         (exists p r, e = Win32.EUnlink p r)
         \/ (exists a h', In a (dependency_args argv)
                          /\ e = Win32.ELoadLibrary Dependency a (Some h')).
Proof.
  intros Hlib Hd. cbv zeta.
  destruct (win32_main_cases env argv t)
    as [(Hshort & ->)
       |(prog & temp & library' & deps & symbol & Hargv
         & [(Hd' & _)|(_ & ev & r & -> & Hshape)])];
    [discriminate| |];
    destruct (win32_argv_parts prog temp library' symbol deps)
      as (_ & Hlib' & Hsym & Hdeps);
    cbv zeta in Hlib', Hsym, Hdeps;
    rewrite <- Hargv in Hlib', Hsym, Hdeps;
    assert (library' = library) by congruence; subst library';
    [congruence|].
  cbn [fst snd]. rewrite win32_new_events_app. intros Hout.
  inversion Hshape; subst ev r; cbn [outcome_of] in Hout; try discriminate.
  subst loaded.
  exists (Win32.cleanup_events env t temp ++ Win32.loads deps handles),
    h, fn, symbol.
  split; [exact Hsym|].
  split; [rewrite <- !app_assoc; reflexivity|].
  split; [rewrite <- H1, <- !app_assoc; reflexivity|].
  intros e He. apply in_app_or in He as [He|He].
  - apply win32_cleanup_In in He. left. eauto.
  - apply win32_loads_In in He as (a & h' & Ha & ->). right.
    exists a, h'. rewrite Hdeps. auto.
Qed.

Lemma win32_exit_0_means_symbol_ran_witness :
  let argv := ["trampoline.exe"; "C:\tmp\launcher"; "target.dll"; "dep.dll";
               "do_init"] in
  let run := Win32.run_main Win32.example_env argv [] in
  (strcmp "__dummy_mirror_test" "target.dll" =? 0) = false
  /\ snd run = Exited 0
  /\ exists pre h fn symbol,
       last argv = Some symbol
       /\ Win32.new_events [] (fst run)
          = pre ++ [Win32.ELoadLibrary Target "target.dll" (Some h);
                    Win32.EGetProcAddress h symbol (Some fn);
                    Win32.ECall fn]
       /\ Win32.os_returns Win32.example_env
            ([] ++ pre ++ [Win32.ELoadLibrary Target "target.dll" (Some h);
                           Win32.EGetProcAddress h symbol (Some fn)]) fn
          = true
       /\ forall e, In e pre ->
            (exists p r, e = Win32.EUnlink p r)
            \/ (exists a h', In a (dependency_args argv)
                             /\ e = Win32.ELoadLibrary Dependency a (Some h')).
Proof.
  intros argv run. split; [reflexivity|]. split; [reflexivity|].
  exact (win32_exit_0_means_symbol_ran Win32.example_env argv "target.dll" []
           eq_refl eq_refl eq_refl).
Defined.

(** ** The two builds *)

(** Before any library is loaded the two builds are one program: with fewer
    than four arguments, or with the sentinel as target, the POSIX build and
    the Windows build return the same code, delete the same path and print
    the same text, whatever their environments answer. *)
Theorem builds_agree_before_loading (env : Env) (wenv : Win32.Env)
    (argv : list string) (s : State) (t : list Win32.Event) :
  (length argv < 4)%nat \/ argv !! 2%nat = Some "__dummy_mirror_test" ->
  let posix := run_main env argv s in
  let win := Win32.run_main wenv argv t in
  let posix_new := new_events s (fst posix) in
  let win_new := Win32.new_events t (fst win) in
  snd posix = snd win
  /\ unlinked_paths posix_new = Win32.unlinked_paths win_new
  /\ (forall text, In (EPrintf text) posix_new
                   <-> In (Win32.EPrintf text) win_new)
  /\ length posix_new = length win_new.
Proof.
  intros Hcase. cbv zeta.
  destruct (run_main env argv s) as [s' out] eqn:Hrun. cbn [fst snd].
  destruct (run_main_cases env argv s s' out Hrun)
    as [(Hlen & -> & ->)|(req & Hreq & Hlen & _ & Hcases)].
  { rewrite (win32_run_short wenv argv t Hlen). cbn [fst snd].
    rewrite new_events_same. unfold Win32.new_events. rewrite drop_all.
    repeat split; intros []. }
  destruct Hcase as [Hshort|Hlib]; [lia|].
  destruct (spec_request_fields argv req Hreq) as (Htemp & Hl & Hsym & _).
  assert (Hl' : target_library_path req = "__dummy_mirror_test")
    by congruence.
  cbv zeta in Hcases. rewrite Hl' in Hcases.
  destruct Hcases as [(_ & -> & ->)|(Hd & _)];
    [|rewrite strcmp_refl in Hd; discriminate].
  destruct (win32_main_cases wenv argv t)
    as [(Hshort & _)
       |(prog & temp & library & deps & symbol & Hargv
         & [(_ & ->)|(Hd & _)])];
    [lia| |];
    destruct (win32_argv_parts prog temp library symbol deps)
      as (Htemp' & Hlib' & Hsym' & _);
    cbv zeta in Htemp', Hlib', Hsym';
    rewrite <- Hargv in Htemp', Hlib', Hsym';
    assert (library = "__dummy_mirror_test") by congruence; subst library;
    [|rewrite strcmp_refl in Hd; discriminate].
  assert (launcher_temp_path req = temp) as -> by congruence.
  assert (symbol_name req = symbol) as -> by congruence.
  cbn [fst snd]. rewrite win32_new_events_app.
  unfold cleanup_events, Win32.cleanup_events.
  destruct (negb (Ascii.eqb (char_at temp 0) NUL)); cbn.
  - repeat split; try reflexivity;
      intros [Heq|[Heq|[]]]; try discriminate;
      right; left; congruence.
  - repeat split; try reflexivity;
      intros [Heq|[]]; left; congruence.
Qed.

Lemma builds_agree_before_loading_witness :
  let argv := ["trampoline"; "/tmp/launcher"; "__dummy_mirror_test"; "-";
               "libdep.so"; "do_init"] in
  let posix := run_main example_env argv initial_state in
  let win := Win32.run_main Win32.example_env argv [] in
  let posix_new := new_events initial_state (fst posix) in
  let win_new := Win32.new_events [] (fst win) in
  ((length argv < 4)%nat \/ argv !! 2%nat = Some "__dummy_mirror_test")
  /\ snd posix = snd win
  /\ unlinked_paths posix_new = Win32.unlinked_paths win_new
  /\ (forall text, In (EPrintf text) posix_new
                   <-> In (Win32.EPrintf text) win_new)
  /\ length posix_new = length win_new.
Proof.
  intros argv posix win posix_new win_new.
  assert (Hcase : (length argv < 4)%nat
                  \/ argv !! 2%nat = Some "__dummy_mirror_test")
    by (right; reflexivity).
  split; [exact Hcase|].
  exact (builds_agree_before_loading example_env Win32.example_env argv
           initial_state [] Hcase).
Defined.
